(** * Project analysis core: scanner, dependency graph, code metrics

    A shallow embedding of the analysis core of the project-manager server
    (src/utils/file-utils.ts, src/utils/parser-utils.ts,
    src/analyzers/file-analyzer.ts, src/analyzers/code-analyzer.ts and
    src/analyzers/dependency-analyzer.ts) together with the properties its
    specification states about it.

    Conventions of the embedding.
    - A JavaScript string is the list of its UTF-16 code units ([list N]).
    - A rejected promise / thrown [Error] is the [Throw] case of [result].
    - Counters and array indices are [nat], byte sizes are [N], the
      [maxDepth] argument is a [Z], ratios computed with [/] are exact
      rationals ([Q]); IEEE rounding of the division is not modelled.
    - The file system, [glob] and tree-sitter are collaborators: the
      functions below receive what those calls return (record [Env], and the
      finite directory tree [Entry]). *)

From Stdlib Require Import QArith.
From stdpp Require Import base list gmap sets strings.
Close Scope Q_scope.
Set Warnings "-register-all".

(** ** JavaScript strings and the String.prototype methods the code calls *)

Module JsString.

Abbreviation jsstring := (list N).

(** An ASCII literal as a JavaScript string. *)
Definition js (s : string) : jsstring :=
  List.map Ascii.N_of_ascii (String.list_ascii_of_string s).

Definition eqb (a b : jsstring) : bool := bool_decide (a = b).

(** [s.startsWith(p)] *)
Fixpoint startsWith (s p : jsstring) : bool :=
  match p, s with
  | [], _ => true
  | _ :: _, [] => false
  | a :: p', b :: s' => (a =? b)%N && startsWith s' p'
  end.

(** [s.endsWith(p)] *)
Definition endsWith (s p : jsstring) : bool :=
  startsWith (rev s) (rev p).

(** [s.includes(p)]: substring search. *)
Fixpoint includes (s p : jsstring) : bool :=
  startsWith s p ||
  match s with
  | [] => false
  | _ :: s' => includes s' p
  end.

(** Number of positions of [s] at which [p] occurs (occurrences may
    overlap).  The code never computes this; it is the count the
    specification speaks of. *)
Fixpoint occurrences (s p : jsstring) : nat :=
  (if startsWith s p then 1 else 0) +
  match s with
  | [] => 0
  | _ :: s' => occurrences s' p
  end.

(** [s.split('\n')] *)
Fixpoint split_newline (s : jsstring) : list jsstring :=
  match s with
  | [] => [[]]
  | c :: s' =>
      if (c =? 10)%N then [] :: split_newline s'
      else match split_newline s' with
           | l :: ls => (c :: l) :: ls
           | [] => [[c]]
           end
  end.

(** ECMAScript WhiteSpace and LineTerminator code units, the ones
    [trim] strips. *)
Definition isWhiteSpace (c : N) : bool :=
  ((9 <=? c) && (c <=? 13) || (c =? 32) || (c =? 160) || (c =? 5760)
   || (8192 <=? c) && (c <=? 8202) || (c =? 8232) || (c =? 8233)
   || (c =? 8239) || (c =? 8287) || (c =? 12288) || (c =? 65279))%N.

Fixpoint trimStart (s : jsstring) : jsstring :=
  match s with
  | c :: s' => if isWhiteSpace c then trimStart s' else s
  | [] => []
  end.

Definition trimEnd (s : jsstring) : jsstring := rev (trimStart (rev s)).

(** [s.trim()] *)
Definition trim (s : jsstring) : jsstring := trimEnd (trimStart s).

(** [s.toLowerCase()] on the letters A-Z; other code units are kept.
    (The extension table and the grammar switch have ASCII keys without
    the letter k, so the full Unicode mapping selects the same entries.) *)
Definition toLowerCase (s : jsstring) : jsstring :=
  List.map (fun c => if ((65 <=? c) && (c <=? 90))%N then (c + 32)%N else c) s.

(** [s.replace(/(alt1|alt2|...)$/, '')] for literal alternatives: the
    leftmost position whose remainder is one of [alts] is where the
    regular expression matches; the match is deleted. *)
Fixpoint replaceSuffix (alts : list jsstring) (s : jsstring) : jsstring :=
  if existsb (eqb s) alts then []
  else match s with
       | [] => []
       | c :: s' => c :: replaceSuffix alts s'
       end.

(** [xs.indexOf(x)] on an array of strings; [None] stands for -1. *)
Fixpoint indexOf (xs : list jsstring) (x : jsstring) : option nat :=
  match xs with
  | [] => None
  | y :: ys => if eqb y x then Some 0 else S <$> indexOf ys x
  end.

End JsString.
Import JsString.

(** ** Thrown errors *)

(** The [Error] values the core throws, one constructor per message
    template, and the [TypeError] of a method call on [undefined]. *)
Inductive Error : Type :=
| ProjectPathDoesNotExist (absolutePath : jsstring)
| FunctionNotFound (functionName filePath : jsstring)
| FailedToReadFile (filePath : jsstring)
| FailedToBuildFileTree
| FailedToFindFiles
| TypeError.

Inductive result (A : Type) : Type :=
| Ok (a : A)
| Throw (e : Error).
Arguments Ok {A} a.
Arguments Throw {A} e.

#[global] Instance result_ret : MRet result := fun A a => Ok a.
#[global] Instance result_bind : MBind result := fun A B f m =>
  match m with
  | Ok a => f a
  | Throw e => Throw e
  end.

(** [try { body } catch { handler }] *)
Definition try_catch {A} (body : result A) (handler : Error → result A) : result A :=
  match body with
  | Ok a => Ok a
  | Throw e => handler e
  end.

Definition isOk {A} (r : result A) : bool :=
  match r with Ok _ => true | Throw _ => false end.

(** ** Value objects (src/types/index.ts) *)

(** What [languageMap[ext] || 'Unknown'] evaluates to.  [languageMap] is a
    plain object literal, so besides its own sixteen keys the lookup also
    finds the two all-lower-case properties of [Object.prototype]. *)
Inductive Language : Type :=
| Label (name : jsstring)
| ObjectConstructor        (* languageMap['constructor'] *)
| ObjectPrototype.         (* languageMap['__proto__'] *)

#[global] Instance Language_eq_dec : EqDecision Language.
Proof. solve_decision. Defined.

(** [language === 'name'] *)
Definition isLabel (language : Language) (name : string) : bool :=
  bool_decide (language = Label (js name)).

Module NodeType.
Inductive t : Type := file | directory.
End NodeType.

#[global] Instance NodeType_eq_dec : EqDecision NodeType.t.
Proof. solve_decision. Defined.

Module FileNode.
Inductive t : Type := mk {
  name : jsstring;
  path : jsstring;
  type : NodeType.t;
  size : option N;
  extension : option jsstring;
  language : option Language;
  children : option (list t);
}.
End FileNode.

Module LanguageStats.
Record t : Type := mk {
  language : Language;
  files : nat;
  lines : nat;
  percentage : Q;
}.
End LanguageStats.

Module ProjectStructure.
Record t : Type := mk {
  path : jsstring;
  files : list FileNode.t;
  totalFiles : nat;
  totalSize : N;
  languages : list LanguageStats.t;
}.
End ProjectStructure.

Module DependencyNode.
Record t : Type := mk {
  name : jsstring;
  path : jsstring;
  imports : list jsstring;
  exports : list jsstring;
  dependencies : list jsstring;
}.
End DependencyNode.

Module Edge.
Record t : Type := mk {
  from : jsstring;
  to : jsstring;
  type : jsstring;
}.
End Edge.

Module DependencyGraph.
Record t : Type := mk {
  nodes : list DependencyNode.t;
  edges : list Edge.t;
  circular : list (list jsstring);
}.
End DependencyGraph.

Inductive Level : Type := low | medium | high | very_high.

Module CodeComplexity.
Record t : Type := mk {
  file : jsstring;
  function : option jsstring;
  complexity : nat;
  level : Level;
  recommendations : list jsstring;
}.
End CodeComplexity.

Inductive Severity : Type := severity_low | severity_medium | severity_high.

(** The [message] template of a smell with the values interpolated in it. *)
Inductive SmellMessage : Type :=
| FunctionIsLinesLong (functionLength threshold : nat)
| MagicNumberDetected (literal : jsstring)
| SimilarCodeFoundAtLine (line : nat)
| FileHasLines (lines threshold : nat).

Module CodeSmell.
Record t : Type := mk {
  type : jsstring;
  severity : Severity;
  file : jsstring;
  line : option nat;
  message : SmellMessage;
  recommendation : jsstring;
}.
End CodeSmell.

Module FileCoverage.
Record t : Type := mk {
  file : jsstring;
  coverage : nat;
}.
End FileCoverage.

Module TestCoverage.
Record t : Type := mk {
  total : nat;
  covered : nat;
  percentage : Q;
  files : list FileCoverage.t;
  missing : list jsstring;
}.
End TestCoverage.

(** [{ name, line }] as pushed by [extractFunctions]. *)
Module FunctionDecl.
Record t : Type := mk {
  name : jsstring;
  line : nat;
}.
End FunctionDecl.

(** ** Collaborators *)

(** A directory entry as [fs.readdir(dir, { withFileTypes: true })] lists
    it, with what the later calls on it return: [fs.stat] for a
    non-directory ([None]: the call rejects), [fs.readdir] for a directory
    ([None]: the call rejects). *)
Inductive Entry : Type :=
| EntryFile (name : jsstring) (size : option N)
| EntryDir (name : jsstring) (entries : option (list Entry)).

Definition entryName (e : Entry) : jsstring :=
  match e with
  | EntryFile name _ => name
  | EntryDir name _ => name
  end.

(** A node of tree-sitter's syntax tree with what the walks of
    parser-utils read of it: [type], [text], [startPosition.row] and the
    children, each with the field name it is attached under (if any) and
    whether it is a named node. *)
Inductive SyntaxNode : Type :=
| Node (type text : jsstring) (row : nat)
       (children : list (option jsstring * bool * SyntaxNode)).

(** The calls that leave the core.  [Parser] is [None] when
    [require('tree-sitter')] failed at load time and otherwise maps a
    grammar name and a source text to the root node of the parse ([None]:
    binding the grammar or parsing throws). *)
Record Env : Type := mkEnv {
  pathExists : jsstring → bool;
  readdir : jsstring → option (list Entry);
  readFile : jsstring → option jsstring;
  glob : jsstring → jsstring → option (list jsstring);
  resolve : jsstring → jsstring;
  relative : jsstring → jsstring → jsstring;
  Parser : option (jsstring → jsstring → option SyntaxNode);
}.

(** ** node:path on POSIX paths *)

Module Path.

Definition slash : N := 47.
Definition dot : N := 46.

Fixpoint dropWhile (P : N → bool) (s : jsstring) : jsstring :=
  match s with
  | c :: s' => if P c then dropWhile P s' else s
  | [] => []
  end.

Fixpoint takeWhile (P : N → bool) (s : jsstring) : jsstring :=
  match s with
  | c :: s' => if P c then c :: takeWhile P s' else []
  | [] => []
  end.

(** [path.basename(p)]: trailing slashes are ignored, the part after the
    last remaining slash is returned. *)
Definition basename (p : jsstring) : jsstring :=
  rev (takeWhile (fun c => negb (c =? slash)%N)
         (dropWhile (fun c => (c =? slash)%N) (rev p))).

(** [path.extname(p)]: from the last dot of the base name to its end;
    empty when there is no dot, when the last dot is the first character
    of the base name, and for the base name [..]. *)
Definition extname (p : jsstring) : jsstring :=
  let base := basename p in
  let tail := takeWhile (fun c => negb (c =? dot)%N) (rev base) in
  if (length tail =? length base)%nat then []
  else if (S (length tail) =? length base)%nat then []
  else if eqb base [dot; dot] then []
  else dot :: rev tail.

(** [path.join(directory, name)] for a resolved [directory] and a single
    path segment [name], the way buildFileTree and getDirectorySize call
    it. *)
Definition join (directory name : jsstring) : jsstring :=
  if endsWith directory [slash] then directory ++ name
  else directory ++ slash :: name.

End Path.

(** ** src/utils/file-utils.ts *)

Module FileUtils.

(** [fs.readFile(filePath, 'utf-8')] wrapped in the try/catch that
    rethrows. *)
Definition readFileContent (E : Env) (filePath : jsstring) : result jsstring :=
  match readFile E filePath with
  | Some content => Ok content
  | None => Throw (FailedToReadFile filePath)
  end.

Definition getFileExtension (filePath : jsstring) : jsstring :=
  toLowerCase (drop 1 (Path.extname filePath)).

Definition languageMap : list (jsstring * jsstring) :=
  [ (js "js", js "JavaScript"); (js "jsx", js "JavaScript");
    (js "ts", js "TypeScript"); (js "tsx", js "TypeScript");
    (js "py", js "Python"); (js "java", js "Java");
    (js "go", js "Go"); (js "rs", js "Rust");
    (js "json", js "JSON"); (js "md", js "Markdown");
    (js "html", js "HTML"); (js "css", js "CSS");
    (js "scss", js "SCSS"); (js "xml", js "XML");
    (js "yaml", js "YAML"); (js "yml", js "YAML") ].

Fixpoint ownProperty (key : jsstring) (table : list (jsstring * jsstring))
  : option jsstring :=
  match table with
  | [] => None
  | (k, v) :: table' => if eqb k key then Some v else ownProperty key table'
  end.

Definition Unknown : Language := Label (js "Unknown").

Definition detectLanguage (filePath : jsstring) : Language :=
  let ext := getFileExtension filePath in
  match ownProperty ext languageMap with
  | Some name => Label name
  | None =>
      if eqb ext (js "constructor") then ObjectConstructor
      else if eqb ext (js "__proto__") then ObjectPrototype
      else Unknown
  end.

(** [[...new Set(xs)]]: first occurrences, in order. *)
Definition uniq (xs : list jsstring) : list jsstring :=
  fold_left (fun seen x => if existsb (eqb x) seen then seen else seen ++ [x]) xs [].

(** findFiles with the default [ignore] option (no caller passes
    another); [glob E pat directory] is
    [glob(pat, { cwd: directory, absolute: true, ignore })]. *)
Definition findFiles (E : Env) (directory : jsstring) (patterns : list jsstring)
  : result (list jsstring) :=
  let fix loop (pats : list jsstring) (allFiles : list jsstring) :=
    match pats with
    | [] => Ok allFiles
    | pat :: pats' =>
        match glob E pat directory with
        | Some files => loop pats' (allFiles ++ files)
        | None => Throw FailedToFindFiles
        end
    end in
  allFiles ← loop patterns [];
  mret (uniq allFiles).

Definition skipped (name : jsstring) : bool :=
  startsWith name (js ".") || eqb name (js "node_modules")
  || eqb name (js "dist") || eqb name (js "build").

(** The [for (const entry of entries)] loop of buildFileTree: [visit]
    yields the node pushed for an entry, or nothing when the entry is
    skipped; the first exception ends the loop. *)
Fixpoint forEntries (visit : Entry → result (option FileNode.t))
  (entries : list Entry) (nodes : list FileNode.t) : result (list FileNode.t) :=
  match entries with
  | [] => Ok nodes
  | entry :: entries' =>
      pushed ← visit entry;
      forEntries visit entries'
        (match pushed with Some node => nodes ++ [node] | None => nodes end)
  end.

(** One iteration of that loop, for an [entry] of [directory] read at
    depth [currentDepth].  The recursive call of buildFileTree on a
    subdirectory is unfolded here: its depth test, its readdir and its own
    loop. *)
Fixpoint buildEntry (directory : jsstring) (maxDepth currentDepth : Z)
  (entry : Entry) {struct entry} : result (option FileNode.t) :=
  let fullPath := Path.join directory (entryName entry) in
  if skipped (entryName entry) then Ok None
  else
    match entry with
    | EntryDir name listing =>
        children ←
          (if (maxDepth <=? currentDepth + 1)%Z then Ok []
           else match listing with
                | None => Throw FailedToBuildFileTree
                | Some entries =>
                    try_catch
                      (forEntries (buildEntry fullPath maxDepth (currentDepth + 1))
                         entries [])
                      (fun _ => Throw FailedToBuildFileTree)
                end);
        mret (Some (FileNode.mk name fullPath NodeType.directory None None None (Some children)))
    | EntryFile name stats =>
        match stats with
        | None => Throw FailedToBuildFileTree
        | Some size =>
            let extension := getFileExtension fullPath in
            let language := detectLanguage fullPath in
            Ok (Some (FileNode.mk name fullPath NodeType.file (Some size)
                        (Some extension) (Some language) None))
        end
    end.

(** [buildFileTree(directory, maxDepth, currentDepth)]; [listing] is what
    [fs.readdir(directory)] returns. *)
Definition buildFileTree (directory : jsstring) (listing : option (list Entry))
  (maxDepth currentDepth : Z) : result (list FileNode.t) :=
  if (maxDepth <=? currentDepth)%Z then Ok []
  else
    match listing with
    | None => Throw FailedToBuildFileTree
    | Some entries =>
        try_catch
          (forEntries (buildEntry directory maxDepth currentDepth) entries [])
          (fun _ => Throw FailedToBuildFileTree)
    end.

Definition ignoredDirectory (name : jsstring) : bool :=
  eqb name (js "node_modules") || eqb name (js "dist") || eqb name (js "build").

(** The loop of getDirectorySize inside its [try]: [sizeOf] is what an
    entry adds to [totalSize] ([None]: [fs.stat] rejected, which leaves the
    loop with the total reached so far). *)
Fixpoint sumEntries (sizeOf : Entry → option N) (entries : list Entry)
  (totalSize : N) : N :=
  match entries with
  | [] => totalSize
  | entry :: entries' =>
      match sizeOf entry with
      | Some n => sumEntries sizeOf entries' (totalSize + n)
      | None => totalSize
      end
  end.

Fixpoint entrySize (entry : Entry) : option N :=
  match entry with
  | EntryDir name listing =>
      if ignoredDirectory name then Some 0%N
      else Some (match listing with
                 | Some entries => sumEntries entrySize entries 0
                 | None => 0
                 end)%N
  | EntryFile _ stats => stats
  end.

(** [getDirectorySize(directory)]; [listing] is what
    [fs.readdir(directory)] returns. *)
Definition getDirectorySize (listing : option (list Entry)) : N :=
  match listing with
  | Some entries => sumEntries entrySize entries 0
  | None => 0
  end.

End FileUtils.

(** ** An insertion-ordered [Map] *)

Module JsMap.
Section JsMap.
Context {K V : Type} `{EqDecision K}.

(** [m.get(key)]; [None] is [undefined]. *)
Fixpoint get (m : list (K * V)) (key : K) : option V :=
  match m with
  | [] => None
  | (k, v) :: m' => if decide (k = key) then Some v else get m' key
  end.

(** [m.set(key, value)]: an existing key keeps its position. *)
Fixpoint set (m : list (K * V)) (key : K) (value : V) : list (K * V) :=
  match m with
  | [] => [(key, value)]
  | (k, v) :: m' =>
      if decide (k = key) then (k, value) :: m' else (k, v) :: set m' key value
  end.
End JsMap.
End JsMap.

(** [set.has(x)] on a [Set] of strings. *)
Definition has (set : gset jsstring) (x : jsstring) : bool := bool_decide (x ∈ set).

(** ** class FileAnalyzer (src/analyzers/file-analyzer.ts) *)

Module FileAnalyzer.

Import FileUtils.

(** What the body of countFiles' loop adds to [count] for one node. *)
Fixpoint countNode (node : FileNode.t) : nat :=
  match node with
  | FileNode.mk _ _ NodeType.file _ _ _ _ => 1
  | FileNode.mk _ _ NodeType.directory _ _ _ (Some children) =>
      fold_left (fun count child => count + countNode child) children 0
  | FileNode.mk _ _ NodeType.directory _ _ _ None => 0
  end.

Definition countFiles (nodes : list FileNode.t) : nat :=
  fold_left (fun count node => count + countNode node) nodes 0.

(** The [{ files, lines }] objects stored in [languageCounts]. *)
Record LanguageCount : Type := mkCount { count_files : nat; count_lines : nat }.

(** [node.language && node.language !== 'Unknown'] *)
Definition classified (language : option Language) : option Language :=
  match language with
  | Some (Label name) =>
      if eqb name [] || eqb name (js "Unknown") then None else Some (Label name)
  | Some l => Some l
  | None => None
  end.

Fixpoint processNodeSync (node : FileNode.t)
  (languageCounts : list (Language * LanguageCount)) : list (Language * LanguageCount) :=
  match node with
  | FileNode.mk _ _ type _ _ language children =>
      let languageCounts :=
        match type, classified language with
        | NodeType.file, Some l =>
            let current := default (mkCount 0 0) (JsMap.get languageCounts l) in
            JsMap.set languageCounts l
              (mkCount (count_files current + 1) (count_lines current))
        | _, _ => languageCounts
        end in
      match children with
      | Some children =>
          fold_left (fun counts child => processNodeSync child counts)
            children languageCounts
      | None => languageCounts
      end
  end.

Definition ratio (n d : nat) : Q :=
  (inject_Z (Z.of_nat n) / inject_Z (Z.of_nat d))%Q.

Definition analyzeLanguages (nodes : list FileNode.t) : list LanguageStats.t :=
  let languageCounts :=
    fold_left (fun counts node => processNodeSync node counts) nodes [] in
  let totalFiles :=
    fold_left (fun sum stat => sum + count_files (snd stat)) languageCounts 0 in
  List.map (fun '(language, stats) =>
              LanguageStats.mk language (count_files stats) (count_lines stats)
                (if (0 <? totalFiles)%nat
                 then (ratio (count_files stats) totalFiles * 100)%Q else 0%Q))
    languageCounts.

Definition analyzeProjectStructure (E : Env) (projectPath : jsstring) (maxDepth : Z)
  : result ProjectStructure.t :=
  let absolutePath := resolve E projectPath in
  if negb (pathExists E absolutePath) then Throw (ProjectPathDoesNotExist absolutePath)
  else
    files ← buildFileTree absolutePath (readdir E absolutePath) maxDepth 0;
    let totalSize := getDirectorySize (readdir E absolutePath) in
    let totalFiles := countFiles files in
    let languages := analyzeLanguages files in
    mret (ProjectStructure.mk absolutePath files totalFiles totalSize languages).

End FileAnalyzer.

(** ** src/utils/parser-utils.ts *)

Module ParserUtils.

Import FileUtils.

(** The [switch (language.toLowerCase())] of getParser: the grammar module
    bound to the parser, [null] in the default case.  A [language] that is
    not a string has no [toLowerCase] method. *)
Definition getParser (language : Language) : result (option jsstring) :=
  match language with
  | Label name =>
      let grammar := toLowerCase name in
      if existsb (eqb grammar)
           [js "javascript"; js "typescript"; js "python"; js "java"; js "go"; js "rust"]
      then Ok (Some grammar)
      else Ok None
  | _ => Throw TypeError
  end.

(** [parseFile(filePath)]: [None] is the [null] that selects the regex
    fallback. *)
Definition parseFile (E : Env) (filePath : jsstring) : option SyntaxNode :=
  match Parser E with
  | None => None
  | Some parse =>
      match readFileContent E filePath with
      | Throw _ => None
      | Ok content =>
          match getParser (detectLanguage filePath) with
          | Ok (Some grammar) => parse grammar content
          | Ok None => None
          | Throw _ => None
          end
      end
  end.

Definition nodeType (node : SyntaxNode) : jsstring :=
  match node with Node type _ _ _ => type end.

Definition nodeText (node : SyntaxNode) : jsstring :=
  match node with Node _ text _ _ => text end.

Definition startRow (node : SyntaxNode) : nat :=
  match node with Node _ _ row _ => row end.

(** [node.childForFieldName(name)]; [None] is [null]. *)
Definition childForFieldName (node : SyntaxNode) (name : string) : option SyntaxNode :=
  match node with
  | Node _ _ _ children =>
      snd <$> List.find (fun child => bool_decide (fst (fst child) = Some (js name)))
                children
  end.

(** [node.namedChildren] *)
Definition namedChildren (node : SyntaxNode) : list SyntaxNode :=
  match node with
  | Node _ _ _ children => List.map snd (List.filter (fun child => snd (fst child)) children)
  end.

Definition hasType (node : SyntaxNode) (type : string) : bool :=
  eqb (nodeType node) (js type).

(** The [replace] that deletes every single and double quote of a
    node text. *)
Definition stripQuotes (text : jsstring) : jsstring :=
  List.filter (fun c => negb ((c =? 39) || (c =? 34))%N) text.

(** The text of the child under [field], when there is one. *)
Definition fieldText (node : SyntaxNode) (field : string) : list jsstring :=
  match childForFieldName node field with
  | Some child => [nodeText child]
  | None => []
  end.

(** What the body of [traverse] in extractImports pushes for [node]
    itself, before it descends into the children. *)
Definition importsAt (language : Language) (node : SyntaxNode) : list jsstring :=
  (if isLabel language "JavaScript" || isLabel language "TypeScript" then
     (if hasType node "import_statement" || hasType node "import_declaration"
      then List.map stripQuotes (fieldText node "source") else [])
     ++ (if hasType node "call_expression" then
           match childForFieldName node "function" with
           | Some callee =>
               if eqb (nodeText callee) (js "require") then
                 match childForFieldName node "arguments" with
                 | Some args =>
                     match namedChildren args with
                     | firstArg :: _ => [stripQuotes (nodeText firstArg)]
                     | [] => []
                     end
                 | None => []
                 end
               else []
           | None => []
           end
         else [])
   else [])
  ++ (if isLabel language "Python" then
        if hasType node "import_statement" || hasType node "import_from_statement"
        then fieldText node "module_name" else []
      else [])
  ++ (if isLabel language "Java" then
        if hasType node "import_declaration" then fieldText node "name" else []
      else [])
  ++ (if isLabel language "Go" then
        if hasType node "import_declaration" then
          flat_map (fun spec => List.map stripQuotes (fieldText spec "path"))
            (List.filter (fun child => hasType child "import_spec") (namedChildren node))
        else []
      else [])
  ++ (if isLabel language "Rust" then
        if hasType node "use_declaration" then fieldText node "path" else []
      else []).

(** [traverse(node)] of extractImports: the imports it pushes, in order. *)
Fixpoint traverseImports (language : Language) (node : SyntaxNode) : list jsstring :=
  match node with
  | Node _ _ _ children =>
      importsAt language node
      ++ flat_map (fun child => traverseImports language (snd child)) children
  end.

(** [extractImports(tree, language)] for a non-null [tree], whose
    [rootNode] is [root]; extractImportsRegex returns the empty array. *)
Definition extractImports (E : Env) (root : SyntaxNode) (language : Language)
  : list jsstring :=
  match Parser E with
  | None => []
  | Some _ => traverseImports language root
  end.

(** The declaration kinds extractFunctions looks for, per language. *)
Definition declares (language : Language) (node : SyntaxNode) : bool :=
  (isLabel language "JavaScript" || isLabel language "TypeScript")
  && (hasType node "function_declaration" || hasType node "arrow_function"
      || hasType node "method_definition")
  || isLabel language "Python" && hasType node "function_definition"
  || isLabel language "Java" && hasType node "method_declaration"
  || isLabel language "Go"
     && (hasType node "method_declaration" || hasType node "function_declaration")
  || isLabel language "Rust" && hasType node "function_item".

(** What the body of [traverse] in extractFunctions pushes for [node]. *)
Definition functionsAt (language : Language) (node : SyntaxNode) : list FunctionDecl.t :=
  if declares language node then
    match childForFieldName node "name" with
    | Some nameNode => [FunctionDecl.mk (nodeText nameNode) (startRow nameNode + 1)]
    | None => []
    end
  else [].

Fixpoint traverseFunctions (language : Language) (node : SyntaxNode)
  : list FunctionDecl.t :=
  match node with
  | Node _ _ _ children =>
      functionsAt language node
      ++ flat_map (fun child => traverseFunctions language (snd child)) children
  end.

(** [extractFunctions(tree, language)] for a non-null [tree]. *)
Definition extractFunctions (E : Env) (root : SyntaxNode) (language : Language)
  : list FunctionDecl.t :=
  match Parser E with
  | None => []
  | Some _ => traverseFunctions language root
  end.

End ParserUtils.

(** ** The regular expressions of the smell scans *)

Module RegExp.

(** The fragment of the RegExp syntax that isFunctionStart uses; [Star]
    and [Plus] repeat a character class (as in [\s*], [\s+], [\w+]). *)
Inductive t : Type :=
| Lit (s : jsstring)
| Seq (r1 r2 : t)
| Alt (r1 r2 : t)
| Opt (r : t)
| Star (class : N → bool)
| Plus (class : N → bool).

(** Whether some way of matching [r] at the start of [s] leaves a rest
    accepted by [k]: what a backtracking matcher finds. *)
Fixpoint matchThen (r : t) (k : jsstring → bool) (s : jsstring) : bool :=
  let star (class : N → bool) :=
    fix star (s : jsstring) : bool :=
      k s || match s with
             | c :: s' => class c && star s'
             | [] => false
             end in
  match r with
  | Lit p => startsWith s p && k (drop (length p) s)
  | Seq r1 r2 => matchThen r1 (matchThen r2 k) s
  | Alt r1 r2 => matchThen r1 k s || matchThen r2 k s
  | Opt r => matchThen r k s || k s
  | Star class => star class s
  | Plus class =>
      match s with
      | c :: s' => class c && star class s'
      | [] => false
      end
  end.

(** [/^r/.test(s)] *)
Definition test (r : t) (s : jsstring) : bool := matchThen r (fun _ => true) s.

Definition digit (c : N) : bool := ((48 <=? c) && (c <=? 57))%N.

(** [\w] *)
Definition word (c : N) : bool :=
  (digit c || (65 <=? c) && (c <=? 90) || (97 <=? c) && (c <=? 122) || (c =? 95))%N.

(** [\s] *)
Definition space (c : N) : bool := isWhiteSpace c.

End RegExp.

(** ** class CodeAnalyzer (src/analyzers/code-analyzer.ts): complexity *)

Module CodeAnalyzer.

Import FileUtils ParserUtils.

Definition decisionKeywords : list jsstring :=
  [ js "if"; js "else"; js "while"; js "for"; js "switch"; js "case";
    js "catch"; js "&&"; js "||"; js "?"; js "??" ].

(** [if (functionName)]: a defined, non-empty string. *)
Definition supplied (functionName : option jsstring) : option jsstring :=
  match functionName with
  | Some [] => None
  | Some name => Some name
  | None => None
  end.

(** [for (const keyword of decisionKeywords) if (line.includes(keyword))
    complexity++] *)
Definition countKeywords (line : jsstring) (complexity : nat) : nat :=
  fold_left (fun complexity keyword =>
               if includes line keyword then S complexity else complexity)
    decisionKeywords complexity.

(** [lines[i]] for a possibly negative integer index. *)
Definition at_index (lines : list jsstring) (i : Z) : option jsstring :=
  if (i <? 0)%Z then None else lines !! Z.to_nat i.

(** [for (let i = startLine; i < endLine; i++) { const line = lines[i]; ... }]
    with [iterations] steps left; reading past the array yields
    [undefined], whose [includes] does not exist. *)
Fixpoint countLines (iterations : nat) (lines : list jsstring) (i : Z)
  (complexity : nat) : result nat :=
  match iterations with
  | 0 => Ok complexity
  | S iterations' =>
      match at_index lines i with
      | Some line => countLines iterations' lines (i + 1) (countKeywords line complexity)
      | None => Throw TypeError
      end
  end.

Definition countDecisionPoints (lines : list jsstring) (startLine endLine : Z)
  : result nat :=
  countLines (Z.to_nat (endLine - startLine)) lines startLine 1.

(** [for (let i = from; i < lines.length; i++) if (test(i, lines[i]))
    { ...; break; }]: the index at which the loop breaks. *)
Fixpoint firstIndex (test : nat → jsstring → bool) (rest : list jsstring) (i : nat)
  : option nat :=
  match rest with
  | [] => None
  | line :: rest' => if test i line then Some i else firstIndex test rest' (S i)
  end.

Definition firstIndexFrom (test : nat → jsstring → bool) (lines : list jsstring)
  (from : nat) : option nat :=
  firstIndex test (drop from lines) from.

Definition levelOf (complexity : nat) : Level :=
  if complexity <=? 5 then low
  else if complexity <=? 10 then medium
  else if complexity <=? 20 then high
  else very_high.

Definition recommendationsOf (complexity : nat) : list jsstring :=
  (if 10 <? complexity
   then [ js "Consider breaking this function into smaller functions";
          js "Extract complex conditions into named functions" ]
   else [])
  ++ (if 20 <? complexity
      then [ js "This function is too complex and should be refactored" ]
      else []).

Definition report (filePath : jsstring) (functionName : option jsstring)
  (complexity : nat) : CodeComplexity.t :=
  CodeComplexity.mk filePath functionName complexity
    (levelOf complexity) (recommendationsOf complexity).

(** The scan range of the regex fallback: the first line holding one of
    the three literal forms of the name, up to the first later line that
    is exactly a closing brace more than three lines further on. *)
Definition fallbackRange (functionName : option jsstring) (lines : list jsstring)
  : Z * Z :=
  let whole := (0%Z, Z.of_nat (length lines)) in
  match supplied functionName with
  | None => whole
  | Some name =>
      match firstIndexFrom
              (fun _ line => includes line (js "function " ++ name)
                             || includes line (name ++ js "(")
                             || includes line (js "const " ++ name ++ js " ="))
              lines 0 with
      | None => whole
      | Some i =>
          match firstIndexFrom
                  (fun j line => eqb (trim line) (js "}") && (i + 3 <? j))
                  lines (i + 1) with
          | Some j => (Z.of_nat i, Z.of_nat j)
          | None => (Z.of_nat i, Z.of_nat (length lines))
          end
      end
  end.

Definition calculateComplexityFallback (E : Env) (filePath : jsstring)
  (functionName : option jsstring) : result CodeComplexity.t :=
  content ← readFileContent E filePath;
  let lines := split_newline content in
  let '(startLine, endLine) := fallbackRange functionName lines in
  complexity ← countDecisionPoints lines startLine endLine;
  mret (report filePath functionName complexity).

(** [functions.find(f => f.name === functionName)] *)
Definition findFunction (functions : list FunctionDecl.t) (functionName : jsstring)
  : option FunctionDecl.t :=
  List.find (fun f => eqb (FunctionDecl.name f) functionName) functions.

Definition startsDeclaration (line : jsstring) : bool :=
  startsWith (trim line) (js "function")
  || startsWith (trim line) (js "const")
  || startsWith (trim line) (js "class").

(** The scan range of the structured mode: from the declaration line to
    the next line that opens a declaration. *)
Definition structuredRange (targetFunction : option FunctionDecl.t)
  (lines : list jsstring) : Z * Z :=
  match targetFunction with
  | None => (0%Z, Z.of_nat (length lines))
  | Some target =>
      let startLine := (Z.of_nat (FunctionDecl.line target) - 1)%Z in
      match firstIndexFrom (fun _ line => startsDeclaration line) lines
              (Z.to_nat (startLine + 1)) with
      | Some i => (startLine, Z.of_nat i)
      | None => (startLine, Z.of_nat (length lines))
      end
  end.

Definition calculateComplexity (E : Env) (filePath : jsstring)
  (functionName : option jsstring) : result CodeComplexity.t :=
  match parseFile E filePath with
  | None => calculateComplexityFallback E filePath functionName
  | Some tree =>
      let language := detectLanguage filePath in
      let functions := extractFunctions E tree language in
      targetFunction ←
        match supplied functionName with
        | None => Ok None
        | Some name =>
            match findFunction functions name with
            | Some target => Ok (Some target)
            | None => Throw (FunctionNotFound name filePath)
            end
        end;
      content ← readFileContent E filePath;
      let lines := split_newline content in
      let '(startLine, endLine) := structuredRange targetFunction lines in
      complexity ← countDecisionPoints lines startLine endLine;
      mret (report filePath functionName complexity)
  end.

(** *** Code smells *)

Definition keyword (s : string) : RegExp.t := RegExp.Lit (js s).
Definition spaces : RegExp.t := RegExp.Plus RegExp.space.
Definition optSpaces : RegExp.t := RegExp.Star RegExp.space.
Definition identifier : RegExp.t := RegExp.Plus RegExp.word.

Infix "⋅" := RegExp.Seq (at level 41, right associativity).
Infix "∣" := RegExp.Alt (at level 42, right associativity).

Definition isFunctionStart (line : jsstring) (language : Language) : bool :=
  let trimmed := trim line in
  if isLabel language "JavaScript" || isLabel language "TypeScript" then
    RegExp.test
      ((keyword "function" ∣ keyword "const" ∣ keyword "let"
        ∣ (keyword "export" ⋅ spaces
             ⋅ (keyword "function" ∣ keyword "const" ∣ keyword "let"))
        ∣ (keyword "async" ⋅ spaces ⋅ keyword "function"))
       ⋅ spaces ⋅ identifier) trimmed
    || RegExp.test
         (keyword "export" ⋅ spaces ⋅ keyword "default" ⋅ spaces ⋅ keyword "function")
         trimmed
  else if isLabel language "Python" then
    RegExp.test (keyword "def" ⋅ spaces ⋅ identifier) trimmed
    || RegExp.test (keyword "async" ⋅ spaces ⋅ keyword "def" ⋅ spaces ⋅ identifier) trimmed
  else if isLabel language "Java" then
    RegExp.test
      (optSpaces
       ⋅ RegExp.Opt (keyword "public" ∣ keyword "private" ∣ keyword "protected")
       ⋅ optSpaces ⋅ RegExp.Opt (keyword "static") ⋅ optSpaces
       ⋅ identifier ⋅ spaces ⋅ identifier ⋅ optSpaces ⋅ keyword "(") trimmed
  else if isLabel language "Go" then
    RegExp.test (keyword "func" ⋅ spaces) trimmed
  else if isLabel language "Rust" then
    RegExp.test (keyword "fn" ⋅ spaces ⋅ identifier) trimmed
    || RegExp.test (keyword "pub" ⋅ spaces ⋅ keyword "fn" ⋅ spaces ⋅ identifier) trimmed
  else false.

(** [(line.match(/c/g) || []).length] for a single code unit [c]. *)
Definition countUnit (c : N) (line : jsstring) : Z :=
  Z.of_nat (length (filter (fun d => d = c) line)).

Definition openBrace : N := 123.
Definition closeBrace : N := 125.

Definition longMethodThreshold : nat := 50.

(** The inner [for (let j = i; ...)] loop of the long-method scan over
    the lines from [i] on: the length it reports, if it pushes a smell. *)
Fixpoint measureFunction (language : Language) (rest : list jsstring)
  (inFunction : bool) (functionLength : nat) (braceCount : Z) : option nat :=
  match rest with
  | [] => None
  | currentLine :: rest' =>
      let inFunction := inFunction || isFunctionStart currentLine language in
      if inFunction then
        let functionLength := S functionLength in
        let braceCount :=
          (braceCount + countUnit openBrace currentLine
           - countUnit closeBrace currentLine)%Z in
        if (braceCount =? 0)%Z && (1 <? functionLength) then
          if longMethodThreshold <? functionLength then Some functionLength else None
        else measureFunction language rest' inFunction functionLength braceCount
      else measureFunction language rest' inFunction functionLength braceCount
  end.

Definition longMethodSmell (file : jsstring) (i functionLength : nat) : CodeSmell.t :=
  CodeSmell.mk (js "Long Method")
    (if 100 <? functionLength then severity_high else severity_medium)
    file (Some (i + 1))
    (FunctionIsLinesLong functionLength longMethodThreshold)
    (js "Break this function into smaller, more focused functions").

(** The outer loop, at index [i] with [rest] the lines from [i] on. *)
Fixpoint longMethods (file : jsstring) (language : Language)
  (rest : list jsstring) (i : nat) : list CodeSmell.t :=
  match rest with
  | [] => []
  | line :: rest' =>
      (if isFunctionStart line language then
         match measureFunction language rest false 0 0 with
         | Some functionLength => [longMethodSmell file i functionLength]
         | None => []
         end
       else [])
      ++ longMethods file language rest' (S i)
  end.

(** [line.match(/\b\d{3,}\b/g)]: the runs of three or more digits that
    have no word character on either side.  [prevWord] tells whether the
    code unit before the current position is a word character; [run] is
    the digit run being read, with whether a word boundary precedes it. *)
Fixpoint digitRuns (line : jsstring) (prevWord : bool)
  (run : option (bool * jsstring)) : list jsstring :=
  let close (nextWord : bool) :=
    match run with
    | Some (true, digits) =>
        if (3 <=? length digits) && negb nextWord then [digits] else []
    | _ => []
    end in
  match line with
  | [] => close false
  | c :: line' =>
      if RegExp.digit c then
        match run with
        | None => digitRuns line' true (Some (negb prevWord, [c]))
        | Some (bounded, digits) => digitRuns line' true (Some (bounded, digits ++ [c]))
        end
      else close (RegExp.word c) ++ digitRuns line' (RegExp.word c) None
  end.

(** [parseInt(match)] for a string of decimal digits. *)
Definition parseInt (digits : jsstring) : N :=
  fold_left (fun value d => (10 * value + (d - 48))%N) digits 0%N.

Definition magicNumberSmell (file : jsstring) (index : nat) (literal : jsstring)
  : CodeSmell.t :=
  CodeSmell.mk (js "Magic Number") severity_low file (Some (index + 1))
    (MagicNumberDetected literal) (js "Replace with a named constant").

Fixpoint magicNumbers (file : jsstring) (rest : list jsstring) (index : nat)
  : list CodeSmell.t :=
  match rest with
  | [] => []
  | line :: rest' =>
      (if negb (includes line (js "//")) && negb (includes line (js "const"))
          && negb (includes line (js "let"))
       then List.map (magicNumberSmell file index)
              (filter (fun literal => (10 < parseInt literal)%N) (digitRuns line false None))
       else [])
      ++ magicNumbers file rest' (S index)
  end.

(** [lines.join('\n')] *)
Fixpoint join_newline (lines : list jsstring) : jsstring :=
  match lines with
  | [] => []
  | [line] => line
  | line :: lines' => line ++ 10%N :: join_newline lines'
  end.

(** [body.replace(/\s+/g, ' ')] *)
Fixpoint collapseSpaces (s : jsstring) (inRun : bool) : jsstring :=
  match s with
  | [] => []
  | c :: s' =>
      if RegExp.space c
      then (if inRun then [] else [32%N]) ++ collapseSpaces s' true
      else c :: collapseSpaces s' false
  end.

Definition duplicateSmell (file : jsstring) (i existingLine : nat) : CodeSmell.t :=
  CodeSmell.mk (js "Duplicate Code") severity_medium file (Some (i + 1))
    (SimilarCodeFoundAtLine existingLine)
    (js "Extract common code into a shared function").

Fixpoint duplicates (file : jsstring) (language : Language) (rest : list jsstring)
  (i : nat) (functionBodies : list (jsstring * (nat * jsstring))) : list CodeSmell.t :=
  match rest with
  | [] => []
  | line :: rest' =>
      if isFunctionStart line language then
        let body := join_newline (take 20 rest) in
        let normalizedBody := trim (collapseSpaces body false) in
        match JsMap.get functionBodies normalizedBody with
        | Some existing =>
            duplicateSmell file i (fst existing)
            :: duplicates file language rest' (S i) functionBodies
        | None =>
            duplicates file language rest' (S i)
              (JsMap.set functionBodies normalizedBody (i + 1, body))
        end
      else duplicates file language rest' (S i) functionBodies
  end.

Definition largeFileThreshold : nat := 500.

Definition largeFileSmell (file : jsstring) (lines : nat) : CodeSmell.t :=
  CodeSmell.mk (js "Large File")
    (if 1000 <? lines then severity_high else severity_medium)
    file None (FileHasLines lines largeFileThreshold)
    (js "Consider splitting this file into smaller modules").

(** [!types || types.includes(name)] *)
Definition enabled (types : option (list jsstring)) (name : string) : bool :=
  match types with
  | None => true
  | Some names => existsb (eqb (js name)) names
  end.

Definition codeExtensions : list jsstring :=
  [ js "*.js"; js "*.jsx"; js "*.ts"; js "*.tsx"; js "*.py"; js "*.java";
    js "*.go"; js "*.rs" ].

(** The body of the [try] for one file: the smells it pushes. *)
Definition fileSmells (E : Env) (types : option (list jsstring)) (file : jsstring)
  : result (list CodeSmell.t) :=
  content ← readFileContent E file;
  let lines := split_newline content in
  let language := detectLanguage file in
  mret ((if enabled types "long-method" then longMethods file language lines 0 else [])
        ++ (if enabled types "magic-number" then magicNumbers file lines 0 else [])
        ++ (if enabled types "duplicate-code" then duplicates file language lines 0 [] else [])
        ++ (if enabled types "large-file" && (largeFileThreshold <? length lines)
            then [largeFileSmell file (length lines)] else [])).

Definition detectCodeSmells (E : Env) (projectPath : jsstring)
  (types : option (list jsstring)) : result (list CodeSmell.t) :=
  files ← findFiles E projectPath codeExtensions;
  mret (fold_left
          (fun smells file =>
             match fileSmells E types file with
             | Ok pushed => smells ++ pushed
             | Throw _ => smells
             end)
          files []).

(** *** Test coverage by file name *)

Definition testPatterns : list jsstring :=
  [ js "*.test.js"; js "*.test.ts"; js "*.spec.js"; js "*.spec.ts";
    js "*_test.py"; js "*Test.java"; js "*_test.go"; js "*_test.rs" ].

(** [f.replace(/\.(test|spec)\.(js|ts)$/, '')
      .replace(/_test\.(py|go|rs)$/, '').replace(/Test\.java$/, '')] *)
Definition testBase (f : jsstring) : jsstring :=
  replaceSuffix [js "Test.java"]
    (replaceSuffix [js "_test.py"; js "_test.go"; js "_test.rs"]
       (replaceSuffix [js ".test.js"; js ".test.ts"; js ".spec.js"; js ".spec.ts"] f)).

(** [file.replace(/\.(js|ts|jsx|tsx|py|java|go|rs)$/, '')] *)
Definition sourceBase (file : jsstring) : jsstring :=
  replaceSuffix
    [js ".js"; js ".ts"; js ".jsx"; js ".tsx"; js ".py"; js ".java"; js ".go"; js ".rs"]
    file.

Definition looksLikeTest (file : jsstring) : bool :=
  includes file (js ".test.") || includes file (js ".spec.")
  || includes file (js "_test") || includes file (js "Test.java").

(** The [for (const file of codeFiles)] loop: [(coveredFiles, missingFiles)]. *)
Definition partitionFiles (testFileMap : gset jsstring) (codeFiles : list jsstring)
  : list jsstring * list jsstring :=
  fold_left
    (fun '(coveredFiles, missingFiles) file =>
       let base := sourceBase file in
       if has testFileMap base then (coveredFiles ++ [file], missingFiles)
       else if negb (looksLikeTest file) then (coveredFiles, missingFiles ++ [file])
       else (coveredFiles, missingFiles))
    codeFiles ([], []).

Definition analyzeTestCoverage (E : Env) (projectPath : jsstring)
  : result TestCoverage.t :=
  codeFiles ← findFiles E projectPath codeExtensions;
  testFiles ← findFiles E projectPath testPatterns;
  let testFileMap : gset jsstring := list_to_set (List.map testBase testFiles) in
  let '(coveredFiles, missingFiles) := partitionFiles testFileMap codeFiles in
  let total := length codeFiles in
  let covered := length coveredFiles in
  let percentage :=
    if 0 <? total then (FileAnalyzer.ratio covered total * 100)%Q else 0%Q in
  let fileCoverage :=
    List.map (fun file =>
                let base := sourceBase file in
                let isCovered := has testFileMap base in
                FileCoverage.mk file (if isCovered then 100 else 0))
      codeFiles in
  mret (TestCoverage.mk total covered percentage fileCoverage missingFiles).

End CodeAnalyzer.

(** ** class DependencyAnalyzer (src/analyzers/dependency-analyzer.ts) *)

Module DependencyAnalyzer.

Import FileUtils ParserUtils.

Definition detectLanguageFromPath (filePath : jsstring) : Language :=
  let ext := toLowerCase (Path.extname filePath) in
  match ownProperty ext
          [ (js ".js", js "JavaScript"); (js ".jsx", js "JavaScript");
            (js ".ts", js "TypeScript"); (js ".tsx", js "TypeScript");
            (js ".py", js "Python"); (js ".java", js "Java");
            (js ".go", js "Go"); (js ".rs", js "Rust") ] with
  | Some name => Label name
  | None => Unknown
  end.

(** The adjacency list: [edges.forEach(edge => { if (!graph.has(edge.from))
    graph.set(edge.from, []); graph.get(edge.from).push(edge.to); })] *)
Definition buildGraph (edges : list Edge.t) : gmap jsstring (list jsstring) :=
  fold_left
    (fun graph edge =>
       <[Edge.from edge := default [] (graph !! Edge.from edge) ++ [Edge.to edge]]> graph)
    edges ∅.

(** The variables the closure [dfs] shares with its caller. *)
Record DfsState : Type := mkDfs {
  visited : gset jsstring;
  recStack : gset jsstring;
  path : list jsstring;
  circular : list (list jsstring);
}.

(** [for (const neighbor of neighbors) dfs(neighbor);] *)
Fixpoint forNeighbors (visit : jsstring → DfsState → option (bool * DfsState))
  (neighbors : list jsstring) (st : DfsState) : option DfsState :=
  match neighbors with
  | [] => Some st
  | neighbor :: neighbors' =>
      match visit neighbor st with
      | Some (_, st') => forNeighbors visit neighbors' st'
      | None => None
      end
  end.

(** The closure [dfs]; [fuel] bounds the depth of the recursion, and
    [None] means the bound was too small. *)
Fixpoint dfs (graph : gmap jsstring (list jsstring)) (fuel : nat) (node : jsstring)
  (st : DfsState) : option (bool * DfsState) :=
  match fuel with
  | 0 => None
  | S fuel' =>
      if has (recStack st) node then
        match indexOf (path st) node with
        | Some cycleStart =>
            let cycle := drop cycleStart (path st) ++ [node] in
            Some (true, mkDfs (visited st) (recStack st) (path st) (circular st ++ [cycle]))
        | None => Some (true, st)
        end
      else if has (visited st) node then Some (false, st)
      else
        let st1 := mkDfs ({[node]} ∪ visited st) ({[node]} ∪ recStack st)
                     (path st ++ [node]) (circular st) in
        let neighbors := default [] (graph !! node) in
        match forNeighbors (dfs graph fuel') neighbors st1 with
        | Some st2 =>
            Some (false, mkDfs (visited st2) (recStack st2 ∖ {[node]})
                           (removelast (path st2)) (circular st2))
        | None => None
        end
  end.

(** [nodes.forEach(node => { if (!visited.has(node.path)) dfs(node.path); })] *)
Fixpoint forNodes (graph : gmap jsstring (list jsstring)) (fuel : nat)
  (nodes : list DependencyNode.t) (st : DfsState) : option DfsState :=
  match nodes with
  | [] => Some st
  | node :: nodes' =>
      if has (visited st) (DependencyNode.path node) then forNodes graph fuel nodes' st
      else match dfs graph fuel (DependencyNode.path node) st with
           | Some (_, st') => forNodes graph fuel nodes' st'
           | None => None
           end
  end.

(** A nest of [dfs] calls is never deeper than the number of keys of the
    adjacency list plus one (theorem [detectCircularDependencies_total]),
    which is the recursion bound used here. *)
Definition detectCircularDependencies (nodes : list DependencyNode.t)
  (edges : list Edge.t) : option (list (list jsstring)) :=
  let graph := buildGraph edges in
  circular <$> forNodes graph (S (size graph)) nodes (mkDfs ∅ ∅ [] []).

(** [if (filePath)] *)
Definition given (filePath : option jsstring) : option jsstring :=
  match filePath with
  | Some [] => None
  | Some p => Some p
  | None => None
  end.

(** The body of the [try] for one file: the node and the edges it
    pushes, nothing when [parseFile] yields [null].  (Nothing in this
    body throws, so the [catch] is never entered.) *)
Definition analyzeFile (E : Env) (absolutePath file : jsstring)
  : option (DependencyNode.t * list Edge.t) :=
  match parseFile E file with
  | None => None
  | Some tree =>
      let language := detectLanguageFromPath file in
      let imports := extractImports E tree language in
      let relativePath := relative E absolutePath file in
      let node := DependencyNode.mk (Path.basename file) relativePath imports [] imports in
      Some (node, List.map (fun imp => Edge.mk relativePath imp (js "import")) imports)
  end.

(** [None]: the recursion bound of the cycle search was too small, which
    [analyzeDependencies_returns] excludes. *)
Definition analyzeDependencies (E : Env) (projectPath : jsstring)
  (filePath : option jsstring) : option (result DependencyGraph.t) :=
  let absolutePath := resolve E projectPath in
  if negb (pathExists E absolutePath)
  then Some (Throw (ProjectPathDoesNotExist absolutePath))
  else
    let filesToAnalyze :=
      match given filePath with
      | Some filePath =>
          let absoluteFilePath := resolve E filePath in
          if pathExists E absoluteFilePath then Ok [absoluteFilePath] else Ok []
      | None => findFiles E absolutePath CodeAnalyzer.codeExtensions
      end in
    match filesToAnalyze with
    | Throw e => Some (Throw e)
    | Ok filesToAnalyze =>
        let '(nodes, edges) :=
          fold_left
            (fun '(nodes, edges) file =>
               match analyzeFile E absolutePath file with
               | Some (node, pushed) => (nodes ++ [node], edges ++ pushed)
               | None => (nodes, edges)
               end)
            filesToAnalyze ([], []) in
        circular ← detectCircularDependencies nodes edges;
        Some (Ok (DependencyGraph.mk nodes edges circular))
    end.

End DependencyAnalyzer.

(** ** The quantities the specification speaks of *)

Module Spec.

Import FileUtils ParserUtils CodeAnalyzer.

(** The lines [startLine <= i < endLine] of a file. *)
Definition scannedLines (lines : list jsstring) (range : Z * Z) : list jsstring :=
  take (Z.to_nat (snd range - fst range)) (drop (Z.to_nat (fst range)) lines).

(** The range calculateComplexity scans in the mode [parseFile] selects. *)
Definition scanRange (E : Env) (filePath : jsstring) (functionName : option jsstring)
  (lines : list jsstring) : Z * Z :=
  match parseFile E filePath with
  | None => fallbackRange functionName lines
  | Some tree =>
      structuredRange
        (name ← supplied functionName;
         findFunction (extractFunctions E tree (detectLanguage filePath)) name)
        lines
  end.

(** The decision tokens a line contains at least once. *)
Definition tokensIn (line : jsstring) : list jsstring :=
  filter (fun keyword => includes line keyword = true) decisionKeywords.

(** One increment per scanned line and token contained in it. *)
Definition containmentScore (scanned : list jsstring) : nat :=
  1 + sum_list (List.map (fun line => length (tokensIn line)) scanned).

(** One increment per occurrence of a token in a scanned line. *)
Definition occurrenceScore (scanned : list jsstring) : nat :=
  1 + sum_list (List.map (fun line =>
                            sum_list (List.map (occurrences line) decisionKeywords))
                  scanned).

(** Number of lines that contain [keyword]. *)
Definition linesWith (keyword : jsstring) (lines : list jsstring) : nat :=
  length (filter (fun line => includes line keyword = true) lines).

(** Number of occurrences of [keyword] in the whole text. *)
Definition occurrencesIn (keyword : jsstring) (lines : list jsstring) : nat :=
  sum_list (List.map (fun line => occurrences line keyword) lines).

(** The file [f] of the project rooted at [root] is analysed in
    structured mode, has the node key [key] and imports exactly [target]. *)
Definition importsOnly (E : Env) (root f : jsstring) (key target : string) : Prop :=
  ∃ tree, parseFile E f = Some tree ∧
          extractImports E tree (DependencyAnalyzer.detectLanguageFromPath f)
          = [js target] ∧
          relative E root f = js key.

(** A node and every node below it. *)
Fixpoint descendants (node : FileNode.t) : list FileNode.t :=
  node :: match FileNode.children node with
          | Some children => flat_map descendants children
          | None => []
          end.

(** All nodes of a returned tree. *)
Definition treeNodes (files : list FileNode.t) : list FileNode.t :=
  flat_map descendants files.

Definition isFileKind (node : FileNode.t) : Prop :=
  FileNode.type node = NodeType.file.

(** Number of file-kind nodes of a returned tree. *)
Definition fileKindNodes (files : list FileNode.t) : nat :=
  length (filter isFileKind (treeNodes files)).

(** The nodes buildFileTree constructs: a file node carries size,
    extension and language and no children; a directory node carries its
    children; no name is a skipped one. *)
Inductive Built : FileNode.t → Prop :=
| Built_file name path size extension language :
    skipped name = false →
    Built (FileNode.mk name path NodeType.file (Some size) (Some extension)
             (Some language) None)
| Built_directory name path children :
    skipped name = false →
    Forall Built children →
    Built (FileNode.mk name path NodeType.directory None None None (Some children)).

(** Keys of the adjacency list that the cycle search has not visited. *)
Definition unvisited (graph : gmap jsstring (list jsstring))
  (st : DependencyAnalyzer.DfsState) : nat :=
  size (dom graph ∖ DependencyAnalyzer.visited st).

Definition sumN (sizes : list N) : N := fold_right N.add 0%N sizes.


(** Sizes of the files of a returned tree. *)
Definition treeBytes (files : list FileNode.t) : N :=
  sumN (List.map (fun node => default 0%N (FileNode.size node)) (treeNodes files)).

(** The sizes of the files at or below an entry, at any depth, that do
    not lie inside a directory named node_modules, dist or build. *)
Fixpoint fileSizes (entry : Entry) : list N :=
  match entry with
  | EntryFile _ (Some size) => [size]
  | EntryFile _ None => []
  | EntryDir name listing =>
      if ignoredDirectory name then []
      else match listing with
           | Some entries => flat_map fileSizes entries
           | None => []
           end
  end.

(** Every [fs.stat] that getDirectorySize issues at or below the entry
    succeeds. *)
Fixpoint statsSucceed (entry : Entry) : bool :=
  match entry with
  | EntryFile _ stats => bool_decide (is_Some stats)
  | EntryDir name listing =>
      ignoredDirectory name
      || match listing with
         | Some entries => forallb statsSucceed entries
         | None => true
         end
  end.

(** Every stored [files] counter of [languageCounts] is at least 1. *)
Definition counted (languageCounts : list (Language * FileAnalyzer.LanguageCount)) : Prop :=
  Forall (fun kv => 1 ≤ FileAnalyzer.count_files (snd kv)) languageCounts.

(** The name endings the eight test patterns select. *)
Definition testSuffixes : list jsstring := List.map (drop 1) testPatterns.

(** A file whose name ends the way one of the test patterns asks (what
    the patterns select when glob compares case-sensitively, its default
    outside macOS and Windows). *)
Definition namedLikeTest (f : jsstring) : Prop :=
  ∃ suffix, suffix ∈ testSuffixes ∧ endsWith f suffix = true.

(** Some test file has the base name of the source file [f]. *)
Definition hasTestCounterpart (testFiles : list jsstring) (f : jsstring) : Prop :=
  ∃ t, t ∈ testFiles ∧ testBase t = sourceBase f.


(** A file-kind node whose language label is known and not Unknown. *)
Definition classifiedFile (node : FileNode.t) : Prop :=
  FileNode.type node = NodeType.file ∧
  is_Some (FileAnalyzer.classified (FileNode.language node)).

End Spec.

(** ** Sample environments for the worked examples *)

Module Sample.

(** [s] without the prefix [p], when it has it. *)
Fixpoint stripPrefix (p s : jsstring) : option jsstring :=
  match p, s with
  | [], _ => Some s
  | a :: p', b :: s' => if (a =? b)%N then stripPrefix p' s' else None
  | _ :: _, [] => None
  end.

(** A flat reading of the patterns [*suffix] the core passes to glob: the
    files directly in [cwd] whose name does not start with a dot and ends
    with the suffix. *)
Definition globIn (paths : list jsstring) (pat cwd : jsstring) : option (list jsstring) :=
  Some (List.filter
          (fun f =>
             match stripPrefix (cwd ++ js "/") f with
             | Some name =>
                 negb (includes name (js "/")) && negb (startsWith name (js "."))
                 && endsWith name (drop 1 pat)
             | None => false
             end)
          paths).

Definition lookupFile (disk : list (jsstring * jsstring)) (p : jsstring)
  : option jsstring :=
  FileUtils.ownProperty p disk.

(** A machine holding the text files [disk] (absolute path, content)
    and the directory tree [root] at path [rootPath]; [parser] is its
    tree-sitter, if installed. *)
Definition machine (disk : list (jsstring * jsstring)) (rootPath : jsstring)
  (root : option (list Entry))
  (parser : option (jsstring → jsstring → option SyntaxNode)) : Env :=
  {| pathExists := fun p => eqb p rootPath || existsb (fun f => eqb (fst f) p) disk;
     readdir := fun p => if eqb p rootPath then root else None;
     readFile := lookupFile disk;
     glob := globIn (List.map fst disk);
     resolve := fun p => p;
     relative := fun from to => default to (stripPrefix (from ++ js "/") to);
     Parser := parser |}.

(** A machine without tree-sitter. *)
Definition fallbackEnv (disk : list (jsstring * jsstring)) (rootPath : jsstring)
  (root : option (list Entry)) : Env :=
  machine disk rootPath root None.

(** A machine whose tree-sitter parses the texts listed in [parses]. *)
Definition structuredEnv (disk : list (jsstring * jsstring)) (rootPath : jsstring)
  (root : option (list Entry)) (parses : list (jsstring * SyntaxNode)) : Env :=
  machine disk rootPath root
    (Some (fun _ content =>
             snd <$> List.find (fun parse => eqb (fst parse) content) parses)).

(** Lines joined by newlines. *)
Definition text (lines : list string) : jsstring :=
  CodeAnalyzer.join_newline (List.map js lines).

(** A function with two [if] statements and one [&&]. *)
Definition twoIfs : jsstring :=
  text [ "function pick(a, b) {";
         "  if (a && b) {";
         "    return 1;";
         "  }";
         "  if (a) {";
         "    return 2;";
         "  }";
         "  return 0;";
         "}" ].

(** The same two [if] statements and [&&] written on one line. *)
Definition oneLine : jsstring := js "if (a) { if (b && c) { g(); } }".

Definition scriptPath : jsstring := js "/p/pick.js".

(** A file that declares nothing named [area]. *)
Definition noArea : jsstring :=
  text [ "let width = 3;"; "let height = width ? 4 : 5;" ].

(** Two function declarations and the part of their syntax tree that
    extractFunctions reads. *)
Definition twoFunctions : jsstring :=
  text [ "function first(a) {";
         "  if (a) { return 1; }";
         "  return 0;";
         "}";
         "function second(a, b) {";
         "  if (a && b) { return 1; }";
         "  if (a || b) { return 2; }";
         "  return 0;";
         "}" ].

Definition declarationNode (name : string) (row : nat) : SyntaxNode :=
  Node (js "function_declaration") (js name) row
    [ (None, false, Node (js "function") (js "function") row []);
      (Some (js "name"), true, Node (js "identifier") (js name) row []);
      (Some (js "parameters"), true, Node (js "formal_parameters") [] row []);
      (Some (js "body"), true, Node (js "statement_block") [] row []) ].

Definition twoFunctionsTree : SyntaxNode :=
  Node (js "program") twoFunctions 0
    [ (None, true, declarationNode "first" 0);
      (None, true, declarationNode "second" 4) ].

Definition twoFunctionsProject : Env :=
  structuredEnv [(scriptPath, twoFunctions)] (js "/p") None
    [(twoFunctions, twoFunctionsTree)].

(** The script [import x from 'target';] and its syntax tree. *)
Definition importLine (target : string) : jsstring :=
  js "import x from '" ++ js target ++ js "';".

Definition importTree (target : string) : SyntaxNode :=
  Node (js "program") (importLine target) 0
    [ (None, true,
       Node (js "import_statement") (importLine target) 0
         [ (None, false, Node (js "import") (js "import") 0 []);
           (None, true,
            Node (js "import_clause") (js "x") 0
              [ (None, true, Node (js "identifier") (js "x") 0 []) ]);
           (None, false, Node (js "from") (js "from") 0 []);
           (Some (js "source"), true,
            Node (js "string") (js "'" ++ js target ++ js "'") 0
              [ (None, true, Node (js "string_fragment") (js target) 0 []) ]);
           (None, false, Node (js ";") (js ";") 0 []) ]) ].

(** Three scripts that import one another in a ring, and the project
    holding them; [listing] is the order in which the directory lists
    them. *)
Definition ringFiles : list (jsstring * jsstring) :=
  [ (js "/ring/a.js", importLine "b.js");
    (js "/ring/b.js", importLine "c.js");
    (js "/ring/c.js", importLine "a.js") ].

Definition ringProject (listing : list (jsstring * jsstring)) : Env :=
  structuredEnv listing (js "/ring") None
    [ (importLine "a.js", importTree "a.js");
      (importLine "b.js", importTree "b.js");
      (importLine "c.js", importTree "c.js") ].

Definition ringListedFromB : list (jsstring * jsstring) :=
  [ (js "/ring/b.js", importLine "c.js");
    (js "/ring/a.js", importLine "b.js");
    (js "/ring/c.js", importLine "a.js") ].

(** A project directory with a dot file, a dot directory and a script. *)
Definition hiddenTree : list Entry :=
  [ EntryFile (js ".env") (Some 7%N);
    EntryDir (js ".git") (Some [EntryFile (js "HEAD") (Some 23%N)]);
    EntryFile (js "index.js") (Some 100%N) ].

Definition hiddenProject : Env := fallbackEnv [] (js "/p") (Some hiddenTree).

(** A script of 600 (empty) lines, alone in a directory whose name
    contains [_test]. *)
Definition longScript : jsstring := List.repeat 10%N 599.


(** The same script in a directory without such a name. *)
Definition plainProject : Env :=
  fallbackEnv [(js "/srv/app/big.js", longScript);
               (js "/srv/app/foo.js", js "export const foo = 1;");
               (js "/srv/app/foo.test.js", js "test(foo);")]
    (js "/srv/app") None.

End Sample.

From stdpp Require pretty.

(** ** Value objects of getProjectMetrics *)

(** [{ path, size, lines }] as pushed on [fileStats]. *)
Module FileStat.
Record t : Type := mk {
  path : jsstring;
  size : N;
  lines : nat;
}.
End FileStat.

Module Metrics.
Record t : Type := mk {
  totalLines : nat;
  totalFiles : nat;
  totalSize : N;
  languages : list LanguageStats.t;
  averageFileSize : Q;
  largestFiles : list FileStat.t;
}.
End Metrics.

(** ** Shapes of the results *)

Module Shape.

Import FileUtils DependencyAnalyzer.

(** Some edge leads from [a] to [b]. *)
Definition linked (edges : list Edge.t) (a b : jsstring) : bool :=
  existsb (fun edge => eqb (Edge.from edge) a && eqb (Edge.to edge) b) edges.

(** Every element of [walk] is linked to the one after it. *)
Fixpoint follows (edges : list Edge.t) (walk : list jsstring) : bool :=
  match walk with
  | a :: rest =>
      match rest with
      | b :: _ => linked edges a b && follows edges rest
      | [] => true
      end
  | [] => true
  end.

(** The edges that the imports of a node stand for. *)
Definition importEdges (node : DependencyNode.t) : list Edge.t :=
  List.map (fun imp => Edge.mk (DependencyNode.path node) imp (js "import"))
    (DependencyNode.imports node).

(** A cycle as the search reports it: a walk along the edges that
    returns to its first element and passes no element twice before. *)
Definition simpleCycle (edges : list Edge.t) (cycle : list jsstring) : Prop :=
  ∃ first inner,
    cycle = first :: inner ++ [first] ∧ NoDup (first :: inner) ∧
    follows edges cycle = true.

(** [node] is a neighbor of the last element of [path], if there is one:
    how the calls of [dfs] are nested. *)
Definition reached (edges : list Edge.t) (path : list jsstring) (node : jsstring)
  : Prop :=
  match last path with
  | Some l => linked edges l node = true
  | None => True
  end.

(** What the cycle search keeps true of its variables between calls of
    [dfs]. *)
Record kept (edges : list Edge.t) (st : DfsState) : Prop := mkKept {
  kept_NoDup : NoDup (path st);
  kept_stack : recStack st = list_to_set (path st);
  kept_follows : follows edges (path st) = true;
  kept_cycles : Forall (simpleCycle edges) (circular st);
}.

(** [entry.isDirectory() ? 'directory' : 'file'] *)
Definition entryType (entry : Entry) : NodeType.t :=
  match entry with
  | EntryFile _ _ => NodeType.file
  | EntryDir _ _ => NodeType.directory
  end.

(** The node that buildFileTree pushes for a listed entry, as far as its
    name, path and kind go. *)
Definition listed (directory : jsstring) (entry : Entry)
  : jsstring * jsstring * NodeType.t :=
  (entryName entry, Path.join directory (entryName entry), entryType entry).

Definition nameKind (node : FileNode.t) : jsstring * jsstring * NodeType.t :=
  (FileNode.name node, FileNode.path node, FileNode.type node).



(** The [files] counters of a language table, added up. *)
Definition countedFiles (languages : list LanguageStats.t) : nat :=
  sum_list (List.map LanguageStats.files languages).

(** A list of file statistics in which no file is larger than one
    before it. *)
Fixpoint descending (files : list FileStat.t) : Prop :=
  match files with
  | [] => True
  | file :: files' =>
      Forall (fun later => (FileStat.size later ≤ FileStat.size file)%N) files' ∧
      descending files'
  end.

(** Number of line feeds of a text. *)
Definition lineFeeds (content : jsstring) : nat :=
  length (filter (fun c => c = 10%N) content).

(** The four kinds of smell: the [type] label of the smell and the name
    under which the [types] argument asks for it. *)
Definition smellKinds : list (string * string) :=
  [ ("Long Method", "long-method"); ("Magic Number", "magic-number");
    ("Duplicate Code", "duplicate-code"); ("Large File", "large-file") ]%string.

(** The text by which the duplicate scan compares the function that
    starts with the first line of [rest]: twenty lines, runs of white
    space collapsed. *)
Definition fingerprint (rest : list jsstring) : jsstring :=
  trim (CodeAnalyzer.collapseSpaces (CodeAnalyzer.join_newline (take 20 rest)) false).


End Shape.

(** ** getFileStats and getProjectMetrics
       (src/utils/file-utils.ts, src/analyzers/file-analyzer.ts) *)

Module ProjectMetrics.

Import FileUtils FileAnalyzer.

(** getFileStats; [stat filePath] is the [size] of [fs.stat(filePath)]
    ([None]: the call rejects).  [None] stands for the error that the
    catch clause throws, which every caller catches without reading it. *)
Definition getFileStats (E : Env) (stat : jsstring → option N) (filePath : jsstring)
  : option (N * nat) :=
  match stat filePath with
  | None => None
  | Some size =>
      match readFileContent E filePath with
      | Ok content => Some (size, length (split_newline content))
      | Throw _ => None
      end
  end.

(** What the body of collectFileStats' loop pushes for one node. *)
Fixpoint collectNode (E : Env) (stat : jsstring → option N) (node : FileNode.t)
  : list FileStat.t :=
  match node with
  | FileNode.mk _ path NodeType.file _ _ _ _ =>
      match getFileStats E stat path with
      | Some (size, lines) => [FileStat.mk path size lines]
      | None => []
      end
  | FileNode.mk _ _ NodeType.directory _ _ _ (Some children) =>
      flat_map (collectNode E stat) children
  | FileNode.mk _ _ NodeType.directory _ _ _ None => []
  end.

Definition collectFileStats (E : Env) (stat : jsstring → option N)
  (nodes : list FileNode.t) : list FileStat.t :=
  flat_map (collectNode E stat) nodes.

(** The [languageLines] map after the [forEach] over [fileStats]. *)
Definition languageLines (fileStats : list FileStat.t) : list (Language * nat) :=
  fold_left
    (fun lines file =>
       let language := detectLanguage (FileStat.path file) in
       if bool_decide (language = Unknown) then lines
       else JsMap.set lines language
              (default 0 (JsMap.get lines language) + FileStat.lines file))
    fileStats [].

(** One step of [sort((a, b) => b.size - a.size)]: [file], which stood
    before every element of [sorted], goes before the first element that
    is not larger.  (The sort is stable: files of equal size keep their
    order.) *)
Fixpoint insertBySize (file : FileStat.t) (sorted : list FileStat.t)
  : list FileStat.t :=
  match sorted with
  | [] => [file]
  | other :: sorted' =>
      if (FileStat.size file <? FileStat.size other)%N
      then other :: insertBySize file sorted'
      else file :: sorted
  end.

Definition sortBySize (fileStats : list FileStat.t) : list FileStat.t :=
  fold_right insertBySize [] fileStats.

(** getProjectMetrics; analyzeProjectStructure is called with its
    default [maxDepth]. *)
Definition getProjectMetrics (E : Env) (stat : jsstring → option N)
  (projectPath : jsstring) : result Metrics.t :=
  structure ← analyzeProjectStructure E projectPath 10;
  let fileStats := collectFileStats E stat (ProjectStructure.files structure) in
  let totalLines := fold_left (fun sum file => sum + FileStat.lines file) fileStats 0 in
  let totalFiles := length fileStats in
  let totalSize := ProjectStructure.totalSize structure in
  let averageFileSize :=
    if 0 <? totalFiles
    then (inject_Z (Z.of_N totalSize) / inject_Z (Z.of_nat totalFiles))%Q else 0%Q in
  let languageLines := languageLines fileStats in
  let languages :=
    List.map
      (fun lang =>
         let lines := default 0 (JsMap.get languageLines (LanguageStats.language lang)) in
         LanguageStats.mk (LanguageStats.language lang) (LanguageStats.files lang) lines
           (if 0 <? totalLines then (ratio lines totalLines * 100)%Q else 0%Q))
      (ProjectStructure.languages structure) in
  let largestFiles := take 10 (sortBySize fileStats) in
  mret (Metrics.mk totalLines totalFiles totalSize languages averageFileSize largestFiles).

End ProjectMetrics.

(** ** detectTechStack (src/analyzers/dependency-analyzer.ts) *)

Module TechStack.

Import FileUtils.

(** A value that [JSON.parse] returns.  Of a number the code reads only
    whether it is zero (which makes it falsy).  An object lists its own
    properties, each name once. *)
Inductive Json : Type :=
| JNull
| JBool (b : bool)
| JNumber (nonzero : bool)
| JString (s : jsstring)
| JArray (items : list Json)
| JObject (properties : list (jsstring * Json)).

(** [value.name] for a parsed [value]; [None] is [undefined].  Reading a
    property of [null] throws; neither [Object.prototype] nor the
    prototypes of arrays, strings, numbers and booleans have a property
    of the two names that are read. *)
Definition member (value : Json) (name : string) : result (option Json) :=
  match value with
  | JNull => Throw TypeError
  | JObject properties => Ok (JsMap.get properties (js name))
  | _ => Ok None
  end.

(** The own enumerable properties that [{ ...value }] copies: those of an
    object, the elements of an array and the code units of a string under
    their indices, none of [undefined], [null], a number or a boolean. *)
Definition spread (value : option Json) : list (jsstring * Json) :=
  match value with
  | Some (JObject properties) => properties
  | Some (JArray items) => imap (fun i item => (js (pretty.pretty i), item)) items
  | Some (JString s) => imap (fun i c => (js (pretty.pretty i), JString [c])) s
  | _ => []
  end.

(** Copying [source] into the object [target], property after property. *)
Definition assign (target source : list (jsstring * Json)) : list (jsstring * Json) :=
  fold_left (fun object property => JsMap.set object (fst property) (snd property))
    source target.

(** [if (value)] *)
Definition truthy (value : option Json) : bool :=
  match value with
  | None => false
  | Some JNull => false
  | Some (JBool b) => b
  | Some (JNumber nonzero) => nonzero
  | Some (JString s) => negb (eqb s [])
  | Some (JArray _) => true
  | Some (JObject _) => true
  end.

(** The five sets, each in insertion order, which is the order of the
    arrays returned. *)
Record t : Type := mk {
  languages : list jsstring;
  frameworks : list jsstring;
  packageManagers : list jsstring;
  buildTools : list jsstring;
  testFrameworks : list jsstring;
}.

(** [set.add(name)] *)
Definition add (name : string) (set : list jsstring) : list jsstring :=
  if existsb (eqb (js name)) set then set else set ++ [js name].

Definition addLanguage (name : string) (st : t) : t :=
  mk (add name (languages st)) (frameworks st) (packageManagers st) (buildTools st)
    (testFrameworks st).

Definition addFramework (name : string) (st : t) : t :=
  mk (languages st) (add name (frameworks st)) (packageManagers st) (buildTools st)
    (testFrameworks st).

Definition addPackageManager (name : string) (st : t) : t :=
  mk (languages st) (frameworks st) (add name (packageManagers st)) (buildTools st)
    (testFrameworks st).

Definition addBuildTool (name : string) (st : t) : t :=
  mk (languages st) (frameworks st) (packageManagers st) (add name (buildTools st))
    (testFrameworks st).

Definition addTestFramework (name : string) (st : t) : t :=
  mk (languages st) (frameworks st) (packageManagers st) (buildTools st)
    (add name (testFrameworks st)).

(** [if (condition) step] *)
Definition when (condition : bool) (step : t → t) (st : t) : t :=
  if condition then step st else st.

(** [path.join(absolutePath, name)] exists. *)
Definition marker (E : Env) (absolutePath : jsstring) (name : string) : bool :=
  pathExists E (Path.join absolutePath (js name)).

(** The object [deps] of the [try] block, when the statements before its
    first [if] do not throw: the file is read, its text parsed, and the
    two property reads succeed. *)
Definition dependenciesOf (E : Env) (parseJSON : jsstring → option Json)
  (absolutePath : jsstring) : option (list (jsstring * Json)) :=
  match readFileContent E (Path.join absolutePath (js "package.json")) with
  | Throw _ => None
  | Ok text =>
      match parseJSON text with
      | None => None
      | Some packageJson =>
          match member packageJson "dependencies",
                member packageJson "devDependencies" with
          | Ok dependencies, Ok devDependencies =>
              Some (assign (assign [] (spread dependencies)) (spread devDependencies))
          | _, _ => None
          end
      end
  end.

(** The [if (deps.name) ...] statements of the [try] block. *)
Definition fromDependencies (deps : list (jsstring * Json)) (st : t) : t :=
  let has (name : string) := truthy (JsMap.get deps (js name)) in
  let st := when (has "react") (addFramework "React") st in
  let st := when (has "vue") (addFramework "Vue") st in
  let st := when (has "angular") (addFramework "Angular") st in
  let st := when (has "express") (addFramework "Express") st in
  let st := when (has "next") (addFramework "Next.js") st in
  let st := when (has "@nestjs/core") (addFramework "NestJS") st in
  let st := when (has "jest") (addTestFramework "Jest") st in
  let st := when (has "mocha") (addTestFramework "Mocha") st in
  when (has "vitest") (addTestFramework "Vitest") st.

Definition fromPackageJson (E : Env) (parseJSON : jsstring → option Json)
  (absolutePath : jsstring) (st : t) : t :=
  let st := addPackageManager "npm" st in
  let st := addLanguage "JavaScript" st in
  let st := addLanguage "TypeScript" st in
  match dependenciesOf E parseJSON absolutePath with
  | Some deps => fromDependencies deps st
  | None => st
  end.

(** The [try] block that reads pyproject.toml. *)
Definition fromPyproject (E : Env) (absolutePath : jsstring) (st : t) : t :=
  match readFileContent E (Path.join absolutePath (js "pyproject.toml")) with
  | Throw _ => st
  | Ok pyproject =>
      let st := when (includes pyproject (js "django")) (addFramework "Django") st in
      let st := when (includes pyproject (js "flask")) (addFramework "Flask") st in
      when (includes pyproject (js "fastapi")) (addFramework "FastAPI") st
  end.

Definition fromPython (E : Env) (absolutePath : jsstring) (st : t) : t :=
  let st := addPackageManager "pip" st in
  let st := addLanguage "Python" st in
  when (marker E absolutePath "pyproject.toml") (fromPyproject E absolutePath) st.

(** detectTechStack; [parseJSON] is [JSON.parse] ([None]: it throws). *)
Definition detectTechStack (E : Env) (parseJSON : jsstring → option Json)
  (projectPath : jsstring) : t :=
  let absolutePath := resolve E projectPath in
  let exists_ := marker E absolutePath in
  let st := mk [] [] [] [] [] in
  let st := when (exists_ "package.json") (fromPackageJson E parseJSON absolutePath) st in
  let st := when (exists_ "requirements.txt" || exists_ "pyproject.toml")
              (fromPython E absolutePath) st in
  let st := when (exists_ "pom.xml")
              (fun st => addLanguage "Java" (addBuildTool "Maven"
                           (addPackageManager "Maven" st))) st in
  let st := when (exists_ "build.gradle")
              (fun st => addLanguage "Java" (addBuildTool "Gradle"
                           (addPackageManager "Gradle" st))) st in
  let st := when (exists_ "go.mod")
              (fun st => addLanguage "Go" (addPackageManager "go mod" st)) st in
  let st := when (exists_ "Cargo.toml")
              (fun st => addLanguage "Rust" (addPackageManager "Cargo" st)) st in
  let st := when (exists_ "webpack.config.js") (addBuildTool "Webpack") st in
  let st := when (exists_ "vite.config.js" || exists_ "vite.config.ts")
              (addBuildTool "Vite") st in
  when (exists_ "tsconfig.json") (addBuildTool "TypeScript Compiler") st.

End TechStack.

(** ** Shapes of a detected stack *)

Module StackShape.

Import FileUtils TechStack.

(** The property names looked up in [deps], each with the framework it
    stands for, in the order of the lookups. *)
Definition frameworkKeys : list (string * string) :=
  [ ("react", "React"); ("vue", "Vue"); ("angular", "Angular");
    ("express", "Express"); ("next", "Next.js"); ("@nestjs/core", "NestJS") ]%string.

Definition testFrameworkKeys : list (string * string) :=
  [ ("jest", "Jest"); ("mocha", "Mocha"); ("vitest", "Vitest") ]%string.

(** The words searched for in pyproject.toml. *)
Definition pythonFrameworks : list (string * string) :=
  [ ("django", "Django"); ("flask", "Flask"); ("fastapi", "FastAPI") ]%string.

(** The names of [table] whose key passes [test], in the order of the
    table. *)
Definition chosen (test : string → bool) (table : list (string * string))
  : list jsstring :=
  List.map (fun entry => js (snd entry)) (List.filter (fun entry => test (fst entry)) table).

(** [deps.key] when [deps] is [{ ...dependencies, ...devDependencies }]:
    the entry of [devDependencies] if it has one, be it falsy. *)
Definition merged (dependencies devDependencies : option Json) (key : string)
  : option Json :=
  match JsMap.get (spread devDependencies) (js key) with
  | Some value => Some value
  | None => JsMap.get (spread dependencies) (js key)
  end.

End StackShape.

(** ** Further sample projects for the worked examples *)

Module Cases.

Import Sample.

(** The graph of the ring of three scripts, listed from a.js. *)
Definition ringKeys : list (string * string) :=
  [ ("a.js", "b.js"); ("b.js", "c.js"); ("c.js", "a.js") ]%string.

Definition ringNodes : list DependencyNode.t :=
  List.map (fun link =>
              DependencyNode.mk (js (fst link)) (js (fst link)) [js (snd link)] []
                [js (snd link)])
    ringKeys.

Definition ringEdges : list Edge.t :=
  List.map (fun link => Edge.mk (js (fst link)) (js (snd link)) (js "import")) ringKeys.

Definition ringGraph : DependencyGraph.t :=
  DependencyGraph.mk ringNodes ringEdges [[js "a.js"; js "b.js"; js "c.js"; js "a.js"]].

(** Two scripts that import each other the way scripts do, by relative
    specifier. *)
Definition pairFiles : list (jsstring * jsstring) :=
  [ (js "/app/a.js", importLine "./b"); (js "/app/b.js", importLine "./a") ].

Definition pairProject : Env :=
  structuredEnv pairFiles (js "/app") None
    [ (importLine "./a", importTree "./a"); (importLine "./b", importTree "./b") ].

Definition pairGraph : DependencyGraph.t :=
  DependencyGraph.mk
    [ DependencyNode.mk (js "a.js") (js "a.js") [js "./b"] [] [js "./b"];
      DependencyNode.mk (js "b.js") (js "b.js") [js "./a"] [] [js "./a"] ]
    [ Edge.mk (js "a.js") (js "./b") (js "import");
      Edge.mk (js "b.js") (js "./a") (js "import") ]
    [].

(** The ring of scripts on a machine without tree-sitter. *)
Definition ringWithoutParser : Env := fallbackEnv ringFiles (js "/ring") None.

(** A function of 62 lines. *)
Definition longFunction : jsstring :=
  CodeAnalyzer.join_newline
    ([js "function f() {"] ++ List.repeat (js "  g();") 60 ++ [js "}"]).

(** A function of 20 lines, written twice. *)
Definition twentyLines : list jsstring :=
  [js "function f() {"] ++ List.repeat (js "  g();") 18 ++ [js "}"].

Definition writtenTwice : jsstring :=
  CodeAnalyzer.join_newline (twentyLines ++ twentyLines).

(** A call with a bare number, and a script of 60 lines without a brace. *)
Definition bareNumber : jsstring := text [ "retry(1000);" ].

Definition smellyProject : Env :=
  fallbackEnv
    [ (js "/s/long.js", longFunction); (js "/s/twice.js", writtenTwice);
      (js "/s/number.js", bareNumber) ]
    (js "/s") None.

Definition longSmell : CodeSmell.t :=
  CodeAnalyzer.longMethodSmell (js "/s/long.js") 0 62.

Definition twiceSmell : CodeSmell.t :=
  CodeAnalyzer.duplicateSmell (js "/s/twice.js") 20 1.

Definition numberSmell : CodeSmell.t :=
  CodeAnalyzer.magicNumberSmell (js "/s/number.js") 0 (js "1000").

(** A project of one script of two lines, three bytes long. *)
Definition smallProject : Env :=
  fallbackEnv [(js "/m/index.js", js "a" ++ [10%N] ++ js "b")] (js "/m")
    (Some [EntryFile (js "index.js") (Some 3%N)]).

Definition smallStat (p : jsstring) : option N :=
  if eqb p (js "/m/index.js") then Some 3%N else None.

(** A project with a package.json and a pyproject.toml, and what
    [JSON.parse] makes of the first. *)
Definition quoted (s : string) : jsstring := [34%N] ++ js s ++ [34%N].

Definition manifest : jsstring :=
  js "{" ++ quoted "dependencies" ++ js ":{"
    ++ quoted "react" ++ js ":" ++ quoted "^18" ++ js ","
    ++ quoted "jest" ++ js ":" ++ quoted "^29" ++ js "},"
    ++ quoted "devDependencies" ++ js ":{" ++ quoted "jest" ++ js ":false}}".

Definition manifestJson : TechStack.Json :=
  TechStack.JObject
    [ (js "dependencies",
       TechStack.JObject [ (js "react", TechStack.JString (js "^18"));
                           (js "jest", TechStack.JString (js "^29")) ]);
      (js "devDependencies",
       TechStack.JObject [ (js "jest", TechStack.JBool false) ]) ].

Definition parseManifest (source : jsstring) : option TechStack.Json :=
  if eqb source manifest then Some manifestJson else None.

Definition stackProject : Env :=
  fallbackEnv
    [ (js "/w/package.json", manifest);
      (js "/w/pyproject.toml", js "dependencies = [" ++ quoted "flask" ++ js "]") ]
    (js "/w") None.

(** The same project with a package.json that is not JSON. *)
Definition brokenManifest : Env :=
  fallbackEnv
    [ (js "/w/package.json", js "{" ++ quoted "dependencies" ++ js ":");
      (js "/w/pyproject.toml", js "dependencies = [" ++ quoted "flask" ++ js "]") ]
    (js "/w") None.

(** A machine on which glob rejects. *)
Definition globRejects : Env :=
  let E := fallbackEnv [] (js "/p") None in
  mkEnv (pathExists E) (readdir E) (readFile E) (fun _ _ => None) (resolve E)
    (relative E) (Parser E).

End Cases.

(** * Properties *)

(** ** Complexity: what the counting loops compute *)

Section Complexity.

Import FileUtils ParserUtils CodeAnalyzer.

Lemma bind_Ok {A B : Type} (m : result A) (f : A → result B) (b : B) :
  m ≫= f = Ok b → ∃ a, m = Ok a ∧ f a = Ok b.
Proof. destruct m as [a|e]; simpl; [eauto | discriminate]. Qed.

Lemma fold_count_filter (line : jsstring) (keywords : list jsstring) (c : nat) :
  fold_left (fun complexity keyword =>
               if includes line keyword then S complexity else complexity)
    keywords c
  = c + length (filter (fun keyword => includes line keyword = true) keywords).
Proof.
  revert c. induction keywords as [|k ks IH]; intros c; simpl.
  - lia.
  - rewrite IH. rewrite filter_cons.
    destruct (includes line k) eqn:Hk; case_decide; try congruence; simpl; lia.
Qed.

Lemma countKeywords_tokens (line : jsstring) (c : nat) :
  countKeywords line c = c + length (Spec.tokensIn line).
Proof. apply fold_count_filter. Qed.

Lemma at_index_Some (lines : list jsstring) (i : Z) (line : jsstring) :
  at_index lines i = Some line → (0 ≤ i)%Z ∧ lines !! Z.to_nat i = Some line.
Proof.
  unfold at_index. destruct (i <? 0)%Z eqn:Hi; [discriminate|].
  apply Z.ltb_ge in Hi. auto.
Qed.

Lemma countLines_sum (n : nat) (lines : list jsstring) (i : Z) (c r : nat) :
  countLines n lines i c = Ok r →
  r = c + sum_list (List.map (fun line => length (Spec.tokensIn line))
                      (take n (drop (Z.to_nat i) lines))).
Proof.
  revert i c. induction n as [|n IH]; intros i c; simpl.
  - intros [= <-]. lia.
  - destruct (at_index lines i) as [line|] eqn:Hline; [|discriminate].
    apply at_index_Some in Hline as [Hi Hline].
    intros Hrec. apply IH in Hrec. subst r.
    rewrite countKeywords_tokens.
    replace (Z.to_nat (i + 1)) with (S (Z.to_nat i)) by lia.
    rewrite (drop_S lines line (Z.to_nat i) Hline). simpl. lia.
Qed.

Lemma countDecisionPoints_score (lines : list jsstring) (startLine endLine : Z) (r : nat) :
  countDecisionPoints lines startLine endLine = Ok r →
  r = Spec.containmentScore (Spec.scannedLines lines (startLine, endLine)).
Proof.
  unfold countDecisionPoints. intros H. apply countLines_sum in H.
  subst r. reflexivity.
Qed.

(** Every value calculateComplexity returns is the report of the
    containment score of the scanned lines of the file. *)
Lemma calculateComplexity_Ok (E : Env) (filePath : jsstring)
  (functionName : option jsstring) (c : CodeComplexity.t) :
  calculateComplexity E filePath functionName = Ok c →
  ∃ content,
    readFileContent E filePath = Ok content ∧
    c = report filePath functionName
          (Spec.containmentScore
             (Spec.scannedLines (split_newline content)
                (Spec.scanRange E filePath functionName (split_newline content)))).
Proof.
  unfold calculateComplexity, calculateComplexityFallback, Spec.scanRange.
  destruct (parseFile E filePath) as [tree|].
  - intros H. apply bind_Ok in H as (target & Htarget & H).
    apply bind_Ok in H as (content & Hcontent & H).
    replace (supplied functionName ≫= _) with target.
    2:{ destruct (supplied functionName) as [name|]; simpl in *; [|congruence].
        destruct (findFunction _ name); congruence. }
    destruct (structuredRange target (split_newline content)) as [s e] eqn:Hrange.
    apply bind_Ok in H as (r & Hr & Hc). injection Hc as <-.
    exists content. split; [done|].
    apply countDecisionPoints_score in Hr. subst r. by rewrite ?Hrange.
  - intros H. apply bind_Ok in H as (content & Hcontent & H).
    destruct (fallbackRange functionName (split_newline content)) as [s e] eqn:Hrange.
    apply bind_Ok in H as (r & Hr & Hc). injection Hc as <-.
    exists content. split; [done|].
    apply countDecisionPoints_score in Hr. subst r. by rewrite ?Hrange.
Qed.

End Complexity.

(** ** C9: score, level and recommendations *)

Section Levels.

Import FileUtils ParserUtils CodeAnalyzer.

Lemma levelOf_thresholds (n : nat) :
  (levelOf n = low ↔ n ≤ 5) ∧
  (levelOf n = medium ↔ 5 < n ≤ 10) ∧
  (levelOf n = high ↔ 10 < n ≤ 20) ∧
  (levelOf n = very_high ↔ 20 < n).
Proof.
  unfold levelOf.
  destruct (Nat.leb_spec n 5); [|destruct (Nat.leb_spec n 10); [|destruct (Nat.leb_spec n 20)]];
    repeat split; intros; try discriminate; try lia; reflexivity.
Qed.

Lemma recommendationsOf_nonempty (n : nat) :
  recommendationsOf n ≠ [] → 10 < n.
Proof.
  unfold recommendationsOf.
  destruct (Nat.ltb_spec 10 n); [lia|].
  destruct (Nat.ltb_spec 20 n); [lia|]. simpl. congruence.
Qed.

(** C9.  Every CodeComplexity value calculateComplexity returns has a
    score of at least 1, the level low exactly for scores up to 5, medium
    exactly for scores from 6 to 10, high exactly for scores from 11 to
    20 and very-high exactly above 20, and recommendations only when the
    score exceeds 10. *)
Theorem complexity_score_level_recommendations (E : Env) (filePath : jsstring)
  (functionName : option jsstring) (c : CodeComplexity.t) :
  calculateComplexity E filePath functionName = Ok c →
  1 ≤ CodeComplexity.complexity c ∧
  (CodeComplexity.level c = low ↔ CodeComplexity.complexity c ≤ 5) ∧
  (CodeComplexity.level c = medium ↔ 5 < CodeComplexity.complexity c ≤ 10) ∧
  (CodeComplexity.level c = high ↔ 10 < CodeComplexity.complexity c ≤ 20) ∧
  (CodeComplexity.level c = very_high ↔ 20 < CodeComplexity.complexity c) ∧
  (CodeComplexity.recommendations c ≠ [] → 10 < CodeComplexity.complexity c).
Proof.
  intros H. apply calculateComplexity_Ok in H as (content & _ & ->).
  unfold report; simpl.
  split; [unfold Spec.containmentScore; lia|].
  pose proof (levelOf_thresholds
                (Spec.containmentScore
                   (Spec.scannedLines (split_newline content)
                      (Spec.scanRange E filePath functionName (split_newline content)))))
    as (H1 & H2 & H3 & H4).
  repeat split; try tauto; try (apply H1 || apply H2 || apply H3 || apply H4); auto.
  apply recommendationsOf_nonempty.
Qed.

End Levels.

(** ** C1: the score counts line/token containments *)

Section Score.

Import FileUtils ParserUtils CodeAnalyzer.

Lemma length_filter_sum {A : Type} (P : A → Prop) `{∀ x, Decision (P x)} (l : list A) :
  length (filter P l) = sum_list (List.map (fun x => if decide (P x) then 1 else 0) l).
Proof.
  induction l as [|x l IH]; [done|].
  rewrite filter_cons. simpl. destruct (decide (P x)); simpl; lia.
Qed.

Lemma sum_list_map_plus {A : Type} (f g : A → nat) (l : list A) :
  sum_list (List.map (fun x => f x + g x) l)
  = sum_list (List.map f l) + sum_list (List.map g l).
Proof. induction l as [|x l IH]; simpl; lia. Qed.

Lemma sum_list_map_zero {A : Type} (l : list A) :
  sum_list (List.map (fun _ => 0) l) = 0.
Proof. induction l; simpl; lia. Qed.

(** Counting containments line by line or token by token is the same. *)
Lemma containments_by_keyword (keywords lines : list jsstring) :
  sum_list (List.map
              (fun line => length (filter (fun keyword => includes line keyword = true)
                                     keywords))
              lines)
  = sum_list (List.map (fun keyword => Spec.linesWith keyword lines) keywords).
Proof.
  unfold Spec.linesWith.
  induction lines as [|line lines IH]; simpl.
  - by rewrite sum_list_map_zero.
  - rewrite IH, length_filter_sum, <- sum_list_map_plus.
    f_equal. apply map_ext. intros keyword.
    rewrite filter_cons. destruct (decide (includes line keyword = true)); simpl; lia.
Qed.

Lemma containmentScore_by_keyword (scanned : list jsstring) :
  Spec.containmentScore scanned
  = 1 + sum_list (List.map (fun keyword => Spec.linesWith keyword scanned) decisionKeywords).
Proof.
  unfold Spec.containmentScore, Spec.tokensIn. by rewrite containments_by_keyword.
Qed.

Lemma scannedLines_whole (lines : list jsstring) :
  Spec.scannedLines lines (0%Z, Z.of_nat (length lines)) = lines.
Proof.
  unfold Spec.scannedLines. simpl.
  rewrite Z.sub_0_r, Nat2Z.id, drop_0. apply firstn_all.
Qed.

Lemma scanRange_whole (E : Env) (filePath : jsstring) (functionName : option jsstring)
  (lines : list jsstring) :
  supplied functionName = None →
  Spec.scanRange E filePath functionName lines = (0%Z, Z.of_nat (length lines)).
Proof.
  intros Hnone. unfold Spec.scanRange, fallbackRange. rewrite Hnone.
  by destruct (parseFile E filePath).
Qed.

(** C1, as the code has it.  The score calculateComplexity returns is 1
    plus one increment for every scanned line and every decision token
    that the line contains as a substring, however often the token occurs
    in the line; the scanned lines are the whole file when no function
    name is supplied.  In particular, when exactly two scanned lines
    contain [if], exactly one contains [&&] and none contains another
    decision token, the score is 4 and the level is low. *)
Theorem complexity_counts_containments (E : Env) (filePath : jsstring)
  (functionName : option jsstring) (c : CodeComplexity.t) :
  calculateComplexity E filePath functionName = Ok c →
  ∃ content,
    readFileContent E filePath = Ok content ∧
    let lines := split_newline content in
    let scanned :=
      Spec.scannedLines lines (Spec.scanRange E filePath functionName lines) in
    CodeComplexity.complexity c = Spec.containmentScore scanned ∧
    (supplied functionName = None → scanned = lines) ∧
    (Spec.linesWith (js "if") scanned = 2 →
     Spec.linesWith (js "&&") scanned = 1 →
     (∀ keyword, keyword ∈ decisionKeywords →
                 keyword ≠ js "if" → keyword ≠ js "&&" →
                 Spec.linesWith keyword scanned = 0) →
     CodeComplexity.complexity c = 4 ∧ CodeComplexity.level c = low).
Proof.
  intros H. apply calculateComplexity_Ok in H as (content & Hcontent & ->).
  exists content. split; [done|]. cbv zeta. split; [done|]. split.
  - intros Hnone. rewrite scanRange_whole by done. apply scannedLines_whole.
  - intros Hif Hand Hother.
    set (scanned := Spec.scannedLines _ _) in *.
    assert (Spec.containmentScore scanned = 4) as Hscore.
    { rewrite containmentScore_by_keyword. unfold decisionKeywords. simpl.
      rewrite Hif, Hand.
      rewrite !Hother; first lia.
      all: first [ by (vm_compute; discriminate)
                 | by (apply list_elem_of_In; vm_compute; tauto) ]. }
    unfold report; simpl. by rewrite Hscore.
Qed.

End Score.

(** ** C1 and C9 on sample files *)

Section ScoreExamples.

Import FileUtils ParserUtils CodeAnalyzer Sample.

Lemma complexity_score_level_recommendations_witness :
  let E := fallbackEnv [(scriptPath, twoIfs)] (js "/p") None in
  let c := report scriptPath None 4 in
  calculateComplexity E scriptPath None = Ok c ∧
  1 ≤ CodeComplexity.complexity c ∧
  (CodeComplexity.level c = low ↔ CodeComplexity.complexity c ≤ 5) ∧
  (CodeComplexity.level c = medium ↔ 5 < CodeComplexity.complexity c ≤ 10) ∧
  (CodeComplexity.level c = high ↔ 10 < CodeComplexity.complexity c ≤ 20) ∧
  (CodeComplexity.level c = very_high ↔ 20 < CodeComplexity.complexity c) ∧
  (CodeComplexity.recommendations c ≠ [] → 10 < CodeComplexity.complexity c).
Proof.
  intros E c.
  assert (calculateComplexity E scriptPath None = Ok c) as H by (vm_compute; reflexivity).
  split; [exact H|].
  exact (complexity_score_level_recommendations E scriptPath None c H).
Defined.

Lemma complexity_counts_containments_witness :
  let E := fallbackEnv [(scriptPath, twoIfs)] (js "/p") None in
  let c := report scriptPath None 4 in
  calculateComplexity E scriptPath None = Ok c ∧
  CodeComplexity.complexity c = 4 ∧ CodeComplexity.level c = low.
Proof.
  intros E c.
  assert (calculateComplexity E scriptPath None = Ok c) as H by (vm_compute; reflexivity).
  split; [exact H|].
  destruct (complexity_counts_containments E scriptPath None c H)
    as (content & Hcontent & _ & Hwhole & Hcase).
  vm_compute in Hcontent. injection Hcontent as <-.
  cbv zeta in Hwhole, Hcase. rewrite (Hwhole eq_refl) in Hcase.
  apply Hcase; [vm_compute; reflexivity | vm_compute; reflexivity |].
  intros keyword Hin Hif Hand.
  apply list_elem_of_In in Hin. simpl in Hin.
  repeat (destruct Hin as [<- | Hin];
          [first [by (vm_compute; reflexivity) | by destruct Hif | by destruct Hand]|]).
  destruct Hin.
Defined.

(** C1, as the specification words it, fails: the two [if] and the [&&]
    of [oneLine] are three token occurrences, the occurrence count is 4,
    and the code returns 3. *)
Lemma complexity_per_occurrence_counterexample :
  let E := fallbackEnv [(scriptPath, oneLine)] (js "/p") None in
  let lines := split_newline oneLine in
  Spec.occurrencesIn (js "if") lines = 2 ∧
  Spec.occurrencesIn (js "&&") lines = 1 ∧
  (∀ keyword, keyword ∈ decisionKeywords → keyword ≠ js "if" → keyword ≠ js "&&" →
              Spec.occurrencesIn keyword lines = 0) ∧
  Spec.occurrenceScore lines = 4 ∧
  ∃ c, calculateComplexity E scriptPath None = Ok c ∧
       CodeComplexity.complexity c = 3 ∧
       CodeComplexity.complexity c ≠ Spec.occurrenceScore lines.
Proof.
  intros E lines. repeat split; try (vm_compute; reflexivity).
  - intros keyword Hin Hif Hand.
    apply list_elem_of_In in Hin. simpl in Hin.
    repeat (destruct Hin as [<- | Hin];
            [first [by (vm_compute; reflexivity) | by destruct Hif | by destruct Hand]|]).
    destruct Hin.
  - exists (report scriptPath None 3).
    repeat split; try (vm_compute; reflexivity).
    vm_compute. discriminate.
Qed.

End ScoreExamples.

(** ** C5: a function name that is absent from the file *)

Section AbsentFunction.

Import FileUtils ParserUtils CodeAnalyzer.

Lemma countLines_in_range (n : nat) (lines : list jsstring) (i c : nat) :
  n = 0 ∨ i + n ≤ length lines →
  countLines n lines (Z.of_nat i) c
  = Ok (c + sum_list (List.map (fun line => length (Spec.tokensIn line))
                        (take n (drop i lines)))).
Proof.
  revert i c. induction n as [|n IH]; intros i c Hlen; simpl.
  - f_equal. lia.
  - destruct Hlen as [|Hlen]; [done|].
    unfold at_index. destruct (Z.of_nat i <? 0)%Z eqn:Hneg; [lia|].
    rewrite Nat2Z.id.
    destruct (lines !! i) as [line|] eqn:Hline.
    2:{ apply lookup_ge_None in Hline. lia. }
    replace (Z.of_nat i + 1)%Z with (Z.of_nat (S i)) by lia.
    rewrite IH by lia. rewrite countKeywords_tokens.
    rewrite (drop_S lines line i Hline). simpl. f_equal. lia.
Qed.

(** The counting loop returns whenever the range starts at a
    non-negative index and ends within the file. *)
Lemma countDecisionPoints_in_range (lines : list jsstring) (startLine endLine : Z) :
  (0 ≤ startLine)%Z → (endLine ≤ Z.of_nat (length lines))%Z →
  countDecisionPoints lines startLine endLine
  = Ok (Spec.containmentScore (Spec.scannedLines lines (startLine, endLine))).
Proof.
  intros Hstart Hend. unfold countDecisionPoints.
  rewrite <- (Z2Nat.id startLine) at 2 by done.
  rewrite countLines_in_range by lia. reflexivity.
Qed.

Lemma countDecisionPoints_whole (lines : list jsstring) :
  countDecisionPoints lines 0 (Z.of_nat (length lines))
  = Ok (Spec.containmentScore lines).
Proof.
  rewrite countDecisionPoints_in_range by lia. by rewrite scannedLines_whole.
Qed.

Lemma firstIndex_range (test : nat → jsstring → bool) (rest : list jsstring) (i j : nat) :
  firstIndex test rest i = Some j → i ≤ j < i + length rest.
Proof.
  revert i. induction rest as [|line rest IH]; intros i; simpl; [discriminate|].
  destruct (test i line).
  - intros [= <-]. lia.
  - intros H. apply IH in H. lia.
Qed.

Lemma firstIndexFrom_range (test : nat → jsstring → bool) (lines : list jsstring)
  (from j : nat) :
  firstIndexFrom test lines from = Some j → from ≤ j < length lines.
Proof.
  unfold firstIndexFrom. intros H. apply firstIndex_range in H.
  rewrite length_drop in H. lia.
Qed.

Lemma fallbackRange_bounds (functionName : option jsstring) (lines : list jsstring) :
  (0 ≤ fst (fallbackRange functionName lines))%Z ∧
  (snd (fallbackRange functionName lines) ≤ Z.of_nat (length lines))%Z.
Proof.
  unfold fallbackRange. destruct (supplied functionName) as [name|]; simpl; [|lia].
  destruct (firstIndexFrom _ lines 0) as [i|]; simpl; [|lia].
  destruct (firstIndexFrom _ lines (i + 1)) as [j|] eqn:Hj; simpl; [|lia].
  apply firstIndexFrom_range in Hj. lia.
Qed.

Lemma structuredRange_bounds (target : option FunctionDecl.t) (lines : list jsstring) :
  (∀ t, target = Some t → 1 ≤ FunctionDecl.line t) →
  (0 ≤ fst (structuredRange target lines))%Z ∧
  (snd (structuredRange target lines) ≤ Z.of_nat (length lines))%Z.
Proof.
  intros Hline. unfold structuredRange. destruct target as [t|]; simpl; [|lia].
  specialize (Hline t eq_refl).
  destruct (firstIndexFrom _ lines _) as [i|] eqn:Hi; simpl; [|lia].
  apply firstIndexFrom_range in Hi. lia.
Qed.

(** In fallback mode calculateComplexity returns for every readable
    file, whatever function name is supplied. *)
Lemma calculateComplexity_fallback_returns (E : Env) (filePath content : jsstring)
  (functionName : option jsstring) :
  parseFile E filePath = None →
  readFile E filePath = Some content →
  ∃ c, calculateComplexity E filePath functionName = Ok c.
Proof.
  intros Hparse Hread.
  unfold calculateComplexity, calculateComplexityFallback, readFileContent.
  rewrite Hparse, Hread. unfold mbind, result_bind. cbv beta iota.
  pose proof (fallbackRange_bounds functionName (split_newline content)) as [Hs He].
  destruct (fallbackRange functionName (split_newline content)) as [s e].
  rewrite countDecisionPoints_in_range by done. eauto.
Qed.

Lemma SyntaxNode_nested_ind (P : SyntaxNode → Prop) :
  (∀ type text row children,
     Forall (fun child => P (snd child)) children → P (Node type text row children)) →
  ∀ node, P node.
Proof.
  intros Hnode. fix IH 1. intros [type text row children].
  apply Hnode. revert children. fix IHchildren 1.
  intros [|[attached child] children]; constructor; [apply IH | apply IHchildren].
Qed.

(** Declaration lines are 1-based. *)
Lemma traverseFunctions_lines (language : Language) (node : SyntaxNode) :
  Forall (fun f => 1 ≤ FunctionDecl.line f) (traverseFunctions language node).
Proof.
  induction node as [type text row children IH] using SyntaxNode_nested_ind.
  cbn [traverseFunctions]. apply Forall_app. split.
  - unfold functionsAt. destruct (declares language _); [|constructor].
    destruct (childForFieldName _ "name"); repeat constructor. simpl. lia.
  - induction IH as [|child children Hchild _ IHchildren]; simpl; [constructor|].
    apply Forall_app. by split.
Qed.

Lemma findFunction_line (E : Env) (tree : SyntaxNode) (language : Language)
  (name : jsstring) (target : FunctionDecl.t) :
  findFunction (extractFunctions E tree language) name = Some target →
  1 ≤ FunctionDecl.line target.
Proof.
  unfold findFunction, extractFunctions. intros Hfind.
  apply find_some in Hfind as [Hin _].
  destruct (Parser E); [|done].
  pose proof (traverseFunctions_lines language tree) as Hlines.
  rewrite Forall_forall in Hlines. by apply Hlines, list_elem_of_In.
Qed.

(** In structured mode it returns for every readable file when no name
    is supplied or the named function is declared. *)
Lemma calculateComplexity_structured_returns (E : Env) (filePath content : jsstring)
  (functionName : option jsstring) (tree : SyntaxNode) :
  parseFile E filePath = Some tree →
  readFile E filePath = Some content →
  (∀ name, supplied functionName = Some name →
           is_Some (findFunction (extractFunctions E tree (detectLanguage filePath)) name)) →
  ∃ c, calculateComplexity E filePath functionName = Ok c.
Proof.
  intros Hparse Hread Hdeclared.
  unfold calculateComplexity, readFileContent. rewrite Hparse, Hread.
  destruct (supplied functionName) as [name|].
  - destruct (Hdeclared name eq_refl) as (target & Htarget). rewrite Htarget.
    apply findFunction_line in Htarget.
    unfold mbind, result_bind. cbv beta iota.
    pose proof (structuredRange_bounds (Some target) (split_newline content)) as [Hs He].
    { by intros t [= <-]. }
    destruct (structuredRange (Some target) (split_newline content)) as [s e].
    rewrite countDecisionPoints_in_range by done. eauto.
  - unfold mbind, result_bind. cbv beta iota.
    pose proof (structuredRange_bounds None (split_newline content)) as [Hs He]; [done|].
    destruct (structuredRange None (split_newline content)) as [s e].
    rewrite countDecisionPoints_in_range by done. eauto.
Qed.

Lemma firstIndex_none (test : nat → jsstring → bool) (rest : list jsstring) (i : nat) :
  (∀ j line, line ∈ rest → test j line = false) → firstIndex test rest i = None.
Proof.
  revert i. induction rest as [|line rest IH]; intros i Hall; simpl; [done|].
  rewrite Hall by left. apply IH. intros j l Hl. apply Hall. by right.
Qed.

(** In structured mode an absent name is rejected. *)
Lemma structured_rejects_absent_function (E : Env) (filePath name : jsstring)
  (tree : SyntaxNode) :
  parseFile E filePath = Some tree →
  name ≠ [] →
  findFunction (extractFunctions E tree (detectLanguage filePath)) name = None →
  calculateComplexity E filePath (Some name) = Throw (FunctionNotFound name filePath).
Proof.
  intros Htree Hname Hfind. unfold calculateComplexity. rewrite Htree.
  destruct name as [|a name]; [done|]. simpl. by rewrite Hfind.
Qed.

(** C5 on the code: in fallback mode a supplied name that no line of the
    file carries in one of the three searched forms does not make the
    call fail; the call returns the score of the whole file under that
    function name. *)
Theorem fallback_scores_whole_file_for_absent_function (E : Env)
  (filePath name content : jsstring) :
  parseFile E filePath = None →
  readFile E filePath = Some content →
  name ≠ [] →
  (∀ line, line ∈ split_newline content →
           includes line (js "function " ++ name) = false ∧
           includes line (name ++ js "(") = false ∧
           includes line (js "const " ++ name ++ js " =") = false) →
  calculateComplexity E filePath (Some name)
  = Ok (report filePath (Some name) (Spec.containmentScore (split_newline content))).
Proof.
  intros Hparse Hread Hname Habsent.
  unfold calculateComplexity, calculateComplexityFallback, readFileContent.
  rewrite Hparse, Hread. simpl.
  unfold fallbackRange.
  destruct name as [|a name]; [done|]. cbn [supplied].
  unfold firstIndexFrom at 1. rewrite drop_0.
  rewrite firstIndex_none.
  2:{ intros j line Hline. destruct (Habsent line Hline) as (-> & -> & ->). done. }
  by rewrite countDecisionPoints_whole.
Qed.

Lemma fallback_scores_whole_file_for_absent_function_witness :
  let E := Sample.fallbackEnv [(Sample.scriptPath, Sample.noArea)] (js "/p") None in
  calculateComplexity E Sample.scriptPath (Some (js "area"))
  = Ok (report Sample.scriptPath (Some (js "area")) 2).
Proof.
  intros E.
  apply (fallback_scores_whole_file_for_absent_function E Sample.scriptPath
           (js "area") Sample.noArea).
  - reflexivity.
  - reflexivity.
  - discriminate.
  - intros line Hline. apply list_elem_of_In in Hline. vm_compute in Hline.
    repeat (destruct Hline as [<- | Hline]; [by vm_compute|]). destruct Hline.
Defined.

(** Structured mode on [Sample.twoFunctions]: the whole file, each
    function on its own, and a name that is not declared. *)
Example structured_whole_file :
  calculateComplexity Sample.twoFunctionsProject Sample.scriptPath None
  = Ok (report Sample.scriptPath None 6).
Proof. vm_compute. reflexivity. Qed.

Example structured_first_function :
  calculateComplexity Sample.twoFunctionsProject Sample.scriptPath (Some (js "first"))
  = Ok (report Sample.scriptPath (Some (js "first")) 2).
Proof. vm_compute. reflexivity. Qed.

Example structured_second_function :
  calculateComplexity Sample.twoFunctionsProject Sample.scriptPath (Some (js "second"))
  = Ok (report Sample.scriptPath (Some (js "second")) 5).
Proof. vm_compute. reflexivity. Qed.

Example structured_absent_function :
  calculateComplexity Sample.twoFunctionsProject Sample.scriptPath (Some (js "third"))
  = Throw (FunctionNotFound (js "third") Sample.scriptPath).
Proof.
  apply (structured_rejects_absent_function _ _ _ Sample.twoFunctionsTree);
    [reflexivity | discriminate | reflexivity].
Qed.

End AbsentFunction.

(** ** The cycle search terminates within its recursion bound *)

Section DfsTotal.

Import DependencyAnalyzer.

Context (graph : gmap jsstring (list jsstring)).

Local Abbreviation unvisited := (Spec.unvisited graph).

Lemma unvisited_mono (st st' : DfsState) :
  visited st ⊆ visited st' → unvisited st' ≤ unvisited st.
Proof.
  intros Hsub. unfold Spec.unvisited. apply subseteq_size.
  by apply difference_mono_l.
Qed.

Lemma unvisited_bound (st : DfsState) : unvisited st ≤ size graph.
Proof.
  unfold Spec.unvisited. rewrite <- size_dom. apply subseteq_size.
  by apply subseteq_difference_l.
Qed.

Lemma unvisited_visit (st : DfsState) (node : jsstring) (c : list (list jsstring))
  (stack : gset jsstring) (p : list jsstring) :
  node ∉ visited st → is_Some (graph !! node) →
  unvisited (mkDfs ({[node]} ∪ visited st) stack p c) < unvisited st.
Proof.
  intros Hnew Hkey. unfold Spec.unvisited. apply subset_size. simpl.
  apply elem_of_dom in Hkey. split.
  - apply difference_mono_l, union_subseteq_r.
  - intros Hsub. specialize (Hsub node).
    rewrite !elem_of_difference, elem_of_union, elem_of_singleton in Hsub. tauto.
Qed.

Lemma forNeighbors_total (visit : jsstring → DfsState → option (bool * DfsState))
  (bound : nat) (neighbors : list jsstring) (st : DfsState) :
  (∀ node st, unvisited st < bound →
              ∃ b st', visit node st = Some (b, st') ∧ visited st ⊆ visited st') →
  unvisited st < bound →
  ∃ st', forNeighbors visit neighbors st = Some st' ∧ visited st ⊆ visited st'.
Proof.
  intros Hvisit. revert st.
  induction neighbors as [|n ns IH]; intros st Hst; simpl.
  - by exists st.
  - destruct (Hvisit n st Hst) as (b & st1 & -> & Hsub).
    destruct (IH st1) as (st2 & -> & Hsub2).
    { pose proof (unvisited_mono _ _ Hsub). lia. }
    exists st2. split; [done|]. set_solver.
Qed.

Lemma dfs_total (fuel : nat) (node : jsstring) (st : DfsState) :
  unvisited st < fuel →
  ∃ b st', dfs graph fuel node st = Some (b, st') ∧ visited st ⊆ visited st'.
Proof.
  revert node st. induction fuel as [|fuel IH]; intros node st Hfuel; [lia|].
  simpl. destruct (has (recStack st) node).
  { destruct (indexOf (path st) node); eauto. }
  destruct (has (visited st) node) eqn:Hvisited; [eauto|].
  apply bool_decide_eq_false in Hvisited.
  set (st1 := mkDfs _ _ _ _).
  destruct (graph !! node) as [neighbors|] eqn:Hkey; simpl.
  - destruct (forNeighbors_total (dfs graph fuel) fuel neighbors st1 IH)
      as (st2 & -> & Hsub).
    { pose proof (unvisited_visit st node (circular st) ({[node]} ∪ recStack st)
                    (path st ++ [node]) Hvisited (mk_is_Some _ _ Hkey)).
      fold st1 in H. lia. }
    eexists _, _. split; [done|]. simpl. subst st1. simpl in Hsub. set_solver.
  - eexists _, _. split; [done|]. simpl. set_solver.
Qed.

Lemma forNodes_total (fuel : nat) (nodes : list DependencyNode.t) (st : DfsState) :
  size graph < fuel → ∃ st', forNodes graph fuel nodes st = Some st'.
Proof.
  intros Hfuel. revert st. induction nodes as [|node nodes IH]; intros st; simpl.
  - eauto.
  - destruct (has (visited st) (DependencyNode.path node)); [apply IH|].
    destruct (dfs_total fuel (DependencyNode.path node) st) as (b & st' & -> & _).
    { pose proof (unvisited_bound st). lia. }
    apply IH.
Qed.

End DfsTotal.

Section DependencyGraphs.

Import FileUtils ParserUtils DependencyAnalyzer.

(** The recursion bound is never reached: the cycle search returns. *)
Theorem detectCircularDependencies_total (nodes : list DependencyNode.t)
  (edges : list Edge.t) :
  ∃ cycles, detectCircularDependencies nodes edges = Some cycles.
Proof.
  unfold detectCircularDependencies.
  destruct (forNodes_total (buildGraph edges) (S (size (buildGraph edges))) nodes
              (mkDfs ∅ ∅ [] [])) as (st & ->); [lia|].
  by eexists.
Qed.

(** analyzeDependencies always settles: with an error or with a graph. *)
Theorem analyzeDependencies_returns (E : Env) (projectPath : jsstring)
  (filePath : option jsstring) :
  ∃ r, analyzeDependencies E projectPath filePath = Some r.
Proof.
  unfold analyzeDependencies.
  destruct (negb (pathExists E (resolve E projectPath))); [eauto|].
  match goal with |- context [match ?found with Ok _ => _ | Throw _ => _ end] =>
    destruct found as [files|e] end; [|eauto].
  match goal with |- context [fold_left ?f files ?init] =>
    destruct (fold_left f files init) as [nodes edges] end.
  destruct (detectCircularDependencies_total nodes edges) as (cycles & ->).
  simpl. eauto.
Qed.

(** ** C3: missing root, missing file *)

(** C3, as the code has it.  analyzeDependencies fails with the
    not-found error when the root path does not exist; when the root
    exists and an explicit file argument names a file that does not
    exist, the call does not fail: it returns the empty graph. *)
Theorem analyzeDependencies_missing_paths (E : Env) (projectPath : jsstring)
  (filePath : option jsstring) :
  (pathExists E (resolve E projectPath) = false →
   analyzeDependencies E projectPath filePath
   = Some (Throw (ProjectPathDoesNotExist (resolve E projectPath)))) ∧
  (pathExists E (resolve E projectPath) = true →
   ∀ file, filePath = Some file → file ≠ [] →
           pathExists E (resolve E file) = false →
           analyzeDependencies E projectPath filePath
           = Some (Ok (DependencyGraph.mk [] [] []))).
Proof.
  unfold analyzeDependencies. split.
  - by intros ->.
  - intros -> file -> Hfile Hmissing. simpl.
    destruct file as [|a file]; [done|]. simpl. rewrite Hmissing. reflexivity.
Qed.

Lemma analyzeDependencies_missing_paths_witness :
  let E := Sample.fallbackEnv [] (js "/p") None in
  analyzeDependencies E (js "/nowhere") None
  = Some (Throw (ProjectPathDoesNotExist (js "/nowhere"))) ∧
  analyzeDependencies E (js "/p") (Some (js "/p/missing.js"))
  = Some (Ok (DependencyGraph.mk [] [] [])).
Proof.
  intros E.
  destruct (analyzeDependencies_missing_paths E (js "/nowhere") None) as [Hroot _].
  destruct (analyzeDependencies_missing_paths E (js "/p") (Some (js "/p/missing.js")))
    as [_ Hfile].
  split.
  - apply Hroot. reflexivity.
  - apply (Hfile eq_refl (js "/p/missing.js") eq_refl); [discriminate | reflexivity].
Defined.

(** C3, as the specification words it, fails for the file argument: the
    root exists, the file given does not, and the call returns a graph. *)
Lemma analyzeDependencies_missing_file_counterexample :
  let E := Sample.fallbackEnv [] (js "/p") None in
  pathExists E (resolve E (js "/p")) = true ∧
  pathExists E (resolve E (js "/p/missing.js")) = false ∧
  ∃ graph, analyzeDependencies E (js "/p") (Some (js "/p/missing.js")) = Some (Ok graph).
Proof.
  intros E. split; [reflexivity|]. split; [reflexivity|].
  eexists. vm_compute. reflexivity.
Qed.

End DependencyGraphs.

(** ** C2: the ring of three scripts *)

Section Ring.

Import FileUtils ParserUtils DependencyAnalyzer.

Lemma analyzeFile_importsOnly (E : Env) (root f : jsstring) (key target : string) :
  Spec.importsOnly E root f key target →
  analyzeFile E root f
  = Some (DependencyNode.mk (Path.basename f) (js key) [js target] [] [js target],
          [Edge.mk (js key) (js target) (js "import")]).
Proof.
  intros (tree & Hparse & Himports & Hkey).
  unfold analyzeFile. by rewrite Hparse, Himports, Hkey.
Qed.

(** C2, as the code has it.  For a project of exactly three scripts with
    the node keys a.js, b.js and c.js, each importing the next one by its
    key (a.js imports b.js, b.js imports c.js, c.js imports a.js),
    analyzeDependencies returns a graph whose [circular] field holds
    exactly one cycle: the ring read from the script that the file
    listing returns first, closed by that script.  When a.js is listed
    first the cycle is [a.js, b.js, c.js, a.js]. *)
Theorem ring_of_three_has_one_cycle (E : Env) (projectPath fa fb fc : jsstring)
  (files : list jsstring) :
  pathExists E (resolve E projectPath) = true →
  findFiles E (resolve E projectPath) CodeAnalyzer.codeExtensions = Ok files →
  files ≡ₚ [fa; fb; fc] →
  Spec.importsOnly E (resolve E projectPath) fa "a.js" "b.js" →
  Spec.importsOnly E (resolve E projectPath) fb "b.js" "c.js" →
  Spec.importsOnly E (resolve E projectPath) fc "c.js" "a.js" →
  ∃ graph,
    analyzeDependencies E projectPath None = Some (Ok graph) ∧
    (head files = Some fa →
     DependencyGraph.circular graph = [[js "a.js"; js "b.js"; js "c.js"; js "a.js"]]) ∧
    (head files = Some fb →
     DependencyGraph.circular graph = [[js "b.js"; js "c.js"; js "a.js"; js "b.js"]]) ∧
    (head files = Some fc →
     DependencyGraph.circular graph = [[js "c.js"; js "a.js"; js "b.js"; js "c.js"]]).
Proof.
  intros Hroot Hfiles Hperm Ha Hb Hc.
  assert (fa ≠ fb ∧ fb ≠ fc ∧ fa ≠ fc) as (Hab & Hbc & Hac).
  { destruct Ha as (? & _ & _ & Ka), Hb as (? & _ & _ & Kb), Hc as (? & _ & _ & Kc).
    repeat split; intros Heq; subst;
      [ assert (js "a.js" = js "b.js") by congruence
      | assert (js "b.js" = js "c.js") by congruence
      | assert (js "a.js" = js "c.js") by congruence ]; discriminate. }
  pose proof (analyzeFile_importsOnly _ _ _ _ _ Ha) as Na.
  pose proof (analyzeFile_importsOnly _ _ _ _ _ Hb) as Nb.
  pose proof (analyzeFile_importsOnly _ _ _ _ _ Hc) as Nc.
  unfold analyzeDependencies. rewrite Hroot. cbn [negb given]. rewrite Hfiles.
  symmetry in Hperm. apply permutations_Permutation in Hperm. simpl in Hperm.
  rewrite !list_elem_of_In in Hperm. simpl in Hperm.
  repeat (destruct Hperm as [<- | Hperm]); try destruct Hperm;
    cbn [fold_left];
    repeat (first [rewrite Na | rewrite Nb | rewrite Nc]; cbv beta iota).
  all: match goal with
       | |- context [detectCircularDependencies ?nodes ?edges] =>
           let cycles := eval vm_compute in (detectCircularDependencies nodes edges) in
           assert (detectCircularDependencies nodes edges = cycles) as Hcycles;
           [ vm_compute; reflexivity | rewrite Hcycles ]
       end.
  all: eexists; split; [reflexivity|].
  all: repeat split; intros Hhead; simpl in Hhead.
  all: first [ by (injection Hhead; congruence) | vm_compute; reflexivity ].
Qed.

Lemma ring_of_three_has_one_cycle_witness :
  let E := Sample.ringProject Sample.ringFiles in
  ∃ graph,
    analyzeDependencies E (js "/ring") None = Some (Ok graph) ∧
    DependencyGraph.circular graph = [[js "a.js"; js "b.js"; js "c.js"; js "a.js"]].
Proof.
  intros E.
  destruct (ring_of_three_has_one_cycle E (js "/ring")
              (js "/ring/a.js") (js "/ring/b.js") (js "/ring/c.js")
              [js "/ring/a.js"; js "/ring/b.js"; js "/ring/c.js"])
    as (graph & Hgraph & Hfirst & _).
  - reflexivity.
  - vm_compute. reflexivity.
  - reflexivity.
  - exists (Sample.importTree "b.js"). repeat split; vm_compute; reflexivity.
  - exists (Sample.importTree "c.js"). repeat split; vm_compute; reflexivity.
  - exists (Sample.importTree "a.js"). repeat split; vm_compute; reflexivity.
  - exists graph. split; [exact Hgraph|]. apply Hfirst. reflexivity.
Defined.

(** C2, as the specification words it, fails: the same three scripts,
    listed by the directory with b.js first, give the cycle
    [b.js, c.js, a.js, b.js]. *)
Lemma ring_listed_from_b_counterexample :
  let E := Sample.ringProject Sample.ringListedFromB in
  Spec.importsOnly E (js "/ring") (js "/ring/a.js") "a.js" "b.js" ∧
  Spec.importsOnly E (js "/ring") (js "/ring/b.js") "b.js" "c.js" ∧
  Spec.importsOnly E (js "/ring") (js "/ring/c.js") "c.js" "a.js" ∧
  findFiles E (js "/ring") CodeAnalyzer.codeExtensions
  = Ok [js "/ring/b.js"; js "/ring/a.js"; js "/ring/c.js"] ∧
  ∃ graph,
    analyzeDependencies E (js "/ring") None = Some (Ok graph) ∧
    DependencyGraph.circular graph = [[js "b.js"; js "c.js"; js "a.js"; js "b.js"]] ∧
    DependencyGraph.circular graph ≠ [[js "a.js"; js "b.js"; js "c.js"; js "a.js"]].
Proof.
  intros E. split; [|split; [|split; [|split]]].
  - exists (Sample.importTree "b.js"). repeat split; vm_compute; reflexivity.
  - exists (Sample.importTree "c.js"). repeat split; vm_compute; reflexivity.
  - exists (Sample.importTree "a.js"). repeat split; vm_compute; reflexivity.
  - vm_compute. reflexivity.
  - eexists. split; [vm_compute; reflexivity|].
    split; [vm_compute; reflexivity|]. vm_compute. discriminate.
Qed.

End Ring.

(** ** The scanner: shape of the returned tree *)

Section Scanner.

Import FileUtils FileAnalyzer Spec.

Lemma Entry_nested_ind (P : Entry → Prop) :
  (∀ name stats, P (EntryFile name stats)) →
  (∀ name, P (EntryDir name None)) →
  (∀ name entries, Forall P entries → P (EntryDir name (Some entries))) →
  ∀ entry, P entry.
Proof.
  intros Hfile Hnone Hsome. fix IH 1. intros [name stats|name [entries|]].
  - apply Hfile.
  - apply Hsome. revert entries. fix IHentries 1.
    intros [|entry entries]; constructor; [apply IH | apply IHentries].
  - apply Hnone.
Qed.

Lemma Built_nested_ind (P : FileNode.t → Prop) :
  (∀ name path size extension language,
     skipped name = false →
     P (FileNode.mk name path NodeType.file (Some size) (Some extension)
          (Some language) None)) →
  (∀ name path children,
     skipped name = false → Forall Built children → Forall P children →
     P (FileNode.mk name path NodeType.directory None None None (Some children))) →
  ∀ node, Built node → P node.
Proof.
  intros Hfile Hdir. fix IH 2. intros node [name path size ext lang Hname|name path children Hname Hchildren].
  - by apply Hfile.
  - apply Hdir; [done|done|]. revert children Hchildren. fix IHchildren 2.
    intros children [|child children' Hchild Hrest]; constructor;
      [by apply IH | by apply IHchildren].
Qed.

Lemma forEntries_Forall (P : FileNode.t → Prop)
  (visit : Entry → result (option FileNode.t)) (entries : list Entry)
  (acc nodes : list FileNode.t) :
  Forall (fun entry => ∀ node, visit entry = Ok (Some node) → P node) entries →
  Forall P acc →
  forEntries visit entries acc = Ok nodes →
  Forall P nodes.
Proof.
  intros Hentries. revert acc.
  induction Hentries as [|entry entries Hentry _ IH]; intros acc Hacc; simpl.
  - by intros [= <-].
  - destruct (visit entry) as [[node|]|] eqn:Hvisit; simpl; [| |discriminate].
    + apply IH. apply Forall_app. split; [done|]. constructor; [|done]. by apply Hentry.
    + by apply IH.
Qed.

Lemma try_catch_Ok {A : Type} (body : result A) (handler : Error → result A) (a : A) :
  (∀ e, handler e ≠ Ok a) → try_catch body handler = Ok a → body = Ok a.
Proof.
  intros Hhandler. destruct body as [b|e]; simpl; [done|].
  intros H. by destruct (Hhandler e).
Qed.

Lemma buildEntry_Built (entry : Entry) :
  ∀ directory maxDepth currentDepth node,
    buildEntry directory maxDepth currentDepth entry = Ok (Some node) → Built node.
Proof.
  induction entry as [name stats|name|name entries IH] using Entry_nested_ind;
    intros directory maxDepth currentDepth node; simpl;
    destruct (skipped name) eqn:Hname; try discriminate.
  - destruct stats as [size|]; [|discriminate].
    intros [= <-]. by constructor.
  - destruct (maxDepth <=? currentDepth + 1)%Z; simpl; [|discriminate].
    intros [= <-]. by constructor.
  - destruct (maxDepth <=? currentDepth + 1)%Z; simpl.
    + intros [= <-]. by constructor.
    + match goal with |- context [try_catch ?body ?handler] =>
        destruct (try_catch body handler) as [children|] eqn:Hchildren end;
        simpl; [|discriminate].
      intros [= <-]. constructor; [done|].
      apply try_catch_Ok in Hchildren; [|discriminate].
      eapply forEntries_Forall; [|constructor|exact Hchildren].
      eapply Forall_impl; [exact IH|]. simpl. eauto.
Qed.

Lemma buildFileTree_Built (directory : jsstring) (listing : option (list Entry))
  (maxDepth currentDepth : Z) (nodes : list FileNode.t) :
  buildFileTree directory listing maxDepth currentDepth = Ok nodes →
  Forall Built nodes.
Proof.
  unfold buildFileTree. destruct (maxDepth <=? currentDepth)%Z.
  - intros [= <-]. constructor.
  - destruct listing as [entries|]; [|discriminate].
    intros H. apply try_catch_Ok in H; [|discriminate].
    eapply forEntries_Forall; [|constructor|exact H].
    apply Forall_forall. intros entry _ node. apply buildEntry_Built.
Qed.

Lemma analyzeProjectStructure_Ok (E : Env) (projectPath : jsstring) (maxDepth : Z)
  (ps : ProjectStructure.t) :
  analyzeProjectStructure E projectPath maxDepth = Ok ps →
  ∃ files,
    buildFileTree (resolve E projectPath) (readdir E (resolve E projectPath)) maxDepth 0
    = Ok files ∧
    ps = ProjectStructure.mk (resolve E projectPath) files (countFiles files)
           (getDirectorySize (readdir E (resolve E projectPath)))
           (analyzeLanguages files).
Proof.
  unfold analyzeProjectStructure.
  destruct (negb (pathExists E (resolve E projectPath))); [discriminate|].
  intros H. apply bind_Ok in H as (files & Hfiles & H).
  injection H as <-. eauto.
Qed.

(** ** C6: totalFiles counts the file-kind nodes of the tree *)

Lemma countNodes_fold (nodes : list FileNode.t) (count : nat) :
  Forall (fun node => countNode node
                      = length (filter isFileKind (descendants node))) nodes →
  fold_left (fun count node => count + countNode node) nodes count
  = count + length (filter isFileKind (flat_map descendants nodes)).
Proof.
  intros Hnodes. revert count.
  induction Hnodes as [|node nodes Hnode _ IH]; intros count; simpl; [lia|].
  rewrite IH, Hnode, filter_app, length_app. lia.
Qed.

Lemma countNode_descendants (node : FileNode.t) :
  Built node → countNode node = length (filter isFileKind (descendants node)).
Proof.
  induction 1 as [name path size ext lang Hname|name path children Hname _ IH]
    using Built_nested_ind.
  - reflexivity.
  - cbn [countNode descendants FileNode.children].
    rewrite (countNodes_fold children 0 IH).
    rewrite filter_cons_False by (unfold isFileKind; simpl; discriminate).
    reflexivity.
Qed.

Lemma countFiles_fileKindNodes (files : list FileNode.t) :
  Forall Built files → countFiles files = Spec.fileKindNodes files.
Proof.
  intros Hbuilt. unfold countFiles, Spec.fileKindNodes, Spec.treeNodes.
  rewrite countNodes_fold; [reflexivity|].
  eapply Forall_impl; [exact Hbuilt|]. apply countNode_descendants.
Qed.

(** C6.  For every directory tree, the totalFiles field of the
    ProjectStructure the scanner returns equals the number of file-kind
    nodes contained, at any depth, in the returned files tree. *)
Theorem totalFiles_counts_file_nodes (E : Env) (projectPath : jsstring)
  (maxDepth : Z) (ps : ProjectStructure.t) :
  analyzeProjectStructure E projectPath maxDepth = Ok ps →
  ProjectStructure.totalFiles ps = Spec.fileKindNodes (ProjectStructure.files ps).
Proof.
  intros H. apply analyzeProjectStructure_Ok in H as (files & Hfiles & ->). simpl.
  apply countFiles_fileKindNodes. by eapply buildFileTree_Built.
Qed.

End Scanner.

Section ScannerSizes.

Import FileUtils FileAnalyzer Spec.

Lemma totalFiles_counts_file_nodes_witness :
  ∃ ps, analyzeProjectStructure Sample.hiddenProject (js "/p") 10 = Ok ps ∧
        ProjectStructure.totalFiles ps = 1 ∧
        fileKindNodes (ProjectStructure.files ps) = 1.
Proof.
  eexists. split; [vm_compute; reflexivity|].
  match goal with |- ProjectStructure.totalFiles ?ps = _ ∧ _ =>
    pose proof (totalFiles_counts_file_nodes Sample.hiddenProject (js "/p") 10 ps) as H
  end.
  split.
  - reflexivity.
  - rewrite <- H; [reflexivity | vm_compute; reflexivity].
Defined.

(** ** C4: what is pruned from the tree and what from the size *)

Lemma descendants_not_skipped (node : FileNode.t) :
  Built node →
  Forall (fun below => skipped (FileNode.name below) = false) (descendants node).
Proof.
  induction 1 as [name path size ext lang Hname|name path children Hname _ IH]
    using Built_nested_ind.
  - repeat constructor. done.
  - cbn [descendants FileNode.children]. constructor; [done|].
    induction IH as [|child children Hchild _ IHchildren]; simpl; [constructor|].
    apply Forall_app. by split.
Qed.

Lemma sumN_app (xs ys : list N) : sumN (xs ++ ys) = (sumN xs + sumN ys)%N.
Proof. induction xs as [|x xs IH]; simpl; [done|]. rewrite IH. lia. Qed.

Lemma sumEntries_sizes (entries : list Entry) (totalSize : N) :
  Forall (fun entry => statsSucceed entry = true →
                       entrySize entry = Some (sumN (fileSizes entry))) entries →
  forallb statsSucceed entries = true →
  sumEntries entrySize entries totalSize
  = (totalSize + sumN (flat_map fileSizes entries))%N.
Proof.
  intros Hentries. revert totalSize.
  induction Hentries as [|entry entries Hentry _ IH]; intros totalSize; simpl.
  - intros _. lia.
  - intros [Hstat Hrest]%andb_prop. rewrite (Hentry Hstat), (IH _ Hrest), sumN_app. lia.
Qed.

Lemma entrySize_sizes (entry : Entry) :
  statsSucceed entry = true → entrySize entry = Some (sumN (fileSizes entry)).
Proof.
  induction entry as [name stats|name|name entries IH] using Entry_nested_ind; simpl.
  - destruct stats as [size|]; [intros _; simpl; f_equal; lia|].
    intros H. apply bool_decide_eq_true in H. by destruct H.
  - by destruct (ignoredDirectory name).
  - destruct (ignoredDirectory name); [done|]. simpl. intros Hstats.
    by rewrite (sumEntries_sizes entries 0 IH Hstats).
Qed.

Lemma getDirectorySize_sizes (entries : list Entry) :
  forallb statsSucceed entries = true →
  getDirectorySize (Some entries) = sumN (flat_map fileSizes entries).
Proof.
  intros Hstats. unfold getDirectorySize.
  rewrite sumEntries_sizes; [done| |done].
  apply Forall_forall. intros entry _. apply entrySize_sizes.
Qed.

Lemma sumN_elem (sizes : list N) (size : N) :
  size ∈ sizes → (size ≤ sumN sizes)%N.
Proof.
  induction 1 as [size sizes|size other sizes _ IH]; simpl; lia.
Qed.

(** C4, as the code has it.  Entries whose name begins with a dot or is
    node_modules, dist or build are excluded from the returned FileNode
    tree.  From totalSize only what lies inside directories named
    node_modules, dist or build is excluded: when every stat succeeds,
    totalSize is the sum of the sizes of all other files, at any depth,
    whatever their names, so the bytes of a dot-named file listed in the
    root are part of totalSize. *)
Theorem scan_prunes_tree_and_ignored_directories (E : Env) (projectPath : jsstring)
  (maxDepth : Z) (ps : ProjectStructure.t) :
  analyzeProjectStructure E projectPath maxDepth = Ok ps →
  (∀ node, node ∈ treeNodes (ProjectStructure.files ps) →
           skipped (FileNode.name node) = false) ∧
  (∀ entries,
     readdir E (resolve E projectPath) = Some entries →
     forallb statsSucceed entries = true →
     ProjectStructure.totalSize ps = sumN (flat_map fileSizes entries) ∧
     ∀ name size, EntryFile name (Some size) ∈ entries →
                  (size ≤ ProjectStructure.totalSize ps)%N).
Proof.
  intros H. apply analyzeProjectStructure_Ok in H as (files & Hfiles & ->). simpl.
  split.
  - apply buildFileTree_Built in Hfiles. unfold treeNodes.
    intros node (child & Hnode & Hchild)%list_elem_of_In%in_flat_map.
    rewrite Forall_forall in Hfiles.
    pose proof (descendants_not_skipped child (Hfiles child ltac:(by apply list_elem_of_In)))
      as Hbelow.
    rewrite Forall_forall in Hbelow. apply Hbelow. by apply list_elem_of_In.
  - intros entries -> Hstats. rewrite getDirectorySize_sizes by done.
    split; [done|]. intros name size Hin. apply sumN_elem.
    apply list_elem_of_In, in_flat_map. exists (EntryFile name (Some size)).
    split; [by apply list_elem_of_In | by left].
Qed.

Lemma scan_prunes_tree_and_ignored_directories_witness :
  ∃ ps, analyzeProjectStructure Sample.hiddenProject (js "/p") 10 = Ok ps ∧
        (∀ node, node ∈ treeNodes (ProjectStructure.files ps) →
                 skipped (FileNode.name node) = false) ∧
        ProjectStructure.totalSize ps = 130%N ∧
        (7 ≤ ProjectStructure.totalSize ps)%N.
Proof.
  eexists. split; [vm_compute; reflexivity|].
  match goal with |- (∀ node, node ∈ treeNodes (ProjectStructure.files ?ps) → _) ∧ _ =>
    destruct (scan_prunes_tree_and_ignored_directories
                Sample.hiddenProject (js "/p") 10 ps) as [Htree Hsize]
  end; [vm_compute; reflexivity|].
  split; [exact Htree|].
  destruct (Hsize Sample.hiddenTree) as [Htotal Hfile];
    [reflexivity | reflexivity |].
  split.
  - rewrite Htotal. reflexivity.
  - apply (Hfile (js ".env")). left.
Defined.

(** C4, as the specification words it, fails: the tree of
    [Sample.hiddenProject] holds the single 100-byte script, and
    totalSize is 130, the 7 bytes of [.env] and the 23 bytes of
    [.git/HEAD] included. *)
Lemma hidden_bytes_counterexample :
  ∃ ps, analyzeProjectStructure Sample.hiddenProject (js "/p") 10 = Ok ps ∧
        List.map FileNode.name (treeNodes (ProjectStructure.files ps)) = [js "index.js"] ∧
        treeBytes (ProjectStructure.files ps) = 100%N ∧
        ProjectStructure.totalSize ps = 130%N.
Proof.
  eexists. split; [vm_compute; reflexivity|].
  repeat split; vm_compute; reflexivity.
Qed.

End ScannerSizes.

(** ** C7: the language percentages *)

Section Languages.

Import FileUtils FileAnalyzer Spec.

Lemma FileNode_nested_ind (P : FileNode.t → Prop) :
  (∀ name path type size extension language,
     P (FileNode.mk name path type size extension language None)) →
  (∀ name path type size extension language children,
     Forall P children →
     P (FileNode.mk name path type size extension language (Some children))) →
  ∀ node, P node.
Proof.
  intros Hleaf Hinner. fix IH 1.
  intros [name path type size extension language [children|]].
  - apply Hinner. revert children. fix IHchildren 1.
    intros [|child children]; constructor; [apply IH | apply IHchildren].
  - apply Hleaf.
Qed.


Lemma set_Forall {K V : Type} `{EqDecision K} (Q : V → Prop) (m : list (K * V))
  (key : K) (value : V) :
  Forall (fun kv => Q (snd kv)) m → Q value →
  Forall (fun kv => Q (snd kv)) (JsMap.set m key value).
Proof.
  intros Hm Hvalue. induction Hm as [|[k v] m Hkv Hm IH]; simpl.
  - by repeat constructor.
  - destruct (decide (k = key)); constructor; done.
Qed.

Local Abbreviation counts_t := (list (Language * LanguageCount)).

Lemma fold_children (I : counts_t → Prop) (children : list FileNode.t)
  (languageCounts : counts_t) :
  Forall (fun child => ∀ counts, I counts → I (processNodeSync child counts)) children →
  I languageCounts →
  I (fold_left (fun counts child => processNodeSync child counts) children languageCounts).
Proof.
  intros Hchildren. revert languageCounts.
  induction Hchildren as [|child children Hchild _ IH]; intros counts Hcounts; simpl;
    [done|]. apply IH. by apply Hchild.
Qed.

Lemma processNodeSync_counted (node : FileNode.t) :
  ∀ languageCounts, counted languageCounts → counted (processNodeSync node languageCounts).
Proof.
  induction node as [name path type size ext lang|name path type size ext lang children IH]
    using FileNode_nested_ind; intros counts Hcounts; simpl.
  - destruct type, (classified lang); try done.
    apply (set_Forall (fun v => 1 ≤ count_files v)); [done|]. simpl. lia.
  - apply (fold_children counted); [done|].
    destruct type, (classified lang); try done.
    apply (set_Forall (fun v => 1 ≤ count_files v)); [done|]. simpl. lia.
Qed.











End Languages.

(** ** Test coverage by file name *)

Section Coverage.

Import FileUtils CodeAnalyzer Spec.

Lemma startsWith_app (p post : jsstring) : startsWith (p ++ post) p = true.
Proof.
  induction p as [|a p IH]; simpl; [by destruct post|]. by rewrite N.eqb_refl, IH.
Qed.

Lemma startsWith_inv (s p : jsstring) :
  startsWith s p = true → ∃ post, s = p ++ post.
Proof.
  revert s. induction p as [|a p IH]; intros s; simpl.
  - intros _. by exists s.
  - destruct s as [|b s]; [discriminate|].
    intros [Hab Hrest]%andb_prop. apply N.eqb_eq in Hab as ->.
    destruct (IH s Hrest) as [post ->]. by exists post.
Qed.

Lemma includes_unfold (s p : jsstring) :
  includes s p
  = startsWith s p || match s with [] => false | _ :: s' => includes s' p end.
Proof. by destruct s. Qed.

Lemma includes_app (pre p post : jsstring) : includes (pre ++ p ++ post) p = true.
Proof.
  induction pre as [|a pre IH]; simpl.
  - by rewrite includes_unfold, startsWith_app.
  - rewrite IH. apply orb_true_r.
Qed.

Lemma endsWith_inv (s suffix : jsstring) :
  endsWith s suffix = true → ∃ pre, s = pre ++ suffix.
Proof.
  unfold endsWith. intros [post Hpost]%startsWith_inv.
  exists (rev post). apply (f_equal (@rev N)) in Hpost.
  by rewrite rev_app_distr, !rev_involutive in Hpost.
Qed.

Local Ltac marked m rest :=
  match goal with
  | |- context [includes ?f (js m)] =>
      replace (includes f (js m)) with true
        by (symmetry; exact (includes_app _ (js m) rest));
      by rewrite ?orb_true_r
  end.

(** A file that a test pattern selects carries one of the four markers. *)
Lemma namedLikeTest_looksLikeTest (f : jsstring) :
  namedLikeTest f → looksLikeTest f = true.
Proof.
  intros (suffix & Hsuffix & [pre ->]%endsWith_inv).
  unfold looksLikeTest.
  apply list_elem_of_In in Hsuffix. vm_compute in Hsuffix.
  repeat (destruct Hsuffix as [<- | Hsuffix]); [..|done].
  - marked ".test." (js "js").
  - marked ".test." (js "ts").
  - marked ".spec." (js "js").
  - marked ".spec." (js "ts").
  - marked "_test" (js ".py").
  - marked "Test.java" (@nil N).
  - marked "_test" (js ".go").
  - marked "_test" (js ".rs").
Qed.

Lemma partitionFiles_fold (testFileMap : gset jsstring) (codeFiles acc1 acc2 : list jsstring) :
  fold_left
    (fun '(coveredFiles, missingFiles) file =>
       let base := sourceBase file in
       if has testFileMap base then (coveredFiles ++ [file], missingFiles)
       else if negb (looksLikeTest file) then (coveredFiles, missingFiles ++ [file])
       else (coveredFiles, missingFiles))
    codeFiles (acc1, acc2)
  = (acc1 ++ List.filter (fun file => has testFileMap (sourceBase file)) codeFiles,
     acc2 ++ List.filter (fun file => negb (has testFileMap (sourceBase file))
                                       && negb (looksLikeTest file)) codeFiles).
Proof.
  revert acc1 acc2. induction codeFiles as [|file files IH]; intros acc1 acc2; simpl.
  - by rewrite !app_nil_r.
  - destruct (has testFileMap (sourceBase file)); simpl.
    + rewrite IH. by rewrite <- app_assoc.
    + destruct (looksLikeTest file); simpl; rewrite IH; [done|]. by rewrite <- app_assoc.
Qed.

Lemma partitionFiles_filter (testFileMap : gset jsstring) (codeFiles : list jsstring) :
  partitionFiles testFileMap codeFiles
  = (List.filter (fun file => has testFileMap (sourceBase file)) codeFiles,
     List.filter (fun file => negb (has testFileMap (sourceBase file))
                              && negb (looksLikeTest file)) codeFiles).
Proof. apply partitionFiles_fold. Qed.

Lemma has_testFileMap (testFiles : list jsstring) (f : jsstring) :
  has (list_to_set (List.map testBase testFiles)) (sourceBase f) = true
  ↔ hasTestCounterpart testFiles f.
Proof.
  unfold has, hasTestCounterpart. rewrite bool_decide_eq_true, elem_of_list_to_set.
  rewrite list_elem_of_In, in_map_iff.
  split; intros (t & H1 & H2); exists t; rewrite ?list_elem_of_In in *; auto.
Qed.

(** What analyzeTestCoverage returns, in terms of the two file lists. *)
Lemma analyzeTestCoverage_Ok (E : Env) (projectPath : jsstring) (tc : TestCoverage.t) :
  analyzeTestCoverage E projectPath = Ok tc →
  ∃ codeFiles testFiles,
    findFiles E projectPath codeExtensions = Ok codeFiles ∧
    findFiles E projectPath testPatterns = Ok testFiles ∧
    let testFileMap : gset jsstring := list_to_set (List.map testBase testFiles) in
    let coveredFiles :=
      List.filter (fun file => has testFileMap (sourceBase file)) codeFiles in
    TestCoverage.total tc = length codeFiles ∧
    TestCoverage.covered tc = length coveredFiles ∧
    TestCoverage.percentage tc
    = (if 0 <? length codeFiles
       then (FileAnalyzer.ratio (length coveredFiles) (length codeFiles) * 100)%Q
       else 0%Q) ∧
    TestCoverage.files tc
    = List.map (fun file => FileCoverage.mk file
                              (if has testFileMap (sourceBase file) then 100 else 0))
        codeFiles ∧
    TestCoverage.missing tc
    = List.filter (fun file => negb (has testFileMap (sourceBase file))
                               && negb (looksLikeTest file)) codeFiles.
Proof.
  unfold analyzeTestCoverage. intros H.
  apply bind_Ok in H as (codeFiles & Hcode & H).
  apply bind_Ok in H as (testFiles & Htest & H).
  rewrite partitionFiles_filter in H. injection H as <-.
  exists codeFiles, testFiles. by repeat split.
Qed.

Lemma ratio_bounds (n d : nat) :
  n ≤ d → 0 < d →
  (0 <= FileAnalyzer.ratio n d * 100)%Q ∧ (FileAnalyzer.ratio n d * 100 <= 100)%Q.
Proof.
  intros Hle Hpos. unfold FileAnalyzer.ratio.
  assert (0 < inject_Z (Z.of_nat d))%Q as Hd.
  { change 0%Q with (inject_Z 0). rewrite <- Zlt_Qlt. lia. }
  assert (0 <= inject_Z (Z.of_nat n))%Q as Hn.
  { change 0%Q with (inject_Z 0). rewrite <- Zle_Qle. lia. }
  assert (inject_Z (Z.of_nat n) <= inject_Z (Z.of_nat d))%Q as Hnd.
  { rewrite <- Zle_Qle. lia. }
  split.
  - apply Qmult_le_0_compat; [|done].
    apply Qle_shift_div_l; [done|]. by rewrite Qmult_0_l.
  - assert (inject_Z (Z.of_nat n) / inject_Z (Z.of_nat d) <= 1)%Q as Hone.
    { apply Qle_shift_div_r; [done|]. by rewrite Qmult_1_l. }
    apply (Qle_trans _ (1 * 100)%Q); [by apply Qmult_le_compat_r|].
    unfold Qle. simpl. lia.
Qed.

Lemma filter_length_le {A : Type} (P : A → bool) (l : list A) :
  length (List.filter P l) ≤ length l.
Proof. induction l as [|x l IH]; simpl; [done|]. destruct (P x); simpl; lia. Qed.

(** C10.  For every result of analyzeTestCoverage: covered is at most
    total; percentage is covered / total * 100 when total is positive and
    0 when total is 0, so it lies between 0 and 100; no path in the
    missing list contains [.test.], [.spec.], [_test] or [Test.java];
    total is the number of all code files found, and a file that one of
    the test patterns selects is never in the missing list. *)
Theorem coverage_result_invariants (E : Env) (projectPath : jsstring)
  (tc : TestCoverage.t) :
  analyzeTestCoverage E projectPath = Ok tc →
  TestCoverage.covered tc ≤ TestCoverage.total tc ∧
  (0 < TestCoverage.total tc →
   TestCoverage.percentage tc
   = (FileAnalyzer.ratio (TestCoverage.covered tc) (TestCoverage.total tc) * 100)%Q) ∧
  (TestCoverage.total tc = 0 → TestCoverage.percentage tc = 0%Q) ∧
  (0 <= TestCoverage.percentage tc)%Q ∧ (TestCoverage.percentage tc <= 100)%Q ∧
  (∀ f, f ∈ TestCoverage.missing tc →
        includes f (js ".test.") = false ∧ includes f (js ".spec.") = false ∧
        includes f (js "_test") = false ∧ includes f (js "Test.java") = false) ∧
  (∃ codeFiles, findFiles E projectPath codeExtensions = Ok codeFiles ∧
                TestCoverage.total tc = length codeFiles) ∧
  (∀ f, namedLikeTest f → f ∉ TestCoverage.missing tc).
Proof.
  intros H. apply analyzeTestCoverage_Ok in H
    as (codeFiles & testFiles & Hcode & Htest & Htotal & Hcovered & Hpct & Hfiles & Hmissing).
  cbv zeta in *.
  set (coveredFiles := List.filter _ codeFiles) in *.
  assert (length coveredFiles ≤ length codeFiles) as Hle by apply filter_length_le.
  assert (∀ f, f ∈ TestCoverage.missing tc → looksLikeTest f = false) as Hmarkers.
  { intros f Hf. rewrite Hmissing in Hf.
    apply list_elem_of_In, filter_In in Hf as [_ Hf].
    apply andb_prop in Hf as [_ Hf]. by apply negb_true_iff in Hf. }
  rewrite Htotal, Hcovered, Hpct.
  split; [done|]. split.
  { intros Hpos. by destruct (Nat.ltb_spec 0 (length codeFiles)); [|lia]. }
  split.
  { intros Hzero. by destruct (Nat.ltb_spec 0 (length codeFiles)); [lia|]. }
  split; [|split].
  - destruct (Nat.ltb_spec 0 (length codeFiles)); [|done].
    by apply ratio_bounds.
  - destruct (Nat.ltb_spec 0 (length codeFiles)); [|done].
    by apply ratio_bounds.
  - split; [|split].
    + intros f Hf. apply Hmarkers in Hf. unfold looksLikeTest in Hf.
      repeat (apply orb_false_elim in Hf as [Hf ?]). done.
    + by exists codeFiles.
    + intros f Htest' Hf. apply Hmarkers in Hf.
      apply namedLikeTest_looksLikeTest in Htest'. congruence.
Qed.

Lemma coverage_result_invariants_witness :
  ∃ tc, analyzeTestCoverage Sample.plainProject (js "/srv/app") = Ok tc ∧
        TestCoverage.total tc = 3 ∧ TestCoverage.covered tc = 1 ∧
        TestCoverage.covered tc ≤ TestCoverage.total tc ∧
        (0 <= TestCoverage.percentage tc)%Q ∧ (TestCoverage.percentage tc <= 100)%Q ∧
        js "/srv/app/foo.test.js" ∉ TestCoverage.missing tc.
Proof.
  eexists. split; [vm_compute; reflexivity|].
  match goal with |- TestCoverage.total ?tc = _ ∧ _ =>
    destruct (coverage_result_invariants Sample.plainProject (js "/srv/app") tc)
      as (Hle & _ & _ & Hlow & Hhigh & _ & _ & Htests)
  end; [vm_compute; reflexivity|].
  repeat split; try done.
  apply Htests. exists (js ".test.js"). split; [|reflexivity].
  apply list_elem_of_In. vm_compute. tauto.
Defined.

End Coverage.

(** ** C8: covered by base name; the large uncovered file *)

Section CoverageByName.

Import FileUtils CodeAnalyzer Spec.

Lemma replaceSuffix_unfold (alts : list jsstring) (s : jsstring) :
  replaceSuffix alts s
  = if existsb (eqb s) alts then []
    else match s with [] => [] | c :: s' => c :: replaceSuffix alts s' end.
Proof. by destruct s. Qed.












End CoverageByName.

(** ** The cycle search: what a reported cycle is *)

Section Cycles.

Import FileUtils ParserUtils DependencyAnalyzer Shape.

Lemma buildGraph_snoc (edges : list Edge.t) (edge : Edge.t) :
  buildGraph (edges ++ [edge])
  = <[Edge.from edge := default [] (buildGraph edges !! Edge.from edge) ++ [Edge.to edge]]>
      (buildGraph edges).
Proof. unfold buildGraph. by rewrite fold_left_app. Qed.

(** The adjacency list of [a]: the targets of the edges that leave [a],
    in the order of the edges. *)
Lemma buildGraph_lookup (edges : list Edge.t) (a : jsstring) :
  default [] (buildGraph edges !! a)
  = List.map Edge.to (List.filter (fun edge => eqb (Edge.from edge) a) edges).
Proof.
  induction edges as [|edge edges IH] using rev_ind; [done|].
  rewrite buildGraph_snoc, List.filter_app, List.map_app, <- IH. simpl.
  unfold eqb. destruct (decide (Edge.from edge = a)) as [<-|Hne].
  - rewrite lookup_insert_eq, bool_decide_eq_true_2 by done. done.
  - rewrite lookup_insert_ne, bool_decide_eq_false_2 by done.
    simpl. by rewrite app_nil_r.
Qed.

Lemma buildGraph_linked (edges : list Edge.t) (a b : jsstring) :
  b ∈ default [] (buildGraph edges !! a) → linked edges a b = true.
Proof.
  rewrite buildGraph_lookup. intros Hin.
  apply list_elem_of_In, in_map_iff in Hin as (edge & <- & Hin).
  apply filter_In in Hin as [Hin Hfrom].
  apply existsb_exists. exists edge. split; [done|].
  rewrite Hfrom. unfold eqb. by rewrite bool_decide_eq_true_2.
Qed.

Lemma follows_snoc (edges : list Edge.t) (walk : list jsstring) (node : jsstring) :
  follows edges walk = true → reached edges walk node →
  follows edges (walk ++ [node]) = true.
Proof.
  unfold reached. induction walk as [|a walk IH]; [done|].
  destruct walk as [|b walk].
  - simpl. intros _ ->. done.
  - intros [Hab Hrest]%andb_true_iff Hlast.
    change (linked edges a b && follows edges ((b :: walk) ++ [node]) = true).
    rewrite Hab. simpl. apply IH; [done|]. by rewrite last_cons_cons in Hlast.
Qed.

Lemma follows_app_r (edges : list Edge.t) (pre walk : list jsstring) :
  follows edges (pre ++ walk) = true → follows edges walk = true.
Proof.
  induction pre as [|a pre IH]; [done|].
  simpl. destruct (pre ++ walk) eqn:Heq.
  - destruct pre, walk; try discriminate. done.
  - intros [_ Hrest]%andb_true_iff. by apply IH.
Qed.

Lemma indexOf_Some (xs : list jsstring) (x : jsstring) (k : nat) :
  indexOf xs x = Some k → ∃ pre post, xs = pre ++ x :: post ∧ length pre = k.
Proof.
  revert k. induction xs as [|y xs IH]; intros k; [done|].
  simpl. unfold eqb. case_bool_decide as Hy.
  - intros [= <-]. exists [], xs. by subst.
  - destruct (indexOf xs x) as [k'|]; [|done].
    intros [= <-]. destruct (IH k' eq_refl) as (pre & post & -> & <-).
    by exists (y :: pre), post.
Qed.

Lemma reached_nil (edges : list Edge.t) (node : jsstring) : reached edges [] node.
Proof. done. Qed.

Lemma forNeighbors_kept (edges : list Edge.t)
  (visit : jsstring → DfsState → option (bool * DfsState)) (neighbors : list jsstring) :
  (∀ node st b st',
     node ∈ neighbors → kept edges st → reached edges (path st) node →
     visit node st = Some (b, st') →
     kept edges st' ∧ path st' = path st ∧ recStack st' = recStack st) →
  ∀ st st',
    kept edges st → (∀ node, node ∈ neighbors → reached edges (path st) node) →
    forNeighbors visit neighbors st = Some st' →
    kept edges st' ∧ path st' = path st ∧ recStack st' = recStack st.
Proof.
  induction neighbors as [|neighbor neighbors IH]; intros Hvisit st st' Hkept Hreached.
  - by intros [= <-].
  - simpl. destruct (visit neighbor st) as [[b st1]|] eqn:Hcall; [|done].
    intros Hloop.
    destruct (Hvisit neighbor st b st1) as (Hkept1 & Hpath1 & Hstack1);
      [by left | done | apply Hreached; by left | done |].
    destruct (IH (fun node st b st' Hin => Hvisit node st b st' (list_elem_of_further _ _ _ Hin))
                st1 st' Hkept1) as (? & ? & ?); [|done|].
    + intros node Hin. rewrite Hpath1. apply Hreached. by right.
    + split_and!; [done|congruence|congruence].
Qed.

Lemma dfs_kept (edges : list Edge.t) (fuel : nat) :
  ∀ node st b st',
    kept edges st → reached edges (path st) node →
    dfs (buildGraph edges) fuel node st = Some (b, st') →
    kept edges st' ∧ path st' = path st ∧ recStack st' = recStack st.
Proof.
  induction fuel as [|fuel IH]; intros node st b st' Hkept Hreached; [done|].
  simpl. destruct (has (recStack st) node) eqn:Hstack.
  - destruct (indexOf (path st) node) as [cycleStart|] eqn:Hindex; intros [= <- <-];
      [|done].
    split; [|done]. destruct Hkept as [Hdup Hset Hwalk Hcycles].
    constructor; simpl; try done.
    apply Forall_app. split; [done|]. apply Forall_singleton.
    apply indexOf_Some in Hindex as (pre & post & Hpath & <-).
    rewrite Hpath, drop_app_length. exists node, post. split; [done|]. split.
    + rewrite Hpath in Hdup. by apply NoDup_app in Hdup as (_ & _ & Hdup).
    + apply (follows_snoc edges (node :: post)).
      * apply (follows_app_r edges pre). by rewrite <- Hpath.
      * unfold reached in *. rewrite Hpath, last_app in Hreached.
        destruct (last (node :: post)) eqn:Hlast; [done|].
        by apply last_None in Hlast.
  - destruct (has (visited st) node); [by intros [= <- <-]|].
    destruct (forNeighbors _ _ _) as [st2|] eqn:Hloop; [|done].
    intros [= <- <-]. simpl.
    assert (node ∉ path st) as Hfresh.
    { apply bool_decide_eq_false in Hstack. by rewrite (kept_stack _ _ Hkept),
        elem_of_list_to_set in Hstack. }
    apply forNeighbors_kept with (edges := edges) in Hloop as (Hkept2 & Hpath2 & Hstack2).
    + simpl in Hpath2, Hstack2. destruct Hkept as [Hdup Hset Hwalk Hcycles].
      destruct Hkept2 as [Hdup2 Hset2 Hwalk2 Hcycles2].
      rewrite Hpath2, Hstack2, removelast_last.
      split; [|split; [done|]].
      * constructor; simpl; try done.
        rewrite Hset. apply set_eq. intros x.
        rewrite elem_of_difference, elem_of_union, elem_of_singleton, elem_of_list_to_set.
        split; [by intros [[->|?] ?]|]. intros Hx. split; [by right|].
        intros ->. done.
      * rewrite Hset. apply set_eq. intros x.
        rewrite elem_of_difference, elem_of_union, elem_of_singleton, elem_of_list_to_set.
        split; [by intros [[->|?] ?]|]. intros Hx. split; [by right|].
        intros ->. done.
    + intros neighbor st1 b1 st1' _. apply IH.
    + destruct Hkept as [Hdup Hset Hwalk Hcycles]. constructor; simpl; try done.
      * apply NoDup_app. split; [done|]. split; [|apply NoDup_singleton].
        intros x Hx ->%list_elem_of_singleton. done.
      * rewrite Hset, list_to_set_app_L. simpl.
        rewrite (right_id_L ∅ (∪)). apply (comm_L (∪)).
      * by apply follows_snoc.
    + simpl. intros neighbor Hin. unfold reached. rewrite last_snoc.
      by apply buildGraph_linked.
Qed.

Lemma forNodes_kept (edges : list Edge.t) (fuel : nat) (nodes : list DependencyNode.t) :
  ∀ st st',
    kept edges st → path st = [] →
    forNodes (buildGraph edges) fuel nodes st = Some st' →
    kept edges st' ∧ path st' = [].
Proof.
  induction nodes as [|node nodes IH]; intros st st' Hkept Hpath.
  - by intros [= <-].
  - simpl. destruct (has (visited st) (DependencyNode.path node)); [by apply IH|].
    destruct (dfs _ _ _ _) as [[b st1]|] eqn:Hcall; [|done].
    apply dfs_kept in Hcall as (Hkept1 & Hpath1 & _); [|done|by rewrite Hpath].
    apply IH; [done|congruence].
Qed.

Lemma detectCircularDependencies_simple (nodes : list DependencyNode.t)
  (edges : list Edge.t) (cycles : list (list jsstring)) :
  detectCircularDependencies nodes edges = Some cycles →
  Forall (simpleCycle edges) cycles.
Proof.
  unfold detectCircularDependencies.
  destruct (forNodes _ _ _ _) as [st|] eqn:Hloop; [|done].
  intros [= <-]. apply forNodes_kept in Hloop as [[] _]; try done.
  constructor; simpl; try done. apply NoDup_nil_2.
Qed.

(** X1.  Every cycle that detectCircularDependencies reports starts and
    ends with the same key, passes no key twice before it returns, and
    each of its steps is an edge of the graph. *)
Theorem reported_cycles_are_simple_cycles (nodes : list DependencyNode.t)
  (edges : list Edge.t) (cycles : list (list jsstring)) (cycle : list jsstring) :
  detectCircularDependencies nodes edges = Some cycles →
  cycle ∈ cycles →
  ∃ first inner,
    cycle = first :: inner ++ [first] ∧ NoDup (first :: inner) ∧
    follows edges cycle = true.
Proof.
  intros Hcycles%detectCircularDependencies_simple Hin.
  by apply (proj1 (Forall_forall _ _) Hcycles).
Qed.

Lemma reported_cycles_are_simple_cycles_witness :
  detectCircularDependencies Cases.ringNodes Cases.ringEdges
  = Some [[js "a.js"; js "b.js"; js "c.js"; js "a.js"]] ∧
  ∃ first inner,
    [js "a.js"; js "b.js"; js "c.js"; js "a.js"] = first :: inner ++ [first] ∧
    NoDup (first :: inner) ∧
    follows Cases.ringEdges [js "a.js"; js "b.js"; js "c.js"; js "a.js"] = true.
Proof.
  assert (detectCircularDependencies Cases.ringNodes Cases.ringEdges
          = Some [[js "a.js"; js "b.js"; js "c.js"; js "a.js"]]) as Hcycles
    by (vm_compute; reflexivity).
  split; [exact Hcycles|].
  apply (reported_cycles_are_simple_cycles _ _ _ _ Hcycles). by left.
Defined.

End Cycles.

(** ** The dependency graph: nodes, edges and cycles of a result *)

Section GraphShape.

Import FileUtils ParserUtils DependencyAnalyzer Shape.

Lemma analyzeFile_shape (E : Env) (absolutePath file : jsstring)
  (node : DependencyNode.t) (pushed : list Edge.t) :
  analyzeFile E absolutePath file = Some (node, pushed) →
  pushed = importEdges node ∧
  DependencyNode.exports node = [] ∧
  DependencyNode.dependencies node = DependencyNode.imports node.
Proof.
  unfold analyzeFile. destruct (parseFile E file) as [tree|]; [|done].
  by intros [= <- <-].
Qed.

Lemma analyze_fold (E : Env) (absolutePath : jsstring) (files : list jsstring) :
  ∀ nodes0 edges0 nodes edges,
    edges0 = flat_map importEdges nodes0 →
    Forall (fun node => DependencyNode.exports node = [] ∧
                        DependencyNode.dependencies node = DependencyNode.imports node)
      nodes0 →
    fold_left
      (fun '(nodes, edges) file =>
         match analyzeFile E absolutePath file with
         | Some (node, pushed) => (nodes ++ [node], edges ++ pushed)
         | None => (nodes, edges)
         end)
      files (nodes0, edges0) = (nodes, edges) →
    edges = flat_map importEdges nodes ∧
    Forall (fun node => DependencyNode.exports node = [] ∧
                        DependencyNode.dependencies node = DependencyNode.imports node)
      nodes.
Proof.
  induction files as [|file files IH]; intros nodes0 edges0 nodes edges Hedges Hnodes.
  - by intros [= <- <-].
  - simpl. destruct (analyzeFile E absolutePath file) as [[node pushed]|] eqn:Hfile.
    + apply analyzeFile_shape in Hfile as (-> & Hexports & Hdeps).
      apply IH.
      * rewrite flat_map_app. simpl. by rewrite app_nil_r, Hedges.
      * apply Forall_app. split; [done|]. by apply Forall_singleton.
    + by apply IH.
Qed.

Lemma analyzeDependencies_Ok (E : Env) (projectPath : jsstring)
  (filePath : option jsstring) (graph : DependencyGraph.t) :
  analyzeDependencies E projectPath filePath = Some (Ok graph) →
  DependencyGraph.edges graph = flat_map importEdges (DependencyGraph.nodes graph) ∧
  Forall (fun node => DependencyNode.exports node = [] ∧
                      DependencyNode.dependencies node = DependencyNode.imports node)
    (DependencyGraph.nodes graph) ∧
  detectCircularDependencies (DependencyGraph.nodes graph) (DependencyGraph.edges graph)
  = Some (DependencyGraph.circular graph).
Proof.
  unfold analyzeDependencies.
  destruct (negb _); [done|].
  match goal with
  | |- context [match ?found with Ok _ => _ | Throw _ => _ end] =>
      destruct found as [filesToAnalyze|e]; [|done]
  end.
  destruct (fold_left _ filesToAnalyze ([], [])) as [nodes edges] eqn:Hfold.
  apply analyze_fold in Hfold as [Hedges Hnodes]; [|done|done].
  destruct (detectCircularDependencies nodes edges) as [cycles|] eqn:Hcycles; [|done].
  by intros [= <-].
Qed.

Lemma linked_importEdges (nodes : list DependencyNode.t) (a b : jsstring) :
  linked (flat_map importEdges nodes) a b = true →
  ∃ node, node ∈ nodes ∧ DependencyNode.path node = a ∧ b ∈ DependencyNode.imports node.
Proof.
  intros (edge & Hin & Hends)%existsb_exists.
  apply in_flat_map in Hin as (node & Hnode & Hedge).
  apply in_map_iff in Hedge as (imp & <- & Himp).
  apply andb_true_iff in Hends as [Hfrom%bool_decide_eq_true Hto%bool_decide_eq_true].
  simpl in Hfrom, Hto. subst.
  exists node. by rewrite !list_elem_of_In.
Qed.

(** X2.  In a result of analyzeDependencies the edges are the imports of
    the nodes, node after node and import after import, each of type
    [import] and leaving the node's own path; every node has no exports
    and its dependencies are its imports. *)
Theorem graph_edges_are_node_imports (E : Env) (projectPath : jsstring)
  (filePath : option jsstring) (graph : DependencyGraph.t) :
  analyzeDependencies E projectPath filePath = Some (Ok graph) →
  DependencyGraph.edges graph
  = flat_map
      (fun node =>
         List.map (fun imp => Edge.mk (DependencyNode.path node) imp (js "import"))
           (DependencyNode.imports node))
      (DependencyGraph.nodes graph) ∧
  ∀ node, node ∈ DependencyGraph.nodes graph →
          DependencyNode.exports node = [] ∧
          DependencyNode.dependencies node = DependencyNode.imports node.
Proof.
  intros (Hedges & Hnodes & _)%analyzeDependencies_Ok.
  split; [done|]. by apply Forall_forall.
Qed.

(** X3.  analyzeDependencies reports no cycle unless some import string
    is, character for character, the path key of a node. *)
Theorem no_cycle_unless_import_equals_node_key (E : Env) (projectPath : jsstring)
  (filePath : option jsstring) (graph : DependencyGraph.t) :
  analyzeDependencies E projectPath filePath = Some (Ok graph) →
  (∀ node other imp,
     node ∈ DependencyGraph.nodes graph → other ∈ DependencyGraph.nodes graph →
     imp ∈ DependencyNode.imports node → imp ≠ DependencyNode.path other) →
  DependencyGraph.circular graph = [].
Proof.
  intros (Hedges & _ & Hcycles)%analyzeDependencies_Ok Hkeys.
  apply detectCircularDependencies_simple in Hcycles.
  destruct (DependencyGraph.circular graph) as [|cycle cycles]; [done|].
  apply Forall_cons in Hcycles as [(first & inner & -> & _ & Hwalk) _].
  rewrite Hedges in Hwalk. exfalso.
  assert (∃ next rest, inner ++ [first] = next :: rest) as (next & rest & Hnext).
  { destruct inner; simpl; eauto. }
  assert (∃ init l, first :: inner = init ++ [l]) as (init & l & Hlast).
  { destruct (exists_last (l := first :: inner)) as (init & l & ?); [done|eauto]. }
  assert (linked (flat_map importEdges (DependencyGraph.nodes graph)) first next = true)
    as (source & Hsource & Hpath & _)%linked_importEdges.
  { rewrite Hnext in Hwalk. simpl in Hwalk. by apply andb_true_iff in Hwalk as [? _]. }
  assert (linked (flat_map importEdges (DependencyGraph.nodes graph)) l first = true)
    as (importer & Himporter & _ & Himp)%linked_importEdges.
  { change (first :: inner ++ [first]) with ((first :: inner) ++ [first]) in Hwalk.
    rewrite Hlast, <- app_assoc in Hwalk. apply follows_app_r in Hwalk.
    simpl in Hwalk. by apply andb_true_iff in Hwalk as [? _]. }
  by apply (Hkeys importer source first).
Qed.

(** X4.  Without tree-sitter every file is skipped: a graph that
    analyzeDependencies returns then has no node, no edge and no cycle. *)
Theorem no_parser_gives_empty_graph (E : Env) (projectPath : jsstring)
  (filePath : option jsstring) (graph : DependencyGraph.t) :
  Parser E = None →
  analyzeDependencies E projectPath filePath = Some (Ok graph) →
  graph = DependencyGraph.mk [] [] [].
Proof.
  intros Hparser. unfold analyzeDependencies.
  destruct (negb _); [done|].
  match goal with
  | |- context [match ?found with Ok _ => _ | Throw _ => _ end] =>
      destruct found as [filesToAnalyze|e]; [|done]
  end.
  assert (∀ acc, fold_left
            (fun '(nodes, edges) file =>
               match analyzeFile E (resolve E projectPath) file with
               | Some (node, pushed) => (nodes ++ [node], edges ++ pushed)
               | None => (nodes, edges)
               end)
            filesToAnalyze acc = acc) as ->.
  { induction filesToAnalyze as [|file files IH]; intros [nodes edges]; [done|].
    simpl. unfold analyzeFile at 2, parseFile. rewrite Hparser. apply IH. }
  by intros [= <-].
Qed.

Lemma graph_edges_are_node_imports_witness :
  analyzeDependencies (Sample.ringProject Sample.ringFiles) (js "/ring") None
  = Some (Ok Cases.ringGraph) ∧
  DependencyGraph.edges Cases.ringGraph
  = flat_map
      (fun node =>
         List.map (fun imp => Edge.mk (DependencyNode.path node) imp (js "import"))
           (DependencyNode.imports node))
      (DependencyGraph.nodes Cases.ringGraph).
Proof.
  assert (analyzeDependencies (Sample.ringProject Sample.ringFiles) (js "/ring") None
          = Some (Ok Cases.ringGraph)) as Hgraph by (vm_compute; reflexivity).
  split; [exact Hgraph|].
  exact (proj1 (graph_edges_are_node_imports _ _ _ _ Hgraph)).
Defined.

Lemma no_cycle_unless_import_equals_node_key_witness :
  analyzeDependencies Cases.pairProject (js "/app") None = Some (Ok Cases.pairGraph) ∧
  DependencyGraph.circular Cases.pairGraph = [].
Proof.
  assert (analyzeDependencies Cases.pairProject (js "/app") None
          = Some (Ok Cases.pairGraph)) as Hgraph by (vm_compute; reflexivity).
  split; [exact Hgraph|].
  apply (no_cycle_unless_import_equals_node_key _ _ _ _ Hgraph).
  intros node other imp Hnode Hother Himp.
  apply list_elem_of_In in Hnode, Hother. simpl in Hnode, Hother.
  destruct Hnode as [<-|[<-|[]]]; destruct Hother as [<-|[<-|[]]];
    apply list_elem_of_In in Himp; simpl in Himp; destruct Himp as [<-|[]];
    by vm_compute.
Defined.

Lemma no_parser_gives_empty_graph_witness :
  Parser Cases.ringWithoutParser = None ∧
  ∃ graph,
    analyzeDependencies Cases.ringWithoutParser (js "/ring") None = Some (Ok graph) ∧
    graph = DependencyGraph.mk [] [] [].
Proof.
  split; [reflexivity|].
  destruct (analyzeDependencies Cases.ringWithoutParser (js "/ring") None)
    as [[graph|]|] eqn:Hgraph; [|by vm_compute in Hgraph..].
  exists graph. split; [done|].
  by apply (no_parser_gives_empty_graph Cases.ringWithoutParser (js "/ring") None).
Defined.

End GraphShape.

(** ** findFiles: the files a list of patterns selects *)

Section FindFiles.

Import FileUtils.

Lemma uniq_fold (xs : list jsstring) :
  ∀ seen,
    NoDup seen →
    NoDup (fold_left (fun seen x => if existsb (eqb x) seen then seen else seen ++ [x])
             xs seen) ∧
    ∀ f, f ∈ fold_left (fun seen x => if existsb (eqb x) seen then seen else seen ++ [x])
               xs seen
         ↔ f ∈ seen ∨ f ∈ xs.
Proof.
  induction xs as [|x xs IH]; intros seen Hseen; simpl.
  - split; [done|]. intros f. rewrite elem_of_nil. tauto.
  - destruct (existsb (eqb x) seen) eqn:Hx.
    + destruct (IH seen Hseen) as [Hdup Hin]. split; [done|].
      intros f. rewrite Hin, elem_of_cons.
      apply existsb_exists in Hx as (y & Hy%list_elem_of_In & <-%bool_decide_eq_true).
      split; [tauto|]. intros [?|[->|?]]; tauto.
    + assert (x ∉ seen) as Hfresh.
      { intros Hin%list_elem_of_In. apply not_true_iff_false in Hx. apply Hx.
        apply existsb_exists. exists x. split; [done|]. by apply bool_decide_eq_true. }
      destruct (IH (seen ++ [x])) as [Hdup Hin].
      { apply NoDup_app. split; [done|]. split; [|apply NoDup_singleton].
        by intros y Hy ->%list_elem_of_singleton. }
      split; [done|]. intros f.
      rewrite Hin, elem_of_app, list_elem_of_singleton, elem_of_cons. tauto.
Qed.

Lemma uniq_NoDup (xs : list jsstring) : NoDup (uniq xs).
Proof. apply uniq_fold, NoDup_nil_2. Qed.

Lemma uniq_elem_of (xs : list jsstring) (f : jsstring) : f ∈ uniq xs ↔ f ∈ xs.
Proof.
  unfold uniq. rewrite (proj2 (uniq_fold xs [] (NoDup_nil_2))), elem_of_nil. tauto.
Qed.

(** The loop of findFiles over the patterns [pats], entered with
    [allFiles]. *)
Lemma findFiles_loop (E : Env) (directory : jsstring) (pats : list jsstring) :
  ∀ allFiles,
    match (fix loop (pats allFiles : list jsstring) {struct pats} :=
             match pats with
             | [] => Ok allFiles
             | pat :: pats' =>
                 match glob E pat directory with
                 | Some files => loop pats' (allFiles ++ files)
                 | None => Throw FailedToFindFiles
                 end
             end) pats allFiles with
    | Ok found =>
        (∀ pat, pat ∈ pats → is_Some (glob E pat directory)) ∧
        ∀ f, f ∈ found
             ↔ f ∈ allFiles
               ∨ ∃ pat files, pat ∈ pats ∧ glob E pat directory = Some files ∧ f ∈ files
    | Throw e =>
        e = FailedToFindFiles ∧ ∃ pat, pat ∈ pats ∧ glob E pat directory = None
    end.
Proof.
  induction pats as [|pat pats IH]; intros allFiles.
  - split; [by intros pat ?%elem_of_nil|]. intros f. split; [tauto|].
    intros [?|(pat & ? & ?%elem_of_nil & _)]; done.
  - destruct (glob E pat directory) as [files|] eqn:Hglob.
    + specialize (IH (allFiles ++ files)).
      destruct ((fix loop (pats allFiles : list jsstring) {struct pats} := _) pats _)
        as [found|e].
      * destruct IH as [Hall Hin]. split.
        -- intros p [->|?]%elem_of_cons; [by rewrite Hglob|by apply Hall].
        -- intros f. rewrite Hin, elem_of_app. split.
           ++ intros [[?|?]|(p & fs & ? & ? & ?)]; [by left|right..].
              ** exists pat, files. split_and!; [by left|done|done].
              ** exists p, fs. split_and!; [by right|done|done].
           ++ intros [?|(p & fs & [->|?]%elem_of_cons & Hp & ?)]; [by left; left|..].
              ** left; right. congruence.
              ** right. by exists p, fs.
      * destruct IH as [-> (p & ? & ?)]. split; [done|]. exists p. split; [by right|done].
    + split; [done|]. exists pat. split; [by left|done].
Qed.

(** X5.  A list that findFiles returns holds no path twice, and it holds
    exactly the paths that glob returned for one of the patterns. *)
Theorem findFiles_is_duplicate_free_union (E : Env) (directory : jsstring)
  (patterns files : list jsstring) :
  findFiles E directory patterns = Ok files →
  NoDup files ∧
  ∀ f, f ∈ files
       ↔ ∃ pat found, pat ∈ patterns ∧ glob E pat directory = Some found ∧ f ∈ found.
Proof.
  unfold findFiles. pose proof (findFiles_loop E directory patterns []) as Hloop.
  destruct ((fix loop (pats allFiles : list jsstring) {struct pats} := _) patterns [])
    as [allFiles|e]; [|done].
  intros [= <-]. split; [apply uniq_NoDup|].
  intros f. rewrite uniq_elem_of, (proj2 Hloop), elem_of_nil. tauto.
Qed.

(** X6.  findFiles fails exactly when glob rejects for one of the
    patterns, and the only error it throws is the one of its own catch
    clause. *)
Theorem findFiles_fails_iff_glob_rejects (E : Env) (directory : jsstring)
  (patterns : list jsstring) :
  (isOk (findFiles E directory patterns) = false
   ↔ ∃ pat, pat ∈ patterns ∧ glob E pat directory = None) ∧
  ∀ e, findFiles E directory patterns = Throw e → e = FailedToFindFiles.
Proof.
  unfold findFiles. pose proof (findFiles_loop E directory patterns []) as Hloop.
  destruct ((fix loop (pats allFiles : list jsstring) {struct pats} := _) patterns [])
    as [allFiles|e]; simpl.
  - split; [|done]. split; [done|].
    intros (pat & Hin & Hnone). destruct Hloop as [Hall _].
    apply Hall in Hin as [? ?]. congruence.
  - destruct Hloop as [-> Hpat]. split; [done|]. by intros e [= <-].
Qed.

Lemma findFiles_is_duplicate_free_union_witness :
  ∃ files,
    findFiles Sample.plainProject (js "/srv/app") CodeAnalyzer.codeExtensions = Ok files ∧
    length files = 3 ∧ NoDup files.
Proof.
  destruct (findFiles Sample.plainProject (js "/srv/app") CodeAnalyzer.codeExtensions)
    as [files|] eqn:Hfiles; [|by vm_compute in Hfiles].
  exists files. split; [done|]. split.
  - by vm_compute in Hfiles; injection Hfiles as <-.
  - exact (proj1 (findFiles_is_duplicate_free_union _ _ _ _ Hfiles)).
Defined.

Lemma findFiles_fails_iff_glob_rejects_witness :
  isOk (findFiles Cases.globRejects (js "/p") CodeAnalyzer.codeExtensions) = false ∧
  findFiles Cases.globRejects (js "/p") CodeAnalyzer.codeExtensions
  = Throw FailedToFindFiles.
Proof.
  destruct (findFiles_fails_iff_glob_rejects Cases.globRejects (js "/p")
              CodeAnalyzer.codeExtensions) as [Hiff Herror].
  assert (isOk (findFiles Cases.globRejects (js "/p") CodeAnalyzer.codeExtensions)
          = false) as Hfails.
  { apply Hiff. exists (js "*.js"). split; [by left|reflexivity]. }
  split; [exact Hfails|].
  destruct (findFiles Cases.globRejects (js "/p") CodeAnalyzer.codeExtensions)
    as [files|e]; [discriminate Hfails|].
  by rewrite (Herror e eq_refl).
Defined.

End FindFiles.

(** ** The two extension tables *)

Section LanguageTables.

Import FileUtils ParserUtils DependencyAnalyzer.

Lemma extname_shape (p : jsstring) :
  Path.extname p = [] ∨ ∃ tail, Path.extname p = Path.dot :: tail.
Proof.
  unfold Path.extname.
  repeat match goal with |- context [if ?b then _ else _] => destruct b end; eauto.
Qed.

Lemma toLowerCase_dot (tail : jsstring) :
  toLowerCase (Path.dot :: tail) = Path.dot :: toLowerCase tail.
Proof. reflexivity. Qed.

Lemma eqb_cons (c : N) (a b : jsstring) : eqb (c :: a) (c :: b) = eqb a b.
Proof.
  unfold eqb. case_bool_decide as H1; case_bool_decide as H2; congruence.
Qed.

Lemma ownProperty_dotted (key : jsstring) (table : list (jsstring * jsstring)) :
  ownProperty (Path.dot :: key)
    (List.map (fun entry => (Path.dot :: fst entry, snd entry)) table)
  = ownProperty key table.
Proof.
  induction table as [|[k v] table IH]; [done|].
  simpl. rewrite eqb_cons, IH. done.
Qed.

Lemma ownProperty_app (key : jsstring) (table more : list (jsstring * jsstring)) :
  ownProperty key (table ++ more)
  = match ownProperty key table with
    | Some v => Some v
    | None => ownProperty key more
    end.
Proof.
  induction table as [|[k v] table IH]; [done|].
  simpl. by destruct (eqb k key).
Qed.

Lemma ownProperty_value (key value : jsstring) (table : list (jsstring * jsstring)) :
  ownProperty key table = Some value → value ∈ List.map snd table.
Proof.
  induction table as [|[k v] table IH]; [done|].
  simpl. destruct (eqb k key).
  - intros [= ->]. by left.
  - intros ?%IH. by right.
Qed.

(** The table of detectLanguageFromPath is the first half of the table
    of detectLanguage with a dot before every key. *)
Lemma detectLanguageFromPath_table (p : jsstring) :
  detectLanguageFromPath p
  = match Path.extname p with
    | [] => Unknown
    | _ :: tail =>
        match ownProperty (toLowerCase tail) (take 8 languageMap) with
        | Some name => Label name
        | None => Unknown
        end
    end.
Proof.
  unfold detectLanguageFromPath.
  destruct (extname_shape p) as [->|[tail ->]]; [done|].
  rewrite toLowerCase_dot.
  change [ (js ".js", js "JavaScript"); (js ".jsx", js "JavaScript");
           (js ".ts", js "TypeScript"); (js ".tsx", js "TypeScript");
           (js ".py", js "Python"); (js ".java", js "Java");
           (js ".go", js "Go"); (js ".rs", js "Rust") ]
    with (List.map (fun entry : jsstring * jsstring => (Path.dot :: fst entry, snd entry))
            (take 8 languageMap)).
  by rewrite ownProperty_dotted.
Qed.

Lemma detectLanguage_table (p : jsstring) (name : jsstring) :
  ownProperty (getFileExtension p) (take 8 languageMap) = Some name →
  detectLanguage p = Label name.
Proof.
  intros Hname. unfold detectLanguage.
  rewrite <- (take_drop 8 languageMap), ownProperty_app, Hname. done.
Qed.

Lemma getParser_other (p : jsstring) :
  ownProperty (getFileExtension p) (take 8 languageMap) = None →
  getParser (detectLanguage p) = Ok None ∨ getParser (detectLanguage p) = Throw TypeError.
Proof.
  intros Hnone. unfold detectLanguage.
  rewrite <- (take_drop 8 languageMap), ownProperty_app, Hnone.
  destruct (ownProperty _ (drop 8 languageMap)) as [name|] eqn:Hname.
  - apply ownProperty_value in Hname. left.
    vm_compute in Hname. apply list_elem_of_In in Hname. simpl in Hname.
    repeat (destruct Hname as [<-|Hname]; [by vm_compute|]). done.
  - repeat match goal with |- context [if ?b then _ else _] => destruct b end;
      (by right) || (by left).
Qed.

(** X7.  The extension table of the dependency analyzer agrees with the
    one of file-utils wherever it has an entry, and whenever parseFile
    yields a tree for a file (its grammar chosen by the file-utils table)
    the import walk is run for that same language. *)
Theorem path_language_agrees_with_grammar (E : Env) (filePath : jsstring) :
  (detectLanguageFromPath filePath = detectLanguage filePath
   ∨ detectLanguageFromPath filePath = Unknown) ∧
  ∀ tree, parseFile E filePath = Some tree →
          detectLanguageFromPath filePath = detectLanguage filePath.
Proof.
  rewrite detectLanguageFromPath_table.
  destruct (Path.extname filePath) as [|c tail] eqn:Hextname.
  - assert (getFileExtension filePath = []) as Hext
      by (unfold getFileExtension; by rewrite Hextname).
    split; [by right|]. intros tree. unfold parseFile.
    destruct (Parser E) as [parse|]; [|done].
    destruct (readFileContent E filePath); [|done].
    destruct (getParser_other filePath) as [-> | ->]; [by rewrite Hext|done..].
  - assert (getFileExtension filePath = toLowerCase tail) as Hext
      by (unfold getFileExtension; by rewrite Hextname).
    destruct (ownProperty (toLowerCase tail) (take 8 languageMap)) as [name|] eqn:Hname.
    + rewrite <- Hext in Hname. apply detectLanguage_table in Hname.
      split; [by left|done].
    + split; [by right|]. intros tree. unfold parseFile.
      destruct (Parser E) as [parse|]; [|done].
      destruct (readFileContent E filePath); [|done].
      destruct (getParser_other filePath) as [-> | ->]; [by rewrite Hext|done..].
Qed.

Lemma path_language_agrees_with_grammar_witness :
  parseFile Sample.twoFunctionsProject Sample.scriptPath = Some Sample.twoFunctionsTree ∧
  detectLanguageFromPath Sample.scriptPath = detectLanguage Sample.scriptPath.
Proof.
  assert (parseFile Sample.twoFunctionsProject Sample.scriptPath
          = Some Sample.twoFunctionsTree) as Hparse by (vm_compute; reflexivity).
  split; [exact Hparse|].
  exact (proj2 (path_language_agrees_with_grammar Sample.twoFunctionsProject
                  Sample.scriptPath) _ Hparse).
Defined.

End LanguageTables.

(** ** Complexity: errors, modes and ranges *)

Section ComplexityModes.

Import FileUtils ParserUtils CodeAnalyzer.

Lemma supplied_Some (functionName : option jsstring) (name : jsstring) :
  supplied functionName = Some name → functionName = Some name ∧ name ≠ [].
Proof. destruct functionName as [[|c s]|]; simpl; intros [= <-]; done. Qed.

Lemma parseFile_reads (E : Env) (filePath : jsstring) (tree : SyntaxNode) :
  parseFile E filePath = Some tree → is_Some (readFile E filePath).
Proof.
  unfold parseFile, readFileContent. destruct (Parser E); [|done].
  destruct (readFile E filePath); [eauto|done].
Qed.

(** The score of the whole file, in either mode. *)
Lemma calculateComplexity_whole (E : Env) (filePath : jsstring)
  (functionName : option jsstring) :
  supplied functionName = None →
  calculateComplexity E filePath functionName
  = match readFile E filePath with
    | Some content =>
        Ok (report filePath functionName (Spec.containmentScore (split_newline content)))
    | None => Throw (FailedToReadFile filePath)
    end.
Proof.
  intros Hwhole. unfold calculateComplexity.
  destruct (parseFile E filePath) as [tree|].
  - rewrite Hwhole. unfold structuredRange, readFileContent.
    destruct (readFile E filePath) as [content|]; [|done].
    unfold mbind, result_bind; cbv beta iota.
    by rewrite countDecisionPoints_whole.
  - unfold calculateComplexityFallback, fallbackRange, readFileContent.
    rewrite Hwhole.
    destruct (readFile E filePath) as [content|]; [|done].
    unfold mbind, result_bind; cbv beta iota.
    by rewrite countDecisionPoints_whole.
Qed.

Lemma sum_list_take_le (xs : list nat) (n : nat) : sum_list (take n xs) ≤ sum_list xs.
Proof.
  revert n. induction xs as [|x xs IH]; intros [|n]; simpl; try lia.
  specialize (IH n). lia.
Qed.

Lemma sum_list_drop_le (xs : list nat) (n : nat) : sum_list (drop n xs) ≤ sum_list xs.
Proof.
  revert n. induction xs as [|x xs IH]; intros [|n]; simpl; try lia.
  specialize (IH n). lia.
Qed.

Lemma containmentScore_scanned (lines : list jsstring) (range : Z * Z) :
  Spec.containmentScore (Spec.scannedLines lines range) ≤ Spec.containmentScore lines.
Proof.
  unfold Spec.containmentScore, Spec.scannedLines.
  apply le_n_S.
  rewrite <- firstn_map, <- skipn_map.
  etrans; [apply sum_list_take_le | apply sum_list_drop_le].
Qed.

Lemma containmentScore_bound (lines : list jsstring) :
  Spec.containmentScore lines ≤ 1 + 11 * length lines.
Proof.
  unfold Spec.containmentScore. apply le_n_S.
  induction lines as [|line lines IH]; simpl; [lia|].
  assert (length (Spec.tokensIn line) ≤ 11); [|lia].
  unfold Spec.tokensIn. etrans; [apply length_filter|]. done.
Qed.

(** X8.  calculateComplexity throws in two cases only: the file cannot
    be read, or, in structured mode, no declaration has the name asked
    for.  In particular its loops never read past the lines of the
    file. *)
Theorem calculateComplexity_error_cases (E : Env) (filePath : jsstring)
  (functionName : option jsstring) (e : Error) :
  calculateComplexity E filePath functionName = Throw e →
  (readFile E filePath = None ∧ e = FailedToReadFile filePath)
  ∨ (∃ name tree,
       functionName = Some name ∧ name ≠ [] ∧
       parseFile E filePath = Some tree ∧
       findFunction (extractFunctions E tree (detectLanguage filePath)) name = None ∧
       e = FunctionNotFound name filePath).
Proof.
  intros Hthrow.
  destruct (parseFile E filePath) as [tree|] eqn:Hparse.
  - right. destruct (parseFile_reads E filePath tree Hparse) as [content Hread].
    destruct (supplied functionName) as [name|] eqn:Hname.
    + apply supplied_Some in Hname as [-> Hname].
      destruct (findFunction (extractFunctions E tree (detectLanguage filePath)) name)
        as [target|] eqn:Hfind.
      * destruct (calculateComplexity_structured_returns E filePath content (Some name)
                    tree Hparse Hread) as [c Hc]; [|congruence].
        intros name' Hname'. apply supplied_Some in Hname' as [[= <-] _].
        by rewrite Hfind.
      * rewrite (structured_rejects_absent_function E filePath name tree) in Hthrow
          by done.
        injection Hthrow as <-. by exists name, tree.
    + destruct (calculateComplexity_structured_returns E filePath content functionName
                  tree Hparse Hread) as [c Hc]; [|congruence].
      intros name' Hname'. congruence.
  - destruct (readFile E filePath) as [content|] eqn:Hread.
    + destruct (calculateComplexity_fallback_returns E filePath content functionName
                  Hparse Hread) as [c Hc]. congruence.
    + left. split; [done|]. revert Hthrow.
      unfold calculateComplexity. rewrite Hparse.
      unfold calculateComplexityFallback, readFileContent. rewrite Hread.
      by intros [= <-].
Qed.

(** X9.  The score of the whole file is a function of the file's text
    alone: it is the same with and without tree-sitter, and whatever the
    syntax tree holds. *)
Theorem whole_file_score_ignores_the_parser (E1 E2 : Env) (filePath : jsstring)
  (functionName : option jsstring) :
  supplied functionName = None →
  readFile E1 filePath = readFile E2 filePath →
  calculateComplexity E1 filePath functionName
  = calculateComplexity E2 filePath functionName.
Proof.
  intros Hwhole Hread.
  by rewrite !calculateComplexity_whole, Hread.
Qed.

(** X10.  The score of a single function is never higher than the score
    of its whole file, which is at most one plus eleven per line. *)
Theorem narrowing_never_raises_the_score (E : Env) (filePath name : jsstring)
  (c whole : CodeComplexity.t) :
  calculateComplexity E filePath (Some name) = Ok c →
  calculateComplexity E filePath None = Ok whole →
  CodeComplexity.complexity c ≤ CodeComplexity.complexity whole ∧
  ∃ content,
    readFile E filePath = Some content ∧
    CodeComplexity.complexity whole ≤ 1 + 11 * length (split_newline content).
Proof.
  intros (content & Hread & ->)%calculateComplexity_Ok.
  rewrite calculateComplexity_whole by done.
  unfold readFileContent in Hread.
  destruct (readFile E filePath) as [content'|]; [|done].
  injection Hread as ->. intros [= <-]. simpl.
  split; [apply containmentScore_scanned|].
  exists content. split; [done|]. apply containmentScore_bound.
Qed.

Lemma calculateComplexity_error_cases_witness :
  let E := Sample.fallbackEnv [] (js "/p") None in
  calculateComplexity E Sample.scriptPath None
  = Throw (FailedToReadFile Sample.scriptPath) ∧
  ((readFile E Sample.scriptPath = None ∧
    FailedToReadFile Sample.scriptPath = FailedToReadFile Sample.scriptPath)
   ∨ ∃ name tree,
       None = Some name ∧ name ≠ [] ∧
       parseFile E Sample.scriptPath = Some tree ∧
       findFunction (extractFunctions E tree (detectLanguage Sample.scriptPath)) name
       = None ∧
       FailedToReadFile Sample.scriptPath = FunctionNotFound name Sample.scriptPath).
Proof.
  intros E.
  assert (calculateComplexity E Sample.scriptPath None
          = Throw (FailedToReadFile Sample.scriptPath)) as Hthrow
    by (vm_compute; reflexivity).
  split; [exact Hthrow|].
  exact (calculateComplexity_error_cases E Sample.scriptPath None _ Hthrow).
Defined.

Lemma whole_file_score_ignores_the_parser_witness :
  let E1 := Sample.fallbackEnv [(Sample.scriptPath, Sample.twoFunctions)] (js "/p") None in
  let E2 := Sample.twoFunctionsProject in
  Parser E1 = None ∧ is_Some (Parser E2) ∧
  calculateComplexity E1 Sample.scriptPath None
  = calculateComplexity E2 Sample.scriptPath None.
Proof.
  intros E1 E2. split; [reflexivity|]. split; [by eexists|].
  apply (whole_file_score_ignores_the_parser E1 E2 Sample.scriptPath None);
    reflexivity.
Defined.

Lemma narrowing_never_raises_the_score_witness :
  let E := Sample.twoFunctionsProject in
  ∃ c whole,
    calculateComplexity E Sample.scriptPath (Some (js "second")) = Ok c ∧
    calculateComplexity E Sample.scriptPath None = Ok whole ∧
    CodeComplexity.complexity c = 5 ∧ CodeComplexity.complexity whole = 6 ∧
    CodeComplexity.complexity c ≤ CodeComplexity.complexity whole.
Proof.
  intros E.
  destruct (calculateComplexity E Sample.scriptPath (Some (js "second")))
    as [c|] eqn:Hc; [|by vm_compute in Hc].
  destruct (calculateComplexity E Sample.scriptPath None)
    as [whole|] eqn:Hwhole; [|by vm_compute in Hwhole].
  exists c, whole. split; [done|]. split; [done|]. split_and!.
  - by vm_compute in Hc; injection Hc as <-.
  - by vm_compute in Hwhole; injection Hwhole as <-.
  - exact (proj1 (narrowing_never_raises_the_score E Sample.scriptPath (js "second")
                    c whole Hc Hwhole)).
Defined.

End ComplexityModes.

(** ** The scanner: depth, order, unreadable entries and language counts *)

Section ScannerShape.

Import FileUtils FileAnalyzer Spec Shape.





Lemma buildEntry_listed (directory : jsstring) (maxDepth currentDepth : Z)
  (entry : Entry) (pushed : option FileNode.t) :
  buildEntry directory maxDepth currentDepth entry = Ok pushed →
  match pushed with
  | Some node => skipped (entryName entry) = false ∧ nameKind node = listed directory entry
  | None => skipped (entryName entry) = true
  end.
Proof.
  destruct entry as [name stats|name listing]; simpl;
    destruct (skipped name); try (by intros [= <-]).
  - destruct stats; [|done]. by intros [= <-].
  - match goal with
    | |- context [mbind _ ?built] => destruct built as [children|]; [|done]
    end.
    by intros [= <-].
Qed.

Lemma forEntries_listed (directory : jsstring) (maxDepth currentDepth : Z)
  (entries : list Entry) :
  ∀ acc nodes,
    forEntries (buildEntry directory maxDepth currentDepth) entries acc = Ok nodes →
    List.map nameKind nodes
    = List.map nameKind acc
      ++ List.map (listed directory)
           (List.filter (fun entry => negb (skipped (entryName entry))) entries).
Proof.
  induction entries as [|entry entries IH]; intros acc nodes.
  - intros [= <-]. by rewrite app_nil_r.
  - cbn [forEntries].
    destruct (buildEntry directory maxDepth currentDepth entry) as [pushed|] eqn:Hentry;
      [|done].
    apply buildEntry_listed in Hentry.
    unfold mbind, result_bind; cbv beta iota.
    intros Hnodes%IH. rewrite Hnodes. cbn [List.filter].
    destruct pushed as [node|].
    + destruct Hentry as [-> Hnode]. simpl.
      by rewrite List.map_app, <- app_assoc, <- Hnode.
    + by rewrite Hentry.
Qed.

(** X12.  Within the depth limit the nodes of a level are the listed
    entries that are not skipped, in the order of the listing, each under
    its own name, with the directory's path joined before it, and as a
    directory exactly when the entry is one. *)
Theorem buildFileTree_keeps_listing_order (directory : jsstring)
  (entries : list Entry) (maxDepth currentDepth : Z) (nodes : list FileNode.t) :
  (currentDepth < maxDepth)%Z →
  buildFileTree directory (Some entries) maxDepth currentDepth = Ok nodes →
  List.map (fun node => (FileNode.name node, FileNode.path node, FileNode.type node))
    nodes
  = List.map
      (fun entry => (entryName entry, Path.join directory (entryName entry),
                     entryType entry))
      (List.filter (fun entry => negb (skipped (entryName entry))) entries).
Proof.
  intros Hdepth%Z.leb_gt. unfold buildFileTree. rewrite Hdepth.
  intros Hnodes. apply try_catch_Ok in Hnodes; [|done].
  by apply forEntries_listed in Hnodes.
Qed.

Lemma sumEntries_cut (sizeOf : Entry → option N) (before after : list Entry)
  (entry : Entry) :
  sizeOf entry = None →
  ∀ totalSize, sumEntries sizeOf (before ++ entry :: after) totalSize
               = sumEntries sizeOf before totalSize.
Proof.
  intros Hentry. induction before as [|e before IH]; intros totalSize; simpl.
  - by rewrite Hentry.
  - destruct (sizeOf e); [apply IH|done].
Qed.

Lemma sumEntries_skip (sizeOf : Entry → option N) (before after : list Entry)
  (entry : Entry) :
  sizeOf entry = Some 0%N →
  ∀ totalSize, sumEntries sizeOf (before ++ entry :: after) totalSize
               = sumEntries sizeOf (before ++ after) totalSize.
Proof.
  intros Hentry. induction before as [|e before IH]; intros totalSize; simpl.
  - by rewrite Hentry, N.add_0_r.
  - destruct (sizeOf e); [apply IH|done].
Qed.

(** X13.  In getDirectorySize a file whose [fs.stat] rejects ends the
    count of its directory: the entries listed after it add nothing.  A
    subdirectory that cannot be listed adds nothing itself, and the count
    goes on with the entries after it. *)
Theorem unreadable_entries_in_directory_size (before after : list Entry)
  (name : jsstring) :
  getDirectorySize (Some (before ++ EntryFile name None :: after))
  = getDirectorySize (Some before) ∧
  getDirectorySize (Some (before ++ EntryDir name None :: after))
  = getDirectorySize (Some (before ++ after)).
Proof.
  split; simpl.
  - by apply sumEntries_cut.
  - apply sumEntries_skip. simpl. by destruct (ignoredDirectory name).
Qed.


Lemma buildFileTree_keeps_listing_order_witness :
  ∃ nodes,
    buildFileTree (js "/p") (Some Sample.hiddenTree) 10 0 = Ok nodes ∧
    List.map (fun node => (FileNode.name node, FileNode.path node, FileNode.type node))
      nodes
    = [(js "index.js", js "/p/index.js", NodeType.file)].
Proof.
  destruct (buildFileTree (js "/p") (Some Sample.hiddenTree) 10 0)
    as [nodes|] eqn:Hnodes; [|by vm_compute in Hnodes].
  exists nodes. split; [done|].
  rewrite (buildFileTree_keeps_listing_order (js "/p") Sample.hiddenTree 10 0 nodes);
    [by vm_compute|lia|done].
Defined.

End ScannerShape.

(** ** The language table of a scan *)

Section LanguageCounts.

Import FileUtils FileAnalyzer Spec Shape.

Local Abbreviation counts_t := (list (Language * LanguageCount)).
Local Abbreviation total :=
  (fun counts : counts_t => sum_list (List.map (fun stat => count_files (snd stat)) counts)).

Lemma get_None {K V : Type} `{EqDecision K} (m : list (K * V)) (key : K) :
  JsMap.get m key = None ↔ key ∉ List.map fst m.
Proof.
  induction m as [|[k v] m IH]; simpl.
  - split; [by intros _ ?%elem_of_nil|done].
  - rewrite not_elem_of_cons. destruct (decide (k = key)) as [->|Hne].
    + split; [done|]. by intros [? _].
    + rewrite IH. split; [by intros ?; split|by intros [_ ?]].
Qed.

Lemma get_Forall {K V : Type} `{EqDecision K} (Q : V → Prop) (m : list (K * V))
  (key : K) (value : V) :
  Forall (fun kv => Q (snd kv)) m → JsMap.get m key = Some value → Q value.
Proof.
  induction 1 as [|[k v] m Hv _ IH]; [done|].
  simpl. destruct (decide (k = key)); [by intros [= <-]|done].
Qed.

Lemma set_keys {K V : Type} `{EqDecision K} (m : list (K * V)) (key : K) (value : V) :
  List.map fst (JsMap.set m key value)
  = match JsMap.get m key with
    | Some _ => List.map fst m
    | None => List.map fst m ++ [key]
    end.
Proof.
  induction m as [|[k v] m IH]; [done|].
  simpl. destruct (decide (k = key)); [done|].
  simpl. rewrite IH. by destruct (JsMap.get m key).
Qed.

Lemma set_NoDup {K V : Type} `{EqDecision K} (m : list (K * V)) (key : K) (value : V) :
  NoDup (List.map fst m) → NoDup (List.map fst (JsMap.set m key value)).
Proof.
  intros Hdup. rewrite set_keys. destruct (JsMap.get m key) eqn:Hget; [done|].
  apply get_None in Hget. apply NoDup_app. split; [done|].
  split; [|apply NoDup_singleton]. by intros k Hk ->%list_elem_of_singleton.
Qed.

Lemma set_total (m : counts_t) (l : Language) (lines : nat) :
  total (JsMap.set m l
           (mkCount (count_files (default (mkCount 0 0) (JsMap.get m l)) + 1) lines))
  = total m + 1.
Proof.
  induction m as [|[k v] m IH]; [done|].
  simpl. destruct (decide (k = l)); simpl; lia.
Qed.

Lemma filter_descendants (node : FileNode.t) :
  length (filter classifiedFile (descendants node))
  = (if decide (classifiedFile node) then 1 else 0)
    + length (filter classifiedFile
                (match FileNode.children node with
                 | Some children => flat_map descendants children
                 | None => []
                 end)).
Proof.
  destruct node; cbn [descendants]. rewrite filter_cons.
  by destruct (decide (classifiedFile _)).
Qed.

Lemma processNodeSync_step (node : FileNode.t) (languageCounts : counts_t) :
  ∃ stepped : counts_t,
    processNodeSync node languageCounts
    = match FileNode.children node with
      | Some children =>
          fold_left (fun counts child => processNodeSync child counts) children stepped
      | None => stepped
      end ∧
    total stepped
    = total languageCounts + (if decide (classifiedFile node) then 1 else 0) ∧
    (NoDup (List.map fst languageCounts) → NoDup (List.map fst stepped)) ∧
    (Forall (fun stat => count_lines (snd stat) = 0) languageCounts →
     Forall (fun stat => count_lines (snd stat) = 0) stepped).
Proof.
  destruct node as [name path type size extension language children].
  unfold classifiedFile.
  cbn [processNodeSync FileNode.type FileNode.language FileNode.children].
  destruct type, (classified language) as [l|] eqn:Hl.
  - eexists. split; [by destruct children|].
    split; [|split].
    + rewrite set_total. rewrite decide_True; [done|]. split; [done|eauto].
    + apply set_NoDup.
    + intros Hlines.
      apply (set_Forall (fun v => count_lines v = 0)); [done|]. simpl.
      destruct (JsMap.get languageCounts l) as [current|] eqn:Hget; [|done].
      exact (get_Forall (fun v => count_lines v = 0) _ _ _ Hlines Hget).
  - exists languageCounts. split; [by destruct children|].
    rewrite decide_False; [by rewrite Nat.add_0_r|]. intros [_ [? ?]]. done.
  - exists languageCounts. split; [by destruct children|].
    rewrite decide_False; [by rewrite Nat.add_0_r|]. intros [? _]. done.
  - exists languageCounts. split; [by destruct children|].
    rewrite decide_False; [by rewrite Nat.add_0_r|]. intros [? _]. done.
Qed.

Lemma fold_table (children : list FileNode.t) :
  Forall (fun child =>
            ∀ counts : counts_t,
              total (processNodeSync child counts)
              = total counts + length (filter classifiedFile (descendants child)) ∧
              (NoDup (List.map fst counts) →
               NoDup (List.map fst (processNodeSync child counts))) ∧
              (Forall (fun stat => count_lines (snd stat) = 0) counts →
               Forall (fun stat => count_lines (snd stat) = 0)
                 (processNodeSync child counts)))
    children →
  ∀ counts : counts_t,
    total (fold_left (fun counts child => processNodeSync child counts) children counts)
    = total counts + length (filter classifiedFile (flat_map descendants children)) ∧
    (NoDup (List.map fst counts) →
     NoDup (List.map fst
              (fold_left (fun counts child => processNodeSync child counts)
                 children counts))) ∧
    (Forall (fun stat => count_lines (snd stat) = 0) counts →
     Forall (fun stat => count_lines (snd stat) = 0)
       (fold_left (fun counts child => processNodeSync child counts) children counts)).
Proof.
  induction 1 as [|child children Hchild _ IH]; intros counts.
  - simpl. by rewrite Nat.add_0_r.
  - cbn [fold_left flat_map]. destruct (Hchild counts) as (Hsum & Hdup & Hlines).
    destruct (IH (processNodeSync child counts)) as (Hsum' & Hdup' & Hlines').
    rewrite filter_app, length_app, Hsum', Hsum.
    split; [lia|]. split; auto.
Qed.

Lemma processNodeSync_table (node : FileNode.t) :
  ∀ counts : counts_t,
    total (processNodeSync node counts)
    = total counts + length (filter classifiedFile (descendants node)) ∧
    (NoDup (List.map fst counts) →
     NoDup (List.map fst (processNodeSync node counts))) ∧
    (Forall (fun stat => count_lines (snd stat) = 0) counts →
     Forall (fun stat => count_lines (snd stat) = 0) (processNodeSync node counts)).
Proof.
  induction node as [name path type size extension language
                    |name path type size extension language children IH]
    using FileNode_nested_ind; intros counts;
    match goal with
    | |- context [processNodeSync ?node _] =>
        destruct (processNodeSync_step node counts) as (stepped & -> & Hsum & Hdup & Hlines);
        rewrite (filter_descendants node)
    end;
    cbn [FileNode.children].
  - rewrite Hsum. simpl. split; [lia|done].
  - destruct (fold_table children IH stepped) as (Hsum' & Hdup' & Hlines').
    rewrite Hsum', Hsum. split; [lia|]. split; auto.
Qed.

Lemma analyzeLanguages_table (nodes : list FileNode.t) :
  countedFiles (analyzeLanguages nodes)
  = length (filter classifiedFile (treeNodes nodes)) ∧
  NoDup (List.map LanguageStats.language (analyzeLanguages nodes)) ∧
  Forall (fun stat => LanguageStats.lines stat = 0 ∧ 1 ≤ LanguageStats.files stat)
    (analyzeLanguages nodes).
Proof.
  unfold analyzeLanguages, countedFiles.
  destruct (fold_table nodes) with (counts := @nil (Language * LanguageCount))
    as (Hsum & Hdup & Hlines).
  { apply Forall_forall. intros node _. apply processNodeSync_table. }
  assert (counted (fold_left (fun counts node => processNodeSync node counts) nodes []))
    as Hcounted.
  { apply fold_children; [|by apply Forall_nil].
    apply Forall_forall. intros node _. apply processNodeSync_counted. }
  set (languageCounts := fold_left _ nodes []) in *.
  rewrite !List.map_map.
  split; [|split].
  - rewrite (map_ext _ (fun stat => count_files (snd stat)))
      by (by intros [language stats]).
    by rewrite Hsum.
  - rewrite (map_ext _ fst) by (by intros [language stats]).
    apply Hdup, NoDup_nil_2.
  - apply Forall_map. specialize (Hlines (Forall_nil_2 _)).
    unfold counted in Hcounted.
    pose proof (proj2 (Forall_and _ _) (conj Hlines Hcounted)) as Hboth.
    eapply Forall_impl; [exact Hboth|]. by intros [language stats].
Qed.

Lemma filter_length_impl {A : Type} (P Q : A → Prop)
  `{∀ x, Decision (P x)} `{∀ x, Decision (Q x)} (l : list A) :
  (∀ x, P x → Q x) → length (filter P l) ≤ length (filter Q l).
Proof.
  intros Himpl. induction l as [|x l IH]; [done|].
  rewrite !filter_cons. destruct (decide (P x)) as [HP|HP].
  - rewrite decide_True by auto. simpl. lia.
  - destruct (decide (Q x)); simpl; lia.
Qed.

(** X14.  In a scan result the [files] counters of the language table
    add up to the number of file nodes whose language is known, which is
    at most [totalFiles]; no language is listed twice, every listed
    language has at least one file, and every [lines] counter is 0. *)
Theorem language_table_counts_classified_files (E : Env) (projectPath : jsstring)
  (maxDepth : Z) (ps : ProjectStructure.t) :
  analyzeProjectStructure E projectPath maxDepth = Ok ps →
  countedFiles (ProjectStructure.languages ps)
  = length (filter classifiedFile (treeNodes (ProjectStructure.files ps))) ∧
  countedFiles (ProjectStructure.languages ps) ≤ ProjectStructure.totalFiles ps ∧
  NoDup (List.map LanguageStats.language (ProjectStructure.languages ps)) ∧
  ∀ stat, stat ∈ ProjectStructure.languages ps →
          LanguageStats.lines stat = 0 ∧ 1 ≤ LanguageStats.files stat.
Proof.
  intros (files & Hfiles & ->)%analyzeProjectStructure_Ok. simpl.
  destruct (analyzeLanguages_table files) as (Hsum & Hdup & Hstats).
  split; [done|]. split; [|split; [done|by apply Forall_forall]].
  rewrite Hsum, countFiles_fileKindNodes by (by eapply buildFileTree_Built).
  apply filter_length_impl. by intros node [? _].
Qed.

Lemma language_table_counts_classified_files_witness :
  ∃ ps,
    analyzeProjectStructure Sample.hiddenProject (js "/p") 10 = Ok ps ∧
    countedFiles (ProjectStructure.languages ps) = 1 ∧
    countedFiles (ProjectStructure.languages ps) ≤ ProjectStructure.totalFiles ps ∧
    NoDup (List.map LanguageStats.language (ProjectStructure.languages ps)).
Proof.
  destruct (analyzeProjectStructure Sample.hiddenProject (js "/p") 10)
    as [ps|] eqn:Hps; [|by vm_compute in Hps].
  exists ps. split; [done|].
  destruct (language_table_counts_classified_files _ _ _ _ Hps) as (_ & ? & ? & _).
  split; [|done]. by vm_compute in Hps; injection Hps as <-.
Defined.

End LanguageCounts.

(** ** The smell scans: where a reported smell comes from *)

Section Smells.

Import FileUtils CodeAnalyzer Shape.

Lemma smells_origin (E : Env) (projectPath : jsstring) (types : option (list jsstring))
  (smells : list CodeSmell.t) (s : CodeSmell.t) :
  detectCodeSmells E projectPath types = Ok smells → s ∈ smells →
  ∃ files f pushed,
    findFiles E projectPath codeExtensions = Ok files ∧ f ∈ files ∧
    fileSmells E types f = Ok pushed ∧ s ∈ pushed.
Proof.
  unfold detectCodeSmells.
  destruct (findFiles E projectPath codeExtensions) as [files|]; [|done].
  intros [= <-] Hin. exists files.
  assert (∀ acc,
            s ∈ fold_left (fun smells file =>
                             match fileSmells E types file with
                             | Ok pushed => smells ++ pushed
                             | Throw _ => smells
                             end) files acc →
            s ∈ acc ∨ ∃ f pushed, f ∈ files ∧ fileSmells E types f = Ok pushed ∧ s ∈ pushed)
    as Hfold.
  { clear Hin. induction files as [|file files IH]; intros acc; [by left|].
    simpl. intros [Hacc|(f & pushed & ? & ? & ?)]%IH.
    - destruct (fileSmells E types file) as [pushed|] eqn:Hfile; [|by left].
      apply elem_of_app in Hacc as [?|?]; [by left|].
      right. exists file, pushed. split; [by left|done].
    - right. exists f, pushed. split; [by right|done]. }
  apply Hfold in Hin as [?%elem_of_nil|(f & pushed & ? & ? & ?)]; [done|].
  by exists f, pushed.
Qed.

Lemma fileSmells_Ok (E : Env) (types : option (list jsstring)) (file : jsstring)
  (pushed : list CodeSmell.t) :
  fileSmells E types file = Ok pushed →
  ∃ content,
    readFile E file = Some content ∧
    pushed
    = (if enabled types "long-method"
       then longMethods file (detectLanguage file) (split_newline content) 0 else [])
      ++ (if enabled types "magic-number"
          then magicNumbers file (split_newline content) 0 else [])
      ++ (if enabled types "duplicate-code"
          then duplicates file (detectLanguage file) (split_newline content) 0 [] else [])
      ++ (if enabled types "large-file" && (largeFileThreshold <? length (split_newline content))
          then [largeFileSmell file (length (split_newline content))] else []).
Proof.
  unfold fileSmells, readFileContent.
  destruct (readFile E file) as [content|]; [|done].
  intros [= <-]. by exists content.
Qed.

(** *** Long methods *)

Lemma measureFunction_Some (language : Language) (rest : list jsstring) :
  ∀ inFunction functionLength braceCount n,
    measureFunction language rest inFunction functionLength braceCount = Some n →
    longMethodThreshold < n ∧ n ≤ functionLength + length rest.
Proof.
  induction rest as [|line rest IH]; intros inFunction functionLength braceCount n;
    cbn [measureFunction]; [done|].
  destruct (inFunction || isFunctionStart line language).
  - destruct (_ && _).
    + destruct (longMethodThreshold <? S functionLength) eqn:Hlong; [|done].
      intros [= <-]. apply Nat.ltb_lt in Hlong. simpl. lia.
    + intros [? ?]%IH. simpl. lia.
  - intros [? ?]%IH. simpl. lia.
Qed.

Lemma longMethods_elem (file : jsstring) (language : Language) (rest : list jsstring) :
  ∀ i s,
    s ∈ longMethods file language rest i →
    ∃ k line n,
      rest !! k = Some line ∧ isFunctionStart line language = true ∧
      s = longMethodSmell file (i + k) n ∧
      longMethodThreshold < n ∧ k + n ≤ length rest.
Proof.
  induction rest as [|line rest IH]; intros i s; cbn [longMethods];
    [by intros ?%elem_of_nil|].
  intros [Hhere|Hlater]%elem_of_app.
  - destruct (isFunctionStart line language) eqn:Hstart; [|by apply elem_of_nil in Hhere].
    destruct (measureFunction language (line :: rest) false 0 0) as [n|] eqn:Hn;
      [|by apply elem_of_nil in Hhere].
    apply list_elem_of_singleton in Hhere as ->.
    apply measureFunction_Some in Hn as [? ?].
    exists 0, line, n. rewrite Nat.add_0_r. done.
  - apply IH in Hlater as (k & l & n & ? & ? & -> & ? & ?).
    exists (S k), l, n. replace (i + S k) with (S i + k) by lia.
    split_and!; [done..|simpl; lia].
Qed.



(** *** Magic numbers *)

Lemma digitRuns_elem (line : jsstring) :
  ∀ prevWord run literal,
    match run with Some (_, digits) => Forall (fun c => RegExp.digit c = true) digits
              | None => True end →
    literal ∈ digitRuns line prevWord run →
    Forall (fun c => RegExp.digit c = true) literal ∧ 3 ≤ length literal ∧
    ∃ pre post,
      match run with Some (_, digits) => digits | None => [] end ++ line
      = pre ++ literal ++ post.
Proof.
  assert (∀ (run : option (bool * jsstring)) nextWord literal rest,
            match run with Some (_, digits) => Forall (fun c => RegExp.digit c = true) digits
                      | None => True end →
            literal ∈ match run with
                      | Some (true, digits) =>
                          if (3 <=? length digits) && negb nextWord then [digits] else []
                      | _ => []
                      end →
            Forall (fun c => RegExp.digit c = true) literal ∧ 3 ≤ length literal ∧
            ∃ pre post,
              match run with Some (_, digits) => digits | None => [] end ++ rest
              = pre ++ literal ++ post) as Hclose.
  { intros [[[] digits]|] nextWord literal rest Hrun; try by intros ?%elem_of_nil.
    destruct (3 <=? length digits) eqn:Hlong; [|by intros ?%elem_of_nil].
    destruct nextWord; [by intros ?%elem_of_nil|].
    intros ->%list_elem_of_singleton. apply Nat.leb_le in Hlong.
    split_and!; [done..|]. by exists [], rest. }
  induction line as [|c line IH]; intros prevWord run literal Hrun; cbn [digitRuns].
  - apply Hclose. done.
  - destruct (RegExp.digit c) eqn:Hdigit.
    + destruct run as [[bounded digits]|].
      * intros (? & ? & pre & post & Heq)%IH.
        -- split_and!; [done..|]. exists pre, post. by rewrite <- Heq, <- app_assoc.
        -- apply Forall_app. split; [done|]. by apply Forall_singleton.
      * intros (? & ? & pre & post & Heq)%IH; [|by apply Forall_singleton].
        split_and!; [done..|]. by exists pre, post.
    + intros [Hhere|Hlater]%elem_of_app.
      * exact (Hclose run _ literal (c :: line) Hrun Hhere).
      * apply IH in Hlater as (? & ? & pre & post & Heq); [|done].
        split_and!; [done..|]. simpl in Heq.
        exists (match run with Some (_, digits) => digits | None => [] end ++ c :: pre), post.
        rewrite Heq, <- app_assoc. done.
Qed.

Lemma magicNumbers_elem (file : jsstring) (rest : list jsstring) :
  ∀ index s,
    s ∈ magicNumbers file rest index →
    ∃ k line literal,
      rest !! k = Some line ∧ s = magicNumberSmell file (index + k) literal ∧
      literal ∈ digitRuns line false None ∧ (10 < parseInt literal)%N ∧
      includes line (js "//") = false ∧ includes line (js "const") = false ∧
      includes line (js "let") = false.
Proof.
  induction rest as [|line rest IH]; intros index s; cbn [magicNumbers];
    [by intros ?%elem_of_nil|].
  intros [Hhere|Hlater]%elem_of_app.
  - destruct (includes line (js "//")) eqn:?; [by apply elem_of_nil in Hhere|].
    destruct (includes line (js "const")) eqn:?; [by apply elem_of_nil in Hhere|].
    destruct (includes line (js "let")) eqn:?; [by apply elem_of_nil in Hhere|].
    cbn [negb andb] in Hhere.
    apply list_elem_of_In, in_map_iff in Hhere as (literal & <- & Hliteral).
    apply list_elem_of_In, list_elem_of_filter in Hliteral as [? ?].
    exists 0, line, literal. rewrite Nat.add_0_r. split_and!; done.
  - apply IH in Hlater as (k & l & literal & ? & -> & ? & ? & ? & ? & ?).
    exists (S k), l, literal. replace (index + S k) with (S index + k) by lia.
    split_and!; done.
Qed.

(** *** Duplicates *)

Lemma get_set {K V : Type} `{EqDecision K} (m : list (K * V)) (key key' : K) (value : V) :
  JsMap.get (JsMap.set m key value) key'
  = if decide (key = key') then Some value else JsMap.get m key'.
Proof.
  induction m as [|[k v] m IH]; simpl.
  - by destruct (decide (key = key')).
  - destruct (decide (k = key)) as [->|Hne]; simpl.
    + by destruct (decide (key = key')).
    + destruct (decide (k = key')) as [->|Hne'].
      * by rewrite decide_False by done.
      * done.
Qed.

Lemma drop_lookup_cons {A : Type} (l : list A) (i : nat) (x : A) (rest : list A) :
  drop i l = x :: rest → l !! i = Some x ∧ drop (S i) l = rest.
Proof.
  revert i. induction l as [|y l IH]; intros [|i]; simpl; try done.
  - by intros [= -> ->].
  - apply IH.
Qed.

Lemma duplicates_elem (file : jsstring) (language : Language) (lines : list jsstring)
  (rest : list jsstring) :
  ∀ i functionBodies s,
    drop i lines = rest →
    (∀ key existing,
       JsMap.get functionBodies key = Some existing →
       ∃ k line, k < i ∧ fst existing = k + 1 ∧ lines !! k = Some line ∧
                 isFunctionStart line language = true ∧
                 key = fingerprint (drop k lines)) →
    s ∈ duplicates file language rest i functionBodies →
    ∃ j k line earlier,
      k < j ∧ s = duplicateSmell file j (k + 1) ∧
      lines !! j = Some line ∧ isFunctionStart line language = true ∧
      lines !! k = Some earlier ∧ isFunctionStart earlier language = true ∧
      fingerprint (drop j lines) = fingerprint (drop k lines).
Proof.
  induction rest as [|line rest IH]; intros i functionBodies s Hrest Hbodies;
    cbn [duplicates]; [by intros ?%elem_of_nil|].
  destruct (drop_lookup_cons _ _ _ _ Hrest) as [Hline Hnext].
  assert (∀ key existing,
            JsMap.get functionBodies key = Some existing →
            ∃ k line, k < S i ∧ fst existing = k + 1 ∧ lines !! k = Some line ∧
                      isFunctionStart line language = true ∧
                      key = fingerprint (drop k lines)) as Hbodies'.
  { intros key existing (k & l & ? & ?)%Hbodies. exists k, l. split; [lia|done]. }
  destruct (isFunctionStart line language) eqn:Hstart; [|by apply IH].
  change (trim (collapseSpaces (join_newline (take 20 (line :: rest))) false))
    with (fingerprint (line :: rest)).
  destruct (JsMap.get functionBodies (fingerprint (line :: rest))) as [existing|] eqn:Hget.
  - intros [->|Hlater]%elem_of_cons; [|by apply (IH (S i) functionBodies)].
    apply Hbodies in Hget as (k & earlier & ? & -> & ? & ? & Hsame).
    exists i, k, line, earlier. rewrite Hrest. done.
  - apply IH; [done|].
    intros key existing. rewrite get_set.
    destruct (decide (fingerprint (line :: rest) = key)) as [<-|_]; [|by apply Hbodies'].
    intros [= <-]. exists i, line. rewrite Hrest. split_and!; [lia|done..].
Qed.

(** X15.  Every smell that detectCodeSmells reports names a file that
    findFiles found and that could be read; its type is one of the four, and
    one that the [types] argument asked for (all four when it is absent);
    a Large File smell has no line, and the line of any other smell is a
    line of the file. *)
Theorem smells_are_well_formed (E : Env) (projectPath : jsstring)
  (types : option (list jsstring)) (smells : list CodeSmell.t) (s : CodeSmell.t) :
  detectCodeSmells E projectPath types = Ok smells →
  s ∈ smells →
  ∃ files content label asked,
    findFiles E projectPath codeExtensions = Ok files ∧
    CodeSmell.file s ∈ files ∧
    readFile E (CodeSmell.file s) = Some content ∧
    (label, asked) ∈ smellKinds ∧
    CodeSmell.type s = js label ∧
    enabled types asked = true ∧
    match CodeSmell.line s with
    | Some l => label ≠ "Large File"%string ∧ 1 ≤ l ≤ length (split_newline content)
    | None => label = "Large File"%string
    end.
Proof.
  intros Hsmells Hin.
  destruct (smells_origin E projectPath types smells s Hsmells Hin)
    as (files & f & pushed & Hfiles & Hf & Hpushed & Hs).
  apply fileSmells_Ok in Hpushed as (content & Hread & ->).
  exists files, content.
  apply elem_of_app in Hs as [Hs|Hs]; [|apply elem_of_app in Hs as [Hs|Hs];
                                        [|apply elem_of_app in Hs as [Hs|Hs]]].
  - destruct (enabled types "long-method") eqn:Hasked; [|by apply elem_of_nil in Hs].
    apply longMethods_elem in Hs as (k & line & n & Hk%lookup_lt_Some & _ & -> & _).
    exists "Long Method"%string, "long-method"%string. simpl.
    split_and!; try done; [set_solver|lia..].
  - destruct (enabled types "magic-number") eqn:Hasked; [|by apply elem_of_nil in Hs].
    apply magicNumbers_elem in Hs as (k & line & n & Hk%lookup_lt_Some & -> & _).
    exists "Magic Number"%string, "magic-number"%string. simpl.
    split_and!; try done; [set_solver|lia..].
  - destruct (enabled types "duplicate-code") eqn:Hasked; [|by apply elem_of_nil in Hs].
    apply (duplicates_elem f (detectLanguage f) (split_newline content)) in Hs
      as (j & k & line & earlier & _ & -> & Hj%lookup_lt_Some & _); [|done|done].
    exists "Duplicate Code"%string, "duplicate-code"%string. simpl.
    split_and!; try done; [set_solver|lia..].
  - destruct (enabled types "large-file") eqn:Hasked; [|by apply elem_of_nil in Hs].
    destruct (largeFileThreshold <? _); [|by apply elem_of_nil in Hs].
    apply list_elem_of_singleton in Hs as ->.
    exists "Large File"%string, "large-file"%string. simpl.
    split_and!; try done. set_solver.
Qed.

Lemma smells_are_well_formed_witness :
  ∃ smells,
    detectCodeSmells Cases.smellyProject (js "/s") None = Ok smells ∧
    Cases.twiceSmell ∈ smells ∧
    ∃ files content label asked,
      findFiles Cases.smellyProject (js "/s") codeExtensions = Ok files ∧
      CodeSmell.file Cases.twiceSmell ∈ files ∧
      readFile Cases.smellyProject (CodeSmell.file Cases.twiceSmell) = Some content ∧
      (label, asked) ∈ smellKinds ∧
      CodeSmell.type Cases.twiceSmell = js label ∧
      enabled None asked = true ∧
      match CodeSmell.line Cases.twiceSmell with
      | Some l => label ≠ "Large File"%string ∧ 1 ≤ l ≤ length (split_newline content)
      | None => label = "Large File"%string
      end.
Proof.
  destruct (detectCodeSmells Cases.smellyProject (js "/s") None)
    as [smells|] eqn:Hsmells; [|by vm_compute in Hsmells].
  assert (Cases.twiceSmell ∈ smells) as Hin.
  { pose proof Hsmells as Hlist. vm_compute in Hlist. injection Hlist as <-.
    apply list_elem_of_In. vm_compute. tauto. }
  exists smells. split; [done|]. split; [done|].
  exact (smells_are_well_formed _ _ _ _ _ Hsmells Hin).
Defined.

End Smells.

(** ** The smell scans: what each kind of smell tells *)

Section SmellKinds.

Import FileUtils CodeAnalyzer Shape.

Lemma smell_by_type (E : Env) (projectPath : jsstring) (types : option (list jsstring))
  (smells : list CodeSmell.t) (s : CodeSmell.t) :
  detectCodeSmells E projectPath types = Ok smells → s ∈ smells →
  ∃ content,
    readFile E (CodeSmell.file s) = Some content ∧
    ((CodeSmell.type s = js "Long Method" ∧
      s ∈ longMethods (CodeSmell.file s) (detectLanguage (CodeSmell.file s))
            (split_newline content) 0)
     ∨ (CodeSmell.type s = js "Magic Number" ∧
        s ∈ magicNumbers (CodeSmell.file s) (split_newline content) 0)
     ∨ (CodeSmell.type s = js "Duplicate Code" ∧
        s ∈ duplicates (CodeSmell.file s) (detectLanguage (CodeSmell.file s))
              (split_newline content) 0 [])
     ∨ (CodeSmell.type s = js "Large File" ∧
        s = largeFileSmell (CodeSmell.file s) (length (split_newline content)))).
Proof.
  intros Hsmells Hin.
  destruct (smells_origin E projectPath types smells s Hsmells Hin)
    as (files & f & pushed & _ & _ & Hpushed & Hs).
  apply fileSmells_Ok in Hpushed as (content & Hread & ->).
  exists content.
  apply elem_of_app in Hs as [Hs|Hs]; [|apply elem_of_app in Hs as [Hs|Hs];
                                        [|apply elem_of_app in Hs as [Hs|Hs]]].
  - destruct (enabled types "long-method"); [|by apply elem_of_nil in Hs].
    destruct (longMethods_elem _ _ _ _ _ Hs) as (k & line & n & _ & _ & Heq & _).
    assert (CodeSmell.file s = f) as -> by (by rewrite Heq).
    split; [done|]. left. by rewrite Heq at 1.
  - destruct (enabled types "magic-number"); [|by apply elem_of_nil in Hs].
    destruct (magicNumbers_elem _ _ _ _ Hs) as (k & line & n & _ & Heq & _).
    assert (CodeSmell.file s = f) as -> by (by rewrite Heq).
    split; [done|]. right; left. by rewrite Heq at 1.
  - destruct (enabled types "duplicate-code"); [|by apply elem_of_nil in Hs].
    destruct (duplicates_elem f (detectLanguage f) (split_newline content) _ 0 [] s
                eq_refl) as (j & k & line & earlier & _ & Heq & _); [done|done|].
    assert (CodeSmell.file s = f) as -> by (by rewrite Heq).
    split; [done|]. right; right; left. by rewrite Heq at 1.
  - destruct (_ && _); [|by apply elem_of_nil in Hs].
    apply list_elem_of_singleton in Hs as ->. split; [done|].
    right; right; right. done.
Qed.

Local Ltac other_kind :=
  match goal with
  | Htype : CodeSmell.type ?s = _, Hother : CodeSmell.type ?s = _ |- _ =>
      rewrite Hother in Htype; by vm_compute in Htype
  end.

(** X16.  A Magic Number smell stands for a run of at least three
    decimal digits, of value above 10, that occurs in the line the smell
    names; that line contains neither [//] nor [const] nor [let], in
    whatever word.  Its severity is low. *)
Theorem magic_number_smells (E : Env) (projectPath : jsstring)
  (types : option (list jsstring)) (smells : list CodeSmell.t) (s : CodeSmell.t) :
  detectCodeSmells E projectPath types = Ok smells →
  s ∈ smells →
  CodeSmell.type s = js "Magic Number" →
  ∃ content i line literal,
    readFile E (CodeSmell.file s) = Some content ∧
    split_newline content !! i = Some line ∧
    CodeSmell.line s = Some (i + 1) ∧
    CodeSmell.message s = MagicNumberDetected literal ∧
    CodeSmell.severity s = severity_low ∧
    Forall (fun c => RegExp.digit c = true) literal ∧
    3 ≤ length literal ∧ (10 < parseInt literal)%N ∧
    includes line literal = true ∧
    includes line (js "//") = false ∧ includes line (js "const") = false ∧
    includes line (js "let") = false.
Proof.
  intros Hsmells Hin Htype.
  destruct (smell_by_type E projectPath types smells s Hsmells Hin)
    as (content & Hread & [[Hother _]|[[_ Hs]|[[Hother _]|[Hother _]]]]);
    try other_kind.
  apply magicNumbers_elem in Hs as (i & line & literal & Hline & -> & Hrun & ? & ? & ? & ?).
  apply digitRuns_elem in Hrun as (? & ? & pre & post & Hoccurs); [|done].
  exists content, i, line, literal. simpl in Hoccurs.
  split_and!; try done. rewrite Hoccurs. apply includes_app.
Qed.

(** X17.  A Long Method smell names a line that isFunctionStart accepts
    for the language of the file; the length it reports is above 50 and
    does not reach past the end of the file, and its severity is high
    exactly when the length is above 100. *)
Theorem long_method_smells (E : Env) (projectPath : jsstring)
  (types : option (list jsstring)) (smells : list CodeSmell.t) (s : CodeSmell.t) :
  detectCodeSmells E projectPath types = Ok smells →
  s ∈ smells →
  CodeSmell.type s = js "Long Method" →
  ∃ content i line functionLength,
    readFile E (CodeSmell.file s) = Some content ∧
    split_newline content !! i = Some line ∧
    isFunctionStart line (detectLanguage (CodeSmell.file s)) = true ∧
    CodeSmell.line s = Some (i + 1) ∧
    CodeSmell.message s = FunctionIsLinesLong functionLength 50 ∧
    50 < functionLength ∧
    i + functionLength ≤ length (split_newline content) ∧
    (CodeSmell.severity s = severity_high ↔ 100 < functionLength).
Proof.
  intros Hsmells Hin Htype.
  destruct (smell_by_type E projectPath types smells s Hsmells Hin)
    as (content & Hread & [[_ Hs]|[[Hother _]|[[Hother _]|[Hother _]]]]);
    try other_kind.
  apply longMethods_elem in Hs as (i & line & n & Hline & Hstart & Heq & Hlong & Hend).
  exists content, i, line, n. rewrite Heq in *. simpl in *.
  split_and!; try done.
  destruct (100 <? n) eqn:Hhigh.
  - apply Nat.ltb_lt in Hhigh. done.
  - apply Nat.ltb_ge in Hhigh. split; [done|lia].
Qed.


(** X19.  A Duplicate Code smell names a line that isFunctionStart
    accepts and points back to an earlier such line of the same file;
    the twenty lines from either one are equal once runs of white space
    are collapsed. *)
Theorem duplicate_code_smells (E : Env) (projectPath : jsstring)
  (types : option (list jsstring)) (smells : list CodeSmell.t) (s : CodeSmell.t) :
  detectCodeSmells E projectPath types = Ok smells →
  s ∈ smells →
  CodeSmell.type s = js "Duplicate Code" →
  ∃ content j k line earlier,
    readFile E (CodeSmell.file s) = Some content ∧
    k < j ∧
    split_newline content !! j = Some line ∧
    split_newline content !! k = Some earlier ∧
    isFunctionStart line (detectLanguage (CodeSmell.file s)) = true ∧
    isFunctionStart earlier (detectLanguage (CodeSmell.file s)) = true ∧
    CodeSmell.line s = Some (j + 1) ∧
    CodeSmell.message s = SimilarCodeFoundAtLine (k + 1) ∧
    fingerprint (drop j (split_newline content))
    = fingerprint (drop k (split_newline content)).
Proof.
  intros Hsmells Hin Htype.
  destruct (smell_by_type E projectPath types smells s Hsmells Hin)
    as (content & Hread & [[Hother _]|[[Hother _]|[[_ Hs]|[Hother _]]]]);
    try other_kind.
  apply (duplicates_elem _ _ (split_newline content)) in Hs
    as (j & k & line & earlier & ? & Heq & ? & ? & ? & ? & ?); [|done|done].
  exists content, j, k, line, earlier. rewrite Heq in *. simpl in *.
  split_and!; done.
Qed.

Lemma magic_number_smells_witness :
  ∃ smells,
    detectCodeSmells Cases.smellyProject (js "/s") None = Ok smells ∧
    Cases.numberSmell ∈ smells ∧
    ∃ content i line literal,
      readFile Cases.smellyProject (CodeSmell.file Cases.numberSmell) = Some content ∧
      split_newline content !! i = Some line ∧
      CodeSmell.line Cases.numberSmell = Some (i + 1) ∧
      CodeSmell.message Cases.numberSmell = MagicNumberDetected literal ∧
      CodeSmell.severity Cases.numberSmell = severity_low ∧
      Forall (fun c => RegExp.digit c = true) literal ∧
      3 ≤ length literal ∧ (10 < parseInt literal)%N ∧
      includes line literal = true ∧
      includes line (js "//") = false ∧ includes line (js "const") = false ∧
      includes line (js "let") = false.
Proof.
  destruct (detectCodeSmells Cases.smellyProject (js "/s") None)
    as [smells|] eqn:Hsmells; [|by vm_compute in Hsmells].
  assert (Cases.numberSmell ∈ smells) as Hin.
  { pose proof Hsmells as Hlist. vm_compute in Hlist. injection Hlist as <-.
    apply list_elem_of_In. vm_compute. tauto. }
  exists smells. split; [done|]. split; [done|].
  exact (magic_number_smells _ _ _ _ _ Hsmells Hin eq_refl).
Defined.

Lemma long_method_smells_witness :
  ∃ smells,
    detectCodeSmells Cases.smellyProject (js "/s") None = Ok smells ∧
    Cases.longSmell ∈ smells ∧
    ∃ content i line functionLength,
      readFile Cases.smellyProject (CodeSmell.file Cases.longSmell) = Some content ∧
      split_newline content !! i = Some line ∧
      isFunctionStart line (detectLanguage (CodeSmell.file Cases.longSmell)) = true ∧
      CodeSmell.line Cases.longSmell = Some (i + 1) ∧
      CodeSmell.message Cases.longSmell = FunctionIsLinesLong functionLength 50 ∧
      50 < functionLength ∧
      i + functionLength ≤ length (split_newline content) ∧
      (CodeSmell.severity Cases.longSmell = severity_high ↔ 100 < functionLength).
Proof.
  destruct (detectCodeSmells Cases.smellyProject (js "/s") None)
    as [smells|] eqn:Hsmells; [|by vm_compute in Hsmells].
  assert (Cases.longSmell ∈ smells) as Hin.
  { pose proof Hsmells as Hlist. vm_compute in Hlist. injection Hlist as <-.
    apply list_elem_of_In. vm_compute. tauto. }
  exists smells. split; [done|]. split; [done|].
  exact (long_method_smells _ _ _ _ _ Hsmells Hin eq_refl).
Defined.


Lemma duplicate_code_smells_witness :
  ∃ smells,
    detectCodeSmells Cases.smellyProject (js "/s") None = Ok smells ∧
    Cases.twiceSmell ∈ smells ∧
    ∃ content j k line earlier,
      readFile Cases.smellyProject (CodeSmell.file Cases.twiceSmell) = Some content ∧
      k < j ∧
      split_newline content !! j = Some line ∧
      split_newline content !! k = Some earlier ∧
      isFunctionStart line (detectLanguage (CodeSmell.file Cases.twiceSmell)) = true ∧
      isFunctionStart earlier (detectLanguage (CodeSmell.file Cases.twiceSmell)) = true ∧
      CodeSmell.line Cases.twiceSmell = Some (j + 1) ∧
      CodeSmell.message Cases.twiceSmell = SimilarCodeFoundAtLine (k + 1) ∧
      fingerprint (drop j (split_newline content))
      = fingerprint (drop k (split_newline content)).
Proof.
  destruct (detectCodeSmells Cases.smellyProject (js "/s") None)
    as [smells|] eqn:Hsmells; [|by vm_compute in Hsmells].
  assert (Cases.twiceSmell ∈ smells) as Hin.
  { pose proof Hsmells as Hlist. vm_compute in Hlist. injection Hlist as <-.
    apply list_elem_of_In. vm_compute. tauto. }
  exists smells. split; [done|]. split; [done|].
  exact (duplicate_code_smells _ _ _ _ _ Hsmells Hin eq_refl).
Defined.

End SmellKinds.

(** ** Test coverage: the file list, and why test files lower the figure *)

Section CoverageShape.

Import FileUtils CodeAnalyzer Spec.

(** X20.  The [files] list of a coverage result has one entry per code
    file, in the order findFiles gave them, each with coverage 0 or 100;
    [covered] counts the entries with 100; a missing file has an entry
    with 0; covered and missing files together are at most [total]. *)
Theorem coverage_lists_follow_code_files (E : Env) (projectPath : jsstring)
  (tc : TestCoverage.t) :
  analyzeTestCoverage E projectPath = Ok tc →
  ∃ codeFiles,
    findFiles E projectPath codeExtensions = Ok codeFiles ∧
    List.map FileCoverage.file (TestCoverage.files tc) = codeFiles ∧
    (∀ entry, entry ∈ TestCoverage.files tc →
              FileCoverage.coverage entry = 0 ∨ FileCoverage.coverage entry = 100) ∧
    TestCoverage.covered tc
    = length (filter (fun entry => FileCoverage.coverage entry = 100)
                (TestCoverage.files tc)) ∧
    (∀ f, f ∈ TestCoverage.missing tc → FileCoverage.mk f 0 ∈ TestCoverage.files tc) ∧
    TestCoverage.covered tc + length (TestCoverage.missing tc) ≤ TestCoverage.total tc.
Proof.
  intros (codeFiles & testFiles & Hcode & _ & Htotal & Hcovered & _ & Hfiles & Hmissing)
    %analyzeTestCoverage_Ok.
  exists codeFiles. split; [done|].
  rewrite Hfiles, Hcovered, Hmissing, Htotal.
  set (testFileMap := list_to_set (List.map testBase testFiles) : gset jsstring).
  split_and!.
  - rewrite List.map_map. simpl. apply map_id.
  - intros entry (f & <- & _)%list_elem_of_In%in_map_iff. simpl.
    destruct (has testFileMap (sourceBase f)); auto.
  - clear. induction codeFiles as [|f codeFiles IH]; [done|].
    cbn [List.filter List.map]. rewrite filter_cons. cbn [FileCoverage.coverage].
    destruct (has testFileMap (sourceBase f)).
    + rewrite decide_True by done. simpl. by f_equal.
    + by rewrite decide_False by done.
  - intros f [Hf Hnot%andb_true_iff]%list_elem_of_In%filter_In.
    destruct Hnot as [Hnot%negb_true_iff _].
    apply list_elem_of_In, in_map_iff. exists f. by rewrite Hnot.
  - clear. induction codeFiles as [|f codeFiles IH]; [done|].
    cbn [List.filter]. destruct (has testFileMap (sourceBase f)); simpl.
    + lia.
    + destruct (negb (looksLikeTest f)); simpl; lia.
Qed.

Lemma replaceSuffix_length_le (alts : list jsstring) (s : jsstring) :
  length (replaceSuffix alts s) ≤ length s.
Proof.
  induction s as [|c s IH]; rewrite replaceSuffix_unfold;
    destruct (existsb _ alts); simpl; lia.
Qed.

(** Deleting a suffix takes away no more than the longest alternative. *)
Lemma replaceSuffix_length_ge (alts : list jsstring) (longest : nat) (s : jsstring) :
  Forall (fun alt => length alt ≤ longest) alts →
  length s ≤ length (replaceSuffix alts s) + longest.
Proof.
  intros Halts. induction s as [|c s IH]; rewrite replaceSuffix_unfold.
  - destruct (existsb _ alts); simpl; lia.
  - destruct (existsb _ alts) eqn:Hmatch; [|simpl; lia].
    apply existsb_exists in Hmatch as (alt & Halt & <-%bool_decide_eq_true).
    apply list_elem_of_In in Halt.
    apply (proj1 (Forall_forall _ _) Halts) in Halt. simpl in *. lia.
Qed.

(** An ending that is one of the alternatives is deleted, or more. *)
Lemma replaceSuffix_length_strip (alts : list jsstring) (ending : jsstring) :
  existsb (eqb ending) alts = true →
  ∀ stem, length (replaceSuffix alts (stem ++ ending)) ≤ length stem.
Proof.
  intros Hending. induction stem as [|c stem IH].
  - rewrite replaceSuffix_unfold. simpl. by rewrite Hending.
  - change ((c :: stem) ++ ending) with (c :: (stem ++ ending)).
    rewrite replaceSuffix_unfold.
    destruct (existsb (eqb (c :: stem ++ ending)) alts); cbn [length]; lia.
Qed.

(** Nothing is deleted, or at least as much as the shortest alternative. *)
Lemma replaceSuffix_length_cases (alts : list jsstring) (shortest : nat) (s : jsstring) :
  Forall (fun alt => shortest ≤ length alt) alts →
  replaceSuffix alts s = s ∨ length (replaceSuffix alts s) + shortest ≤ length s.
Proof.
  intros Halts. induction s as [|c s IH]; rewrite replaceSuffix_unfold.
  - destruct (existsb _ alts) eqn:Hmatch; [|by left].
    apply existsb_exists in Hmatch as (alt & Halt & <-%bool_decide_eq_true).
    apply list_elem_of_In in Halt.
    apply (proj1 (Forall_forall _ _) Halts) in Halt. right. simpl in *. lia.
  - destruct (existsb _ alts) eqn:Hmatch.
    + apply existsb_exists in Hmatch as (alt & Halt & <-%bool_decide_eq_true).
      apply list_elem_of_In in Halt.
      apply (proj1 (Forall_forall _ _) Halts) in Halt. right. simpl in *. lia.
    + destruct IH as [->|IH]; [by left|]. right. simpl. lia.
Qed.

Lemma sourceBase_length (f : jsstring) : length f ≤ length (sourceBase f) + 5.
Proof.
  apply replaceSuffix_length_ge.
  repeat (apply Forall_cons; split; [vm_compute; lia|]). apply Forall_nil_2.
Qed.

Lemma testBase_length (t : jsstring) :
  namedLikeTest t → length (testBase t) + 8 ≤ length t.
Proof.
  intros (suffix & Hsuffix & (stem & ->)%endsWith_inv).
  unfold testBase.
  set (first := [js ".test.js"; js ".test.ts"; js ".spec.js"; js ".spec.ts"]).
  set (second := [js "_test.py"; js "_test.go"; js "_test.rs"]).
  set (third := [js "Test.java"]).
  assert (Forall (fun alt => 8 ≤ length alt) first) as Hfirst
    by (repeat (apply Forall_cons; split; [vm_compute; lia|]); apply Forall_nil_2).
  assert (Forall (fun alt => 8 ≤ length alt) second) as Hsecond
    by (repeat (apply Forall_cons; split; [vm_compute; lia|]); apply Forall_nil_2).
  pose proof (replaceSuffix_length_le third
                (replaceSuffix second (replaceSuffix first (stem ++ suffix)))) as Hle3.
  pose proof (replaceSuffix_length_le second (replaceSuffix first (stem ++ suffix)))
    as Hle2.
  pose proof (replaceSuffix_length_le first (stem ++ suffix)) as Hle1.
  destruct (replaceSuffix_length_cases first 8 (stem ++ suffix) Hfirst) as [Hsame1|?];
    [|lia].
  destruct (replaceSuffix_length_cases second 8 (replaceSuffix first (stem ++ suffix))
              Hsecond) as [Hsame2|?]; [|lia].
  vm_compute in Hsuffix. apply list_elem_of_In in Hsuffix. simpl in Hsuffix.
  repeat destruct Hsuffix as [<-|Hsuffix]; try done;
    match goal with
    | |- context [stem ++ ?ending] =>
        first
          [ pose proof (replaceSuffix_length_strip first ending eq_refl stem) as Hstrip
          | pose proof (replaceSuffix_length_strip second ending eq_refl stem) as Hstrip
          | pose proof (replaceSuffix_length_strip third ending eq_refl stem) as Hstrip ]
    end;
    rewrite ?Hsame1 in *; rewrite ?Hsame2 in *; rewrite ?length_app in *;
    cbn [length] in *; lia.
Qed.

Lemma longest_exists (files : list jsstring) :
  files ≠ [] → ∃ t, t ∈ files ∧ ∀ t', t' ∈ files → length t' ≤ length t.
Proof.
  induction files as [|f files IH]; [done|]. intros _.
  destruct files as [|g files].
  - exists f. split; [by left|]. by intros t' ->%list_elem_of_singleton.
  - destruct IH as (t & Ht & Hlongest); [done|].
    destruct (decide (length t ≤ length f)).
    + exists f. split; [by left|].
      intros t' [->|Hin%Hlongest]%elem_of_cons; lia.
    + exists t. split; [by right|].
      intros t' [->|Hin%Hlongest]%elem_of_cons; lia.
Qed.

Lemma filter_length_lt {A : Type} (P : A → bool) (l : list A) (x : A) :
  x ∈ l → P x = false → length (List.filter P l) < length l.
Proof.
  induction 1 as [x l|x y l Hin IH]; intros Hx; simpl.
  - rewrite Hx. pose proof (filter_length_le P l). lia.
  - specialize (IH Hx). destruct (P y); simpl; lia.
Qed.

Lemma ratio_below (n d : nat) : n < d → (FileAnalyzer.ratio n d * 100 < 100)%Q.
Proof.
  intros Hlt. unfold FileAnalyzer.ratio.
  assert (0 < inject_Z (Z.of_nat d))%Q as Hd.
  { change 0%Q with (inject_Z 0). rewrite <- Zlt_Qlt. lia. }
  assert (inject_Z (Z.of_nat n) / inject_Z (Z.of_nat d) < 1)%Q as Hone.
  { apply Qlt_shift_div_r; [done|]. rewrite Qmult_1_l, <- Zlt_Qlt. lia. }
  apply (Qlt_le_trans _ (1 * 100)%Q); [|by unfold Qle; simpl; lia].
  apply Qmult_lt_compat_r; [done|]. done.
Qed.

(** X21.  When every test file that the test patterns select is also
    among the code files (as it is when glob matches by name: each test
    pattern ends in a code extension) and at least one is found, some
    code file is not covered: the percentage stays below 100. *)
Theorem coverage_stays_below_100_with_tests (E : Env) (projectPath : jsstring)
  (tc : TestCoverage.t) (codeFiles testFiles : list jsstring) :
  findFiles E projectPath codeExtensions = Ok codeFiles →
  findFiles E projectPath testPatterns = Ok testFiles →
  analyzeTestCoverage E projectPath = Ok tc →
  testFiles ≠ [] →
  (∀ t, t ∈ testFiles → namedLikeTest t ∧ t ∈ codeFiles) →
  TestCoverage.covered tc < TestCoverage.total tc ∧
  (TestCoverage.percentage tc < 100)%Q.
Proof.
  intros Hcode Htest
    (codeFiles' & testFiles' & Hcode' & Htest' & Htotal & Hcovered & Hpercent & _)
    %analyzeTestCoverage_Ok Hsome Hnamed.
  assert (codeFiles' = codeFiles) as -> by congruence.
  assert (testFiles' = testFiles) as -> by congruence.
  destruct (longest_exists testFiles Hsome) as (t & Ht & Hlongest).
  destruct (Hnamed t Ht) as [_ Hcodefile].
  assert (has (list_to_set (List.map testBase testFiles)) (sourceBase t) = false)
    as Huncovered.
  { apply not_true_iff_false. intros (t' & Ht' & Hbase)%has_testFileMap.
    pose proof (testBase_length t' (proj1 (Hnamed t' Ht'))).
    pose proof (sourceBase_length t). apply Hlongest in Ht'.
    rewrite Hbase in *. lia. }
  assert (TestCoverage.covered tc < TestCoverage.total tc) as Hlt.
  { rewrite Hcovered, Htotal.
    by apply (filter_length_lt
                (fun file => has (list_to_set (List.map testBase testFiles))
                               (sourceBase file)) codeFiles t). }
  split; [done|]. rewrite Hpercent, <- Htotal, <- Hcovered.
  replace (0 <? TestCoverage.total tc) with true by (symmetry; apply Nat.ltb_lt; lia).
  by apply ratio_below.
Qed.

Lemma coverage_lists_follow_code_files_witness :
  ∃ tc,
    analyzeTestCoverage Sample.plainProject (js "/srv/app") = Ok tc ∧
    ∃ codeFiles,
      findFiles Sample.plainProject (js "/srv/app") codeExtensions = Ok codeFiles ∧
      List.map FileCoverage.file (TestCoverage.files tc) = codeFiles ∧
      (∀ entry, entry ∈ TestCoverage.files tc →
                FileCoverage.coverage entry = 0 ∨ FileCoverage.coverage entry = 100) ∧
      TestCoverage.covered tc
      = length (filter (fun entry => FileCoverage.coverage entry = 100)
                  (TestCoverage.files tc)) ∧
      (∀ f, f ∈ TestCoverage.missing tc →
            FileCoverage.mk f 0 ∈ TestCoverage.files tc) ∧
      TestCoverage.covered tc + length (TestCoverage.missing tc)
      ≤ TestCoverage.total tc.
Proof.
  destruct (analyzeTestCoverage Sample.plainProject (js "/srv/app"))
    as [tc|] eqn:Htc; [|by vm_compute in Htc].
  exists tc. split; [done|].
  exact (coverage_lists_follow_code_files _ _ _ Htc).
Defined.

Lemma coverage_stays_below_100_with_tests_witness :
  let codeFiles :=
    [js "/srv/app/big.js"; js "/srv/app/foo.js"; js "/srv/app/foo.test.js"] in
  let testFiles := [js "/srv/app/foo.test.js"] in
  findFiles Sample.plainProject (js "/srv/app") codeExtensions = Ok codeFiles ∧
  findFiles Sample.plainProject (js "/srv/app") testPatterns = Ok testFiles ∧
  ∃ tc,
    analyzeTestCoverage Sample.plainProject (js "/srv/app") = Ok tc ∧
    TestCoverage.covered tc < TestCoverage.total tc ∧
    (TestCoverage.percentage tc < 100)%Q.
Proof.
  intros codeFiles testFiles.
  assert (findFiles Sample.plainProject (js "/srv/app") codeExtensions = Ok codeFiles)
    as Hcode by (vm_compute; reflexivity).
  assert (findFiles Sample.plainProject (js "/srv/app") testPatterns = Ok testFiles)
    as Htest by (vm_compute; reflexivity).
  split; [exact Hcode|]. split; [exact Htest|].
  destruct (analyzeTestCoverage Sample.plainProject (js "/srv/app"))
    as [tc|] eqn:Htc; [|by vm_compute in Htc].
  exists tc. split; [done|].
  apply (coverage_stays_below_100_with_tests _ _ _ _ _ Hcode Htest Htc); [done|].
  intros t Ht. apply list_elem_of_In in Ht. simpl in Ht. destruct Ht as [<-|[]].
  split.
  - exists (js ".test.js"). split; [|by vm_compute].
    apply list_elem_of_In. vm_compute. tauto.
  - apply list_elem_of_In. vm_compute. tauto.
Defined.

End CoverageShape.

(** ** Project metrics *)

Section MetricsShape.

Import FileUtils FileAnalyzer Spec Shape ProjectMetrics.

Lemma split_newline_length (content : jsstring) :
  length (split_newline content) = S (lineFeeds content).
Proof.
  unfold lineFeeds. induction content as [|c content IH]; [done|].
  cbn [split_newline]. rewrite filter_cons.
  destruct (c =? 10)%N eqn:Hc.
  - apply N.eqb_eq in Hc. rewrite decide_True by done. simpl. by rewrite IH.
  - apply N.eqb_neq in Hc. rewrite decide_False by done.
    destruct (split_newline content); simpl in *; lia.
Qed.

(** X22.  getFileStats succeeds exactly when both [fs.stat] and the read
    succeed; the line count it then reports is one more than the number
    of line feeds of the text, so at least 1, also for an empty file. *)
Theorem getFileStats_counts_line_feeds (E : Env) (stat : jsstring → option N)
  (filePath : jsstring) (size : N) (lines : nat) :
  getFileStats E stat filePath = Some (size, lines)
  ↔ stat filePath = Some size ∧
    ∃ content, readFile E filePath = Some content ∧ lines = S (lineFeeds content).
Proof.
  unfold getFileStats, readFileContent. split.
  - destruct (stat filePath) as [size'|]; [|done].
    destruct (readFile E filePath) as [content|]; [|done].
    intros [= <- <-]. split; [done|]. exists content. by rewrite split_newline_length.
  - intros [-> (content & -> & ->)]. by rewrite split_newline_length.
Qed.

Lemma getFileStats_lines (E : Env) (stat : jsstring → option N) (filePath : jsstring)
  (size : N) (lines : nat) :
  getFileStats E stat filePath = Some (size, lines) → 1 ≤ lines.
Proof.
  unfold getFileStats. destruct (stat filePath); [|done].
  destruct (readFileContent E filePath) as [content|]; [|done].
  intros [= _ <-]. rewrite split_newline_length. lia.
Qed.

Lemma countFiles_sum (nodes : list FileNode.t) (count : nat) :
  fold_left (fun count node => count + countNode node) nodes count
  = count + sum_list (List.map countNode nodes).
Proof.
  revert count. induction nodes as [|node nodes IH]; intros count; simpl; [lia|].
  rewrite IH. lia.
Qed.

Lemma length_flat_map {A B : Type} (f : A → list B) (l : list A) :
  length (flat_map f l) = sum_list (List.map (fun x => length (f x)) l).
Proof. induction l as [|x l IH]; [done|]. simpl. by rewrite length_app, IH. Qed.

Lemma sum_list_le {A : Type} (f g : A → nat) (l : list A) :
  Forall (fun x => f x ≤ g x) l → sum_list (List.map f l) ≤ sum_list (List.map g l).
Proof. induction 1; simpl; lia. Qed.

Lemma collectNode_count (E : Env) (stat : jsstring → option N) (node : FileNode.t) :
  length (collectNode E stat node) ≤ countNode node.
Proof.
  induction node as [name path type size extension language
                    |name path type size extension language children IH]
    using FileNode_nested_ind; destruct type; cbn [collectNode countNode];
    try (by destruct (getFileStats E stat path) as [[? ?]|]; simpl; lia).
  rewrite countFiles_sum, length_flat_map. simpl. by apply sum_list_le.
Qed.

Lemma collectNode_stats (E : Env) (stat : jsstring → option N) (node : FileNode.t) :
  Forall (fun file =>
            1 ≤ FileStat.lines file ∧
            ∃ source, source ∈ descendants node ∧ isFileKind source ∧
                      FileNode.path source = FileStat.path file)
    (collectNode E stat node).
Proof.
  induction node as [name path type size extension language
                    |name path type size extension language children IH]
    using FileNode_nested_ind; destruct type; cbn [collectNode]; try done.
  - destruct (getFileStats E stat path) as [[bytes lines]|] eqn:Hstats; [|done].
    apply Forall_singleton. split; [by eapply getFileStats_lines|].
    eexists. split; [by left|done].
  - destruct (getFileStats E stat path) as [[bytes lines]|] eqn:Hstats; [|done].
    apply Forall_singleton. split; [by eapply getFileStats_lines|].
    eexists. split; [by left|done].
  - apply Forall_flat_map, Forall_forall. intros child Hin.
    eapply Forall_impl; [exact (proj1 (Forall_forall _ _) IH child Hin)|].
    intros file [? (source & Hsource & ? & ?)]. split; [done|].
    exists source. split; [|done]. right. cbn [FileNode.children].
    apply list_elem_of_In, in_flat_map. exists child.
    by rewrite <- !list_elem_of_In.
Qed.

Lemma collectNode_all (E : Env) (stat : jsstring → option N) (node : FileNode.t) :
  (∀ source, source ∈ descendants node → isFileKind source →
             is_Some (getFileStats E stat (FileNode.path source))) →
  length (collectNode E stat node) = countNode node.
Proof.
  induction node as [name path type size extension language
                    |name path type size extension language children IH]
    using FileNode_nested_ind; intros Hreadable; destruct type;
    cbn [collectNode countNode]; try done.
  - destruct (Hreadable (FileNode.mk name path NodeType.file size extension language None))
      as [[bytes lines] Hstats]; [by left|done|].
    cbn [FileNode.path] in Hstats. by rewrite Hstats.
  - destruct (Hreadable (FileNode.mk name path NodeType.file size extension language
                           (Some children)))
      as [[bytes lines] Hstats]; [by left|done|].
    cbn [FileNode.path] in Hstats. by rewrite Hstats.
  - rewrite countFiles_sum, length_flat_map. simpl. f_equal.
    apply map_ext_in. intros child Hin%list_elem_of_In.
    apply (proj1 (Forall_forall _ _) IH child Hin).
    intros source Hsource. apply Hreadable. right. cbn [FileNode.children].
    apply list_elem_of_In, in_flat_map. exists child.
    by rewrite <- !list_elem_of_In.
Qed.

Lemma lines_fold (fileStats : list FileStat.t) (sum : nat) :
  fold_left (fun sum file => sum + FileStat.lines file) fileStats sum
  = sum + sum_list (List.map FileStat.lines fileStats).
Proof.
  revert sum. induction fileStats as [|file fileStats IH]; intros sum; simpl; [lia|].
  rewrite IH. lia.
Qed.

Lemma length_le_lines (fileStats : list FileStat.t) :
  Forall (fun file => 1 ≤ FileStat.lines file) fileStats →
  length fileStats ≤ sum_list (List.map FileStat.lines fileStats).
Proof. induction 1; simpl; lia. Qed.

Lemma getProjectMetrics_Ok (E : Env) (stat : jsstring → option N)
  (projectPath : jsstring) (m : Metrics.t) :
  getProjectMetrics E stat projectPath = Ok m →
  ∃ ps,
    analyzeProjectStructure E projectPath 10 = Ok ps ∧
    let fileStats := collectFileStats E stat (ProjectStructure.files ps) in
    let totalLines := sum_list (List.map FileStat.lines fileStats) in
    Metrics.totalLines m = totalLines ∧
    Metrics.totalFiles m = length fileStats ∧
    Metrics.totalSize m = ProjectStructure.totalSize ps ∧
    Metrics.languages m
    = List.map
        (fun lang =>
           let lines := default 0 (JsMap.get (languageLines fileStats)
                                       (LanguageStats.language lang)) in
           LanguageStats.mk (LanguageStats.language lang) (LanguageStats.files lang) lines
             (if 0 <? totalLines then (ratio lines totalLines * 100)%Q else 0%Q))
        (ProjectStructure.languages ps) ∧
    Metrics.largestFiles m = take 10 (sortBySize fileStats).
Proof.
  unfold getProjectMetrics. intros (ps & Hps & Hm)%bind_Ok.
  exists ps. split; [done|]. injection Hm as <-. simpl.
  by rewrite lines_fold.
Qed.

(** X23.  getProjectMetrics counts the files whose statistics could be
    read: never more than the [totalFiles] of the scan, as many when
    every file of the tree can be read, and, since every file has at
    least one line, never more than [totalLines].  [totalSize] is the one
    of the scan. *)
Theorem metrics_count_the_readable_files (E : Env) (stat : jsstring → option N)
  (projectPath : jsstring) (m : Metrics.t) :
  getProjectMetrics E stat projectPath = Ok m →
  ∃ ps,
    analyzeProjectStructure E projectPath 10 = Ok ps ∧
    Metrics.totalSize m = ProjectStructure.totalSize ps ∧
    Metrics.totalFiles m ≤ ProjectStructure.totalFiles ps ∧
    Metrics.totalFiles m ≤ Metrics.totalLines m ∧
    ((∀ node, node ∈ treeNodes (ProjectStructure.files ps) → isFileKind node →
              is_Some (getFileStats E stat (FileNode.path node))) →
     Metrics.totalFiles m = ProjectStructure.totalFiles ps).
Proof.
  intros (ps & Hps & Hlines & Hfiles & Hsize & _)%getProjectMetrics_Ok.
  exists ps. split; [done|]. split; [done|].
  rewrite Hlines, Hfiles.
  apply analyzeProjectStructure_Ok in Hps as (files & _ & ->). simpl.
  unfold collectFileStats, countFiles. rewrite countFiles_sum, !length_flat_map. simpl.
  split_and!.
  - apply sum_list_le, Forall_forall. intros node _. apply collectNode_count.
  - rewrite <- length_flat_map.
    apply length_le_lines.
    apply Forall_flat_map, Forall_forall. intros node _.
    eapply Forall_impl; [apply collectNode_stats|]. by intros file [? _].
  - intros Hreadable. f_equal. apply map_ext_in. intros node Hin.
    apply collectNode_all. intros source Hsource. apply Hreadable.
    unfold treeNodes. apply list_elem_of_In, in_flat_map. exists node.
    split; [done|by apply list_elem_of_In].
Qed.

Lemma insertBySize_Permutation (file : FileStat.t) (sorted : list FileStat.t) :
  insertBySize file sorted ≡ₚ file :: sorted.
Proof.
  induction sorted as [|other sorted IH]; [done|].
  simpl. destruct (_ <? _)%N; [|done].
  rewrite IH. apply Permutation_swap.
Qed.

Lemma sortBySize_Permutation (fileStats : list FileStat.t) :
  sortBySize fileStats ≡ₚ fileStats.
Proof.
  induction fileStats as [|file fileStats IH]; [done|].
  simpl. by rewrite insertBySize_Permutation, IH.
Qed.

Lemma insertBySize_descending (file : FileStat.t) (sorted : list FileStat.t) :
  descending sorted → descending (insertBySize file sorted).
Proof.
  induction sorted as [|other sorted IH]; [done|].
  intros [Hlater Hsorted]. cbn [insertBySize].
  destruct (FileStat.size file <? FileStat.size other)%N eqn:Hsmaller.
  - apply N.ltb_lt in Hsmaller. split; [|by apply IH].
    rewrite insertBySize_Permutation. apply Forall_cons. split; [lia|done].
  - apply N.ltb_ge in Hsmaller. split; [|done].
    apply Forall_cons. split; [done|].
    eapply Forall_impl; [exact Hlater|]. simpl. lia.
Qed.

Lemma sortBySize_descending (fileStats : list FileStat.t) :
  descending (sortBySize fileStats).
Proof.
  induction fileStats as [|file fileStats IH]; [done|].
  by apply insertBySize_descending.
Qed.

Lemma descending_app (before after : list FileStat.t) :
  descending (before ++ after) →
  descending before ∧
  ∀ a b, a ∈ before → b ∈ after → (FileStat.size b ≤ FileStat.size a)%N.
Proof.
  induction before as [|file before IH]; simpl.
  - intros _. split; [done|]. by intros a b ?%elem_of_nil.
  - intros [[Hbefore Hafter]%Forall_app [Hsorted Hcross]%IH].
    split; [done|]. intros a b [->|Ha]%elem_of_cons Hb.
    + by apply (proj1 (Forall_forall _ _) Hafter).
    + by apply Hcross.
Qed.

(** X24.  [largestFiles] holds at most ten entries, in descending order
    of size; they are statistics of files of the scanned tree, and every
    readable file that is left out is no larger than any of them.
    Nothing is left out unless ten are listed. *)
Theorem largest_files_are_the_largest (E : Env) (stat : jsstring → option N)
  (projectPath : jsstring) (m : Metrics.t) :
  getProjectMetrics E stat projectPath = Ok m →
  length (Metrics.largestFiles m) ≤ 10 ∧
  descending (Metrics.largestFiles m) ∧
  ∃ ps others,
    analyzeProjectStructure E projectPath 10 = Ok ps ∧
    Metrics.largestFiles m ++ others
    ≡ₚ collectFileStats E stat (ProjectStructure.files ps) ∧
    (length (Metrics.largestFiles m) < 10 → others = []) ∧
    (∀ a b, a ∈ Metrics.largestFiles m → b ∈ others →
            (FileStat.size b ≤ FileStat.size a)%N) ∧
    ∀ a, a ∈ Metrics.largestFiles m →
         ∃ node, node ∈ treeNodes (ProjectStructure.files ps) ∧ isFileKind node ∧
                 FileNode.path node = FileStat.path a.
Proof.
  intros (ps & Hps & _ & _ & _ & _ & ->)%getProjectMetrics_Ok.
  set (fileStats := collectFileStats E stat (ProjectStructure.files ps)).
  pose proof (sortBySize_descending fileStats) as Hsorted.
  rewrite <- (take_drop 10 (sortBySize fileStats)) in Hsorted.
  apply descending_app in Hsorted as [Hsorted Hcross].
  split; [rewrite length_take; lia|]. split; [done|].
  exists ps, (drop 10 (sortBySize fileStats)). split_and!; try done.
  - by rewrite take_drop, sortBySize_Permutation.
  - rewrite length_take. intros Hshort. apply drop_ge. lia.
  - intros a Ha%subseteq_take. rewrite sortBySize_Permutation in Ha.
    apply list_elem_of_In, in_flat_map in Ha as (root & Hroot & Ha).
    pose proof (collectNode_stats E stat root) as Hstats.
    apply list_elem_of_In in Ha.
    apply (proj1 (Forall_forall _ _) Hstats) in Ha as [_ (node & Hnode & ? & ?)].
    exists node. split; [|done].
    unfold treeNodes. apply list_elem_of_In, in_flat_map. exists root.
    split; [done|by apply list_elem_of_In].
Qed.

Lemma getFileStats_counts_line_feeds_witness :
  getFileStats Cases.smallProject Cases.smallStat (js "/m/index.js") = Some (3%N, 2) ∧
  Cases.smallStat (js "/m/index.js") = Some 3%N ∧
  ∃ content,
    readFile Cases.smallProject (js "/m/index.js") = Some content ∧
    2 = S (lineFeeds content).
Proof.
  assert (getFileStats Cases.smallProject Cases.smallStat (js "/m/index.js")
          = Some (3%N, 2)) as Hstats by (vm_compute; reflexivity).
  split; [exact Hstats|].
  exact (proj1 (getFileStats_counts_line_feeds _ _ _ _ _) Hstats).
Defined.

Lemma metrics_count_the_readable_files_witness :
  ∃ m,
    getProjectMetrics Cases.smallProject Cases.smallStat (js "/m") = Ok m ∧
    Metrics.totalFiles m = 1 ∧ Metrics.totalLines m = 2 ∧
    ∃ ps,
      analyzeProjectStructure Cases.smallProject (js "/m") 10 = Ok ps ∧
      Metrics.totalSize m = ProjectStructure.totalSize ps ∧
      Metrics.totalFiles m ≤ ProjectStructure.totalFiles ps ∧
      Metrics.totalFiles m ≤ Metrics.totalLines m.
Proof.
  destruct (getProjectMetrics Cases.smallProject Cases.smallStat (js "/m"))
    as [m|] eqn:Hm; [|by vm_compute in Hm].
  exists m. split; [done|].
  destruct (metrics_count_the_readable_files _ _ _ _ Hm) as (ps & ? & ? & ? & ? & _).
  split_and!; [by vm_compute in Hm; injection Hm as <-..|].
  by exists ps.
Defined.

Lemma largest_files_are_the_largest_witness :
  ∃ m,
    getProjectMetrics Cases.smallProject Cases.smallStat (js "/m") = Ok m ∧
    List.map FileStat.path (Metrics.largestFiles m) = [js "/m/index.js"] ∧
    length (Metrics.largestFiles m) ≤ 10 ∧
    descending (Metrics.largestFiles m).
Proof.
  destruct (getProjectMetrics Cases.smallProject Cases.smallStat (js "/m"))
    as [m|] eqn:Hm; [|by vm_compute in Hm].
  exists m. split; [done|].
  destruct (largest_files_are_the_largest _ _ _ _ Hm) as (? & ? & _).
  split_and!; [by vm_compute in Hm; injection Hm as <-|done..].
Defined.

End MetricsShape.

(** ** Project metrics: the shares of lines *)

Section MetricsShares.

Import FileUtils FileAnalyzer Spec Shape ProjectMetrics.









End MetricsShares.

(** ** The technology stack *)

Section TechStackShape.

Import FileUtils TechStack.

Lemma fromDependencies_marks (deps : list (jsstring * Json)) (st : t) :
  ∃ found tests,
    fromDependencies deps st
    = mk (languages st) found (packageManagers st) (buildTools st) tests.
Proof.
  destruct st. unfold fromDependencies, when.
  repeat match goal with |- context [truthy ?value] => destruct (truthy value) end;
    by eexists _, _.
Qed.

Lemma fromPyproject_marks (E : Env) (absolutePath : jsstring) (st : t) :
  ∃ found,
    fromPyproject E absolutePath st
    = mk (languages st) found (packageManagers st) (buildTools st) (testFrameworks st).
Proof.
  destruct st. unfold fromPyproject, when.
  destruct (readFileContent E _) as [pyproject|]; [|by eexists].
  repeat match goal with |- context [includes ?text ?word] =>
           destruct (includes text word) end;
    by eexists.
Qed.

Lemma when_languages (condition : bool) (step : t → t)
  (change : list jsstring → list jsstring) (st : t) :
  (∀ s, languages (step s) = change (languages s)) →
  languages (when condition step st)
  = if condition then change (languages st) else languages st.
Proof. intros Hstep. unfold when. by destruct condition. Qed.

Lemma when_languages_kept (condition : bool) (step : t → t) (st : t) :
  (∀ s, languages (step s) = languages s) →
  languages (when condition step st) = languages st.
Proof. intros Hstep. unfold when. by destruct condition. Qed.

Lemma when_packageManagers (condition : bool) (step : t → t)
  (change : list jsstring → list jsstring) (st : t) :
  (∀ s, packageManagers (step s) = change (packageManagers s)) →
  packageManagers (when condition step st)
  = if condition then change (packageManagers st) else packageManagers st.
Proof. intros Hstep. unfold when. by destruct condition. Qed.

Lemma when_packageManagers_kept (condition : bool) (step : t → t) (st : t) :
  (∀ s, packageManagers (step s) = packageManagers s) →
  packageManagers (when condition step st) = packageManagers st.
Proof. intros Hstep. unfold when. by destruct condition. Qed.

Lemma when_buildTools (condition : bool) (step : t → t)
  (change : list jsstring → list jsstring) (st : t) :
  (∀ s, buildTools (step s) = change (buildTools s)) →
  buildTools (when condition step st)
  = if condition then change (buildTools st) else buildTools st.
Proof. intros Hstep. unfold when. by destruct condition. Qed.

Lemma when_buildTools_kept (condition : bool) (step : t → t) (st : t) :
  (∀ s, buildTools (step s) = buildTools s) →
  buildTools (when condition step st) = buildTools st.
Proof. intros Hstep. unfold when. by destruct condition. Qed.

(** X26.  Languages, package managers and build tools are decided by the
    marker files alone, whatever the files contain; this is the list of
    each, in the order in which it is returned.  (A package.json brings
    both JavaScript and TypeScript; tsconfig.json brings no language.) *)
Theorem marker_files_decide_languages_and_tools (E : Env)
  (parseJSON : jsstring → option Json) (projectPath : jsstring) :
  let found := marker E (resolve E projectPath) in
  let only (condition : bool) (names : list string) : list jsstring :=
    if condition then List.map js names else [] in
  let st := detectTechStack E parseJSON projectPath in
  languages st
  = only (found "package.json") ["JavaScript"; "TypeScript"]%string
    ++ only (found "requirements.txt" || found "pyproject.toml") ["Python"]%string
    ++ only (found "pom.xml" || found "build.gradle") ["Java"]%string
    ++ only (found "go.mod") ["Go"]%string
    ++ only (found "Cargo.toml") ["Rust"]%string ∧
  packageManagers st
  = only (found "package.json") ["npm"]%string
    ++ only (found "requirements.txt" || found "pyproject.toml") ["pip"]%string
    ++ only (found "pom.xml") ["Maven"]%string
    ++ only (found "build.gradle") ["Gradle"]%string
    ++ only (found "go.mod") ["go mod"]%string
    ++ only (found "Cargo.toml") ["Cargo"]%string ∧
  buildTools st
  = only (found "pom.xml") ["Maven"]%string
    ++ only (found "build.gradle") ["Gradle"]%string
    ++ only (found "webpack.config.js") ["Webpack"]%string
    ++ only (found "vite.config.js" || found "vite.config.ts") ["Vite"]%string
    ++ only (found "tsconfig.json") ["TypeScript Compiler"]%string.
Proof.
  intros found only st. subst st only. unfold detectTechStack.
  fold found.
  assert (∀ st, ∃ frameworks tests,
            when (found "package.json")
              (fromPackageJson E parseJSON (resolve E projectPath)) st
            = when (found "package.json")
                (fun st => mk (add "TypeScript" (add "JavaScript" (languages st)))
                             frameworks (add "npm" (packageManagers st))
                             (buildTools st) tests) st) as Hpackage.
  { intros st. unfold fromPackageJson, when. cbv zeta.
    destruct (found "package.json"); [|by exists [], []].
    destruct (dependenciesOf E parseJSON (resolve E projectPath)) as [deps|].
    - destruct (fromDependencies_marks deps
                  (addLanguage "TypeScript"
                     (addLanguage "JavaScript" (addPackageManager "npm" st))))
        as (frameworks & tests & ->).
      by exists frameworks, tests.
    - by exists (TechStack.frameworks st), (testFrameworks st). }
  assert (∀ st, ∃ frameworks,
            when (found "requirements.txt" || found "pyproject.toml")
              (fromPython E (resolve E projectPath)) st
            = when (found "requirements.txt" || found "pyproject.toml")
                (fun st => mk (add "Python" (languages st)) frameworks
                             (add "pip" (packageManagers st)) (buildTools st)
                             (testFrameworks st)) st) as Hpython.
  { intros st. unfold fromPython, when. cbv zeta.
    destruct (found "requirements.txt" || found "pyproject.toml");
      [|by exists []].
    destruct (marker E (resolve E projectPath) "pyproject.toml").
    - destruct (fromPyproject_marks E (resolve E projectPath)
                  (addLanguage "Python" (addPackageManager "pip" st)))
        as (frameworks & ->).
      by exists frameworks.
    - by exists (TechStack.frameworks st). }
  destruct (Hpackage (mk [] [] [] [] [])) as (frameworks1 & tests1 & ->).
  match goal with
  | |- context [when _ (fromPython _ _) ?st] =>
      destruct (Hpython st) as (frameworks2 & ->)
  end.
  clear Hpackage Hpython.
  split_and!.
  - do 3 (rewrite when_languages_kept by done).
    rewrite (when_languages _ _ (add "Rust")) by done.
    rewrite (when_languages _ _ (add "Go")) by done.
    rewrite (when_languages _ _ (add "Java")) by done.
    rewrite (when_languages _ _ (add "Java")) by done.
    rewrite (when_languages _ _ (add "Python")) by done.
    rewrite (when_languages _ _ (fun set => add "TypeScript" (add "JavaScript" set)))
      by done.
    cbn [languages].
    generalize (found "package.json") (found "requirements.txt")
      (found "pyproject.toml") (found "pom.xml") (found "build.gradle")
      (found "go.mod") (found "Cargo.toml").
    intros [] [] [] [] [] [] []; reflexivity.
  - do 3 (rewrite when_packageManagers_kept by done).
    rewrite (when_packageManagers _ _ (add "Cargo")) by done.
    rewrite (when_packageManagers _ _ (add "go mod")) by done.
    rewrite (when_packageManagers _ _ (add "Gradle")) by done.
    rewrite (when_packageManagers _ _ (add "Maven")) by done.
    rewrite (when_packageManagers _ _ (add "pip")) by done.
    rewrite (when_packageManagers _ _ (add "npm")) by done.
    cbn [packageManagers].
    generalize (found "package.json") (found "requirements.txt")
      (found "pyproject.toml") (found "pom.xml") (found "build.gradle")
      (found "go.mod") (found "Cargo.toml").
    intros [] [] [] [] [] [] []; reflexivity.
  - rewrite (when_buildTools _ _ (add "TypeScript Compiler")) by done.
    rewrite (when_buildTools _ _ (add "Vite")) by done.
    rewrite (when_buildTools _ _ (add "Webpack")) by done.
    do 2 (rewrite when_buildTools_kept by done).
    rewrite (when_buildTools _ _ (add "Gradle")) by done.
    rewrite (when_buildTools _ _ (add "Maven")) by done.
    do 2 (rewrite when_buildTools_kept by done).
    cbn [buildTools].
    generalize (found "pom.xml") (found "build.gradle") (found "webpack.config.js")
      (found "vite.config.js") (found "vite.config.ts") (found "tsconfig.json").
    intros [] [] [] [] [] []; reflexivity.
Qed.

End TechStackShape.

(** ** The technology stack: frameworks *)

Section StackFrameworks.

Import FileUtils TechStack StackShape.

Lemma when_frameworks (condition : bool) (step : t → t)
  (change : list jsstring → list jsstring) (st : t) :
  (∀ s, frameworks (step s) = change (frameworks s)) →
  frameworks (when condition step st)
  = if condition then change (frameworks st) else frameworks st.
Proof. intros Hstep. unfold when. by destruct condition. Qed.

Lemma when_frameworks_kept (condition : bool) (step : t → t) (st : t) :
  (∀ s, frameworks (step s) = frameworks s) →
  frameworks (when condition step st) = frameworks st.
Proof. intros Hstep. unfold when. by destruct condition. Qed.

Lemma when_testFrameworks (condition : bool) (step : t → t)
  (change : list jsstring → list jsstring) (st : t) :
  (∀ s, testFrameworks (step s) = change (testFrameworks s)) →
  testFrameworks (when condition step st)
  = if condition then change (testFrameworks st) else testFrameworks st.
Proof. intros Hstep. unfold when. by destruct condition. Qed.

Lemma when_testFrameworks_kept (condition : bool) (step : t → t) (st : t) :
  (∀ s, testFrameworks (step s) = testFrameworks s) →
  testFrameworks (when condition step st) = testFrameworks st.
Proof. intros Hstep. unfold when. by destruct condition. Qed.

Lemma add_after (name : string) (before set : list jsstring) :
  existsb (eqb (js name)) before = false →
  add name (before ++ set) = before ++ add name set.
Proof.
  intros Hfresh. unfold add. rewrite existsb_app, Hfresh. simpl.
  destruct (existsb (eqb (js name)) set); [done|]. by rewrite app_assoc.
Qed.

Lemma frameworks_fromDependencies (deps : list (jsstring * Json)) (st : t) :
  frameworks st = [] →
  frameworks (fromDependencies deps st)
  = chosen (fun key => truthy (JsMap.get deps (js key))) frameworkKeys.
Proof.
  intros Hempty. unfold fromDependencies. cbv zeta.
  do 3 (rewrite when_frameworks_kept by done).
  rewrite (when_frameworks _ _ (add "NestJS")) by done.
  rewrite (when_frameworks _ _ (add "Next.js")) by done.
  rewrite (when_frameworks _ _ (add "Express")) by done.
  rewrite (when_frameworks _ _ (add "Angular")) by done.
  rewrite (when_frameworks _ _ (add "Vue")) by done.
  rewrite (when_frameworks _ _ (add "React")) by done.
  rewrite Hempty. unfold chosen, frameworkKeys. cbn [List.filter fst snd].
  repeat match goal with |- context [truthy ?value] => destruct (truthy value) end;
    reflexivity.
Qed.

Lemma testFrameworks_fromDependencies (deps : list (jsstring * Json)) (st : t) :
  testFrameworks st = [] →
  testFrameworks (fromDependencies deps st)
  = chosen (fun key => truthy (JsMap.get deps (js key))) testFrameworkKeys.
Proof.
  intros Hempty. unfold fromDependencies. cbv zeta.
  rewrite (when_testFrameworks _ _ (add "Vitest")) by done.
  rewrite (when_testFrameworks _ _ (add "Mocha")) by done.
  rewrite (when_testFrameworks _ _ (add "Jest")) by done.
  do 6 (rewrite when_testFrameworks_kept by done).
  rewrite Hempty. unfold chosen, testFrameworkKeys. cbn [List.filter fst snd].
  repeat match goal with |- context [truthy ?value] => destruct (truthy value) end;
    reflexivity.
Qed.

Lemma frameworks_fromPyproject (E : Env) (absolutePath : jsstring) (st : t) :
  (∀ entry, entry ∈ pythonFrameworks →
            existsb (eqb (js (snd entry))) (frameworks st) = false) →
  frameworks (fromPyproject E absolutePath st)
  = frameworks st
    ++ match readFile E (Path.join absolutePath (js "pyproject.toml")) with
       | Some pyproject => chosen (fun word => includes pyproject (js word)) pythonFrameworks
       | None => []
       end.
Proof.
  intros Hfresh. unfold fromPyproject, readFileContent.
  destruct (readFile E _) as [pyproject|]; [|by rewrite app_nil_r].
  cbv zeta.
  rewrite (when_frameworks _ _ (add "FastAPI")) by done.
  rewrite (when_frameworks _ _ (add "Flask")) by done.
  rewrite (when_frameworks _ _ (add "Django")) by done.
  assert (existsb (eqb (js "Django")) (frameworks st) = false) as Hdjango
    by (apply (Hfresh ("django", "Django")%string); set_solver).
  assert (existsb (eqb (js "Flask")) (frameworks st) = false) as Hflask
    by (apply (Hfresh ("flask", "Flask")%string); set_solver).
  assert (existsb (eqb (js "FastAPI")) (frameworks st) = false) as Hfastapi
    by (apply (Hfresh ("fastapi", "FastAPI")%string); set_solver).
  unfold chosen, pythonFrameworks. cbn [List.filter fst snd].
  destruct (includes pyproject (js "django")), (includes pyproject (js "flask")),
    (includes pyproject (js "fastapi"));
    rewrite <- (app_nil_r (frameworks st)) at 1;
    rewrite ?add_after by done; reflexivity.
Qed.

Lemma existsb_chosen (p : jsstring → bool) (test : string → bool)
  (table : list (string * string)) :
  existsb p (List.map (fun entry => js (snd entry)) table) = false →
  existsb p (chosen test table) = false.
Proof.
  unfold chosen. induction table as [|entry table IH]; [done|].
  simpl. intros [? ?]%orb_false_iff. destruct (test (fst entry)); simpl; [|by apply IH].
  apply orb_false_iff. split; [done|by apply IH].
Qed.

(** The frameworks that package.json contributes. *)
Lemma frameworks_after_package (E : Env) (parseJSON : jsstring → option Json)
  (absolutePath : jsstring) (condition : bool) :
  frameworks (when condition (fromPackageJson E parseJSON absolutePath) (mk [] [] [] [] []))
  = (if condition then
       match dependenciesOf E parseJSON absolutePath with
       | Some deps => chosen (fun key => truthy (JsMap.get deps (js key))) frameworkKeys
       | None => []
       end
     else []) ∧
  testFrameworks
    (when condition (fromPackageJson E parseJSON absolutePath) (mk [] [] [] [] []))
  = (if condition then
       match dependenciesOf E parseJSON absolutePath with
       | Some deps => chosen (fun key => truthy (JsMap.get deps (js key))) testFrameworkKeys
       | None => []
       end
     else []).
Proof.
  unfold when, fromPackageJson. destruct condition; [|done]. cbv zeta.
  destruct (dependenciesOf E parseJSON absolutePath) as [deps|]; [|done].
  by rewrite frameworks_fromDependencies, testFrameworks_fromDependencies.
Qed.

(** The two parts of the frameworks list, and the test frameworks. *)
Lemma detectTechStack_frameworks (E : Env) (parseJSON : jsstring → option Json)
  (projectPath : jsstring) :
  let absolutePath := resolve E projectPath in
  let st := detectTechStack E parseJSON projectPath in
  frameworks st
  = (if marker E absolutePath "package.json" then
       match dependenciesOf E parseJSON absolutePath with
       | Some deps => chosen (fun key => truthy (JsMap.get deps (js key))) frameworkKeys
       | None => []
       end
     else [])
    ++ (if marker E absolutePath "pyproject.toml" then
          match readFile E (Path.join absolutePath (js "pyproject.toml")) with
          | Some pyproject =>
              chosen (fun word => includes pyproject (js word)) pythonFrameworks
          | None => []
          end
        else []) ∧
  testFrameworks st
  = (if marker E absolutePath "package.json" then
       match dependenciesOf E parseJSON absolutePath with
       | Some deps => chosen (fun key => truthy (JsMap.get deps (js key))) testFrameworkKeys
       | None => []
       end
     else []).
Proof.
  intros absolutePath st. subst st. unfold detectTechStack. fold absolutePath.
  cbv zeta.
  destruct (frameworks_after_package E parseJSON absolutePath
              (marker E absolutePath "package.json")) as [Hfound Htests].
  set (st1 := when (marker E absolutePath "package.json") _ _) in *.
  split.
  - do 7 (rewrite when_frameworks_kept by done).
    unfold when at 1, fromPython. cbv zeta.
    destruct (marker E absolutePath "pyproject.toml") eqn:Hpyproject.
    + rewrite orb_true_r. unfold when at 1.
      rewrite frameworks_fromPyproject; [by rewrite <- Hfound|].
      intros entry Hentry. cbn [frameworks addLanguage addPackageManager].
      rewrite Hfound. destruct (marker E absolutePath "package.json"); [|done].
      destruct (dependenciesOf E parseJSON absolutePath); [|done].
      apply existsb_chosen.
      vm_compute in Hentry. apply list_elem_of_In in Hentry. simpl in Hentry.
      repeat (destruct Hentry as [<-|Hentry]; [by vm_compute|]). done.
    + rewrite orb_false_r, app_nil_r, <- Hfound.
      by destruct (marker E absolutePath "requirements.txt").
  - do 7 (rewrite when_testFrameworks_kept by done).
    rewrite when_testFrameworks_kept; [done|].
    intros s. unfold fromPython, when, fromPyproject. cbv zeta.
    destruct (marker E absolutePath "pyproject.toml"); [|done].
    destruct (readFileContent E _); [|done].
    by repeat match goal with |- context [includes ?text ?word] =>
                destruct (includes text word) end.
Qed.

End StackFrameworks.

(** ** The technology stack: which names are detected *)

Section StackNames.

Import FileUtils TechStack StackShape.

Lemma elem_existsb (x : jsstring) (l : list jsstring) :
  x ∈ l ↔ existsb (eqb x) l = true.
Proof.
  rewrite existsb_exists, list_elem_of_In. split.
  - intros Hin. exists x. split; [done|]. by apply bool_decide_eq_true.
  - by intros (y & Hin & <-%bool_decide_eq_true).
Qed.

Lemma chosen_subset (test : string → bool) (table : list (string * string))
  (x : jsstring) :
  x ∈ chosen test table → x ∈ List.map (fun entry => js (snd entry)) table.
Proof.
  unfold chosen. rewrite !list_elem_of_In, !in_map_iff.
  intros (entry & <- & [Hin _]%filter_In). by exists entry.
Qed.

(** In a table whose names are distinct, a name is chosen exactly when
    its own key passes the test. *)
Lemma chosen_elem (test : string → bool) (table : list (string * string))
  (key name : string) :
  NoDup (List.map (fun entry => js (snd entry)) table) →
  (key, name) ∈ table →
  js name ∈ chosen test table ↔ test key = true.
Proof.
  unfold chosen. induction table as [|entry table IH]; [by intros _ ?%elem_of_nil|].
  cbn [List.map List.filter]. intros [Hfresh Hdup]%NoDup_cons [<-|Hin]%elem_of_cons.
  - cbn [fst snd]. destruct (test key) eqn:Htest.
    + split; [done|]. intros _. by left.
    + split; [|done]. intros Hchosen%(chosen_subset test). done.
  - assert (js name ∈ List.map (fun entry => js (snd entry)) table) as Hname.
    { apply list_elem_of_In, in_map_iff. exists (key, name).
      by rewrite <- list_elem_of_In. }
    rewrite <- (IH Hdup Hin). destruct (test (fst entry)); [|done].
    cbn [List.map]. rewrite elem_of_cons. split; [|by right].
    intros [Heq|?]; [|done]. by rewrite Heq in Hname.
Qed.

Lemma get_app {K V : Type} `{EqDecision K} (m more : list (K * V)) (key : K) :
  JsMap.get (m ++ more) key
  = match JsMap.get m key with
    | Some value => Some value
    | None => JsMap.get more key
    end.
Proof.
  induction m as [|[k v] m IH]; [done|].
  simpl. by destruct (decide (k = key)).
Qed.

(** Reading a property after copying: the copied value if [source] has
    the property, the one of [target] otherwise. *)
Lemma get_assign (target source : list (jsstring * Json)) (key : jsstring) :
  NoDup (List.map fst source) →
  JsMap.get (assign target source) key
  = match JsMap.get source key with
    | Some value => Some value
    | None => JsMap.get target key
    end.
Proof.
  unfold assign. induction source as [|[k v] source IH] using rev_ind; [done|].
  rewrite List.map_app, fold_left_app, get_app. simpl.
  intros [Hdup [Hfresh _]]%NoDup_app.
  rewrite get_set, (IH Hdup). destruct (decide (k = key)) as [->|Hne].
  - destruct (JsMap.get source key) eqn:Hget; [|done].
    exfalso. apply (Hfresh key); [|by left].
    destruct (decide (key ∈ List.map fst source)) as [?|Hout]; [done|].
    apply get_None in Hout. congruence.
  - by destruct (JsMap.get source key).
Qed.

Lemma dependenciesOf_merged (E : Env) (parseJSON : jsstring → option Json)
  (absolutePath text : jsstring) (packageJson : Json)
  (dependencies devDependencies : option Json) :
  readFile E (Path.join absolutePath (js "package.json")) = Some text →
  parseJSON text = Some packageJson →
  member packageJson "dependencies" = Ok dependencies →
  member packageJson "devDependencies" = Ok devDependencies →
  NoDup (List.map fst (spread dependencies)) →
  NoDup (List.map fst (spread devDependencies)) →
  ∃ deps,
    dependenciesOf E parseJSON absolutePath = Some deps ∧
    ∀ key, JsMap.get deps (js key) = merged dependencies devDependencies key.
Proof.
  intros Hread Hparse Hdeps Hdev Hnames Hdevnames.
  unfold dependenciesOf, readFileContent. rewrite Hread, Hparse, Hdeps, Hdev.
  eexists. split; [done|]. intros key. unfold merged.
  rewrite !get_assign by done. simpl.
  by destruct (JsMap.get (spread dependencies) (js key)).
Qed.

Local Ltac distinct_names :=
  apply (bool_decide_unpack _); by vm_compute.

Local Ltac other_table Hin Hother :=
  apply chosen_subset, elem_existsb in Hother;
  vm_compute in Hin; apply list_elem_of_In in Hin; simpl in Hin;
  repeat (destruct Hin as [[= <- <-]|Hin]; [by vm_compute in Hother|]); done.

(** X27.  A package.json that cannot be read, that is not valid JSON or
    that holds [null] contributes no framework and no test framework:
    the test frameworks are empty and every framework is one of the three
    looked for in pyproject.toml. *)
Theorem unusable_package_json_names_no_framework (E : Env)
  (parseJSON : jsstring → option Json) (projectPath : jsstring) :
  (∀ text,
     readFile E (Path.join (resolve E projectPath) (js "package.json")) = Some text →
     parseJSON text = None ∨ parseJSON text = Some JNull) →
  testFrameworks (detectTechStack E parseJSON projectPath) = [] ∧
  ∀ name, name ∈ frameworks (detectTechStack E parseJSON projectPath) →
          name ∈ List.map (fun entry => js (snd entry)) pythonFrameworks.
Proof.
  intros Hunusable.
  assert (dependenciesOf E parseJSON (resolve E projectPath) = None) as Hdeps.
  { unfold dependenciesOf, readFileContent.
    destruct (readFile E _) as [text|] eqn:Hread; [|done].
    by destruct (Hunusable text eq_refl) as [-> | ->]. }
  destruct (detectTechStack_frameworks E parseJSON projectPath) as [-> ->].
  rewrite Hdeps. split; [by destruct (marker E _ "package.json")|].
  intros name. rewrite elem_of_app. intros [Hjs|Hpy].
  - destruct (marker E _ "package.json"); by apply elem_of_nil in Hjs.
  - destruct (marker E _ "pyproject.toml"); [|by apply elem_of_nil in Hpy].
    destruct (readFile E (Path.join (resolve E projectPath) (js "pyproject.toml")));
      [|by apply elem_of_nil in Hpy].
    by apply chosen_subset in Hpy.
Qed.

(** X28.  Django, Flask and FastAPI are detected from pyproject.toml
    alone: each exactly when that file exists, can be read and contains
    the framework's name in lower case.  requirements.txt is never
    read. *)
Theorem python_frameworks_come_from_pyproject (E : Env)
  (parseJSON : jsstring → option Json) (projectPath : jsstring) (word name : string) :
  (word, name) ∈ pythonFrameworks →
  js name ∈ frameworks (detectTechStack E parseJSON projectPath)
  ↔ marker E (resolve E projectPath) "pyproject.toml" = true ∧
    ∃ pyproject,
      readFile E (Path.join (resolve E projectPath) (js "pyproject.toml"))
      = Some pyproject ∧
      includes pyproject (js word) = true.
Proof.
  intros Hin.
  destruct (detectTechStack_frameworks E parseJSON projectPath) as [-> _].
  rewrite elem_of_app. split.
  - intros [Hjs|Hpy].
    + destruct (marker E _ "package.json"); [|by apply elem_of_nil in Hjs].
      destruct (dependenciesOf E parseJSON _); [|by apply elem_of_nil in Hjs].
      other_table Hin Hjs.
    + destruct (marker E _ "pyproject.toml"); [|by apply elem_of_nil in Hpy].
      destruct (readFile E (Path.join (resolve E projectPath) (js "pyproject.toml")))
        as [pyproject|]; [|by apply elem_of_nil in Hpy].
      split; [done|]. exists pyproject. split; [done|].
      by apply (chosen_elem _ pythonFrameworks word name) in Hpy; [|distinct_names|].
  - intros [-> (pyproject & -> & Hword)]. right.
    by apply (chosen_elem (fun word => includes pyproject (js word))
                pythonFrameworks word name); [distinct_names|..].
Qed.

(** X29.  When package.json parses, a JavaScript framework or test
    framework is detected exactly when the value under its key is
    truthy, and that value is the one of devDependencies whenever
    devDependencies has the key: a falsy entry there hides a truthy entry
    of dependencies. *)
Theorem dev_dependencies_shadow_dependencies (E : Env)
  (parseJSON : jsstring → option Json) (projectPath text : jsstring)
  (packageJson : Json) (dependencies devDependencies : option Json) :
  marker E (resolve E projectPath) "package.json" = true →
  readFile E (Path.join (resolve E projectPath) (js "package.json")) = Some text →
  parseJSON text = Some packageJson →
  member packageJson "dependencies" = Ok dependencies →
  member packageJson "devDependencies" = Ok devDependencies →
  NoDup (List.map fst (spread dependencies)) →
  NoDup (List.map fst (spread devDependencies)) →
  (∀ key name,
     (key, name) ∈ frameworkKeys →
     js name ∈ frameworks (detectTechStack E parseJSON projectPath)
     ↔ truthy (merged dependencies devDependencies key) = true) ∧
  (∀ key name,
     (key, name) ∈ testFrameworkKeys →
     js name ∈ testFrameworks (detectTechStack E parseJSON projectPath)
     ↔ truthy (merged dependencies devDependencies key) = true).
Proof.
  intros Hmarker Hread Hparse Hdeps Hdev Hnames Hdevnames.
  destruct (dependenciesOf_merged E parseJSON (resolve E projectPath) text packageJson
              dependencies devDependencies) as (deps & Hof & Hmerged); try done.
  destruct (detectTechStack_frameworks E parseJSON projectPath) as [-> ->].
  rewrite Hmarker, Hof. split; intros key name Hin.
  - rewrite elem_of_app, <- Hmerged. split.
    + intros [Hjs|Hpy].
      * by apply (chosen_elem _ frameworkKeys key name) in Hjs; [|distinct_names|].
      * destruct (marker E _ "pyproject.toml"); [|by apply elem_of_nil in Hpy].
        destruct (readFile E (Path.join (resolve E projectPath) (js "pyproject.toml")));
      [|by apply elem_of_nil in Hpy].
        other_table Hin Hpy.
    + intros Htruthy. left.
      by apply (chosen_elem (fun key => truthy (JsMap.get deps (js key)))
                  frameworkKeys key name); [distinct_names|..].
  - rewrite <- Hmerged.
    by apply (chosen_elem (fun key => truthy (JsMap.get deps (js key)))
                testFrameworkKeys key name); [distinct_names|].
Qed.

Lemma unusable_package_json_names_no_framework_witness :
  readFile Cases.brokenManifest (js "/w/package.json")
  = Some (js "{" ++ Cases.quoted "dependencies" ++ js ":") ∧
  Cases.parseManifest (js "{" ++ Cases.quoted "dependencies" ++ js ":") = None ∧
  frameworks (detectTechStack Cases.brokenManifest Cases.parseManifest (js "/w"))
  = [js "Flask"] ∧
  testFrameworks (detectTechStack Cases.brokenManifest Cases.parseManifest (js "/w"))
  = [].
Proof.
  split; [reflexivity|]. split; [reflexivity|]. split; [reflexivity|].
  apply (unusable_package_json_names_no_framework Cases.brokenManifest
           Cases.parseManifest (js "/w")).
  intros text Hread. vm_compute in Hread. injection Hread as <-. by left.
Defined.

Lemma python_frameworks_come_from_pyproject_witness :
  marker Cases.stackProject (js "/w") "pyproject.toml" = true ∧
  includes (js "dependencies = [" ++ Cases.quoted "flask" ++ js "]") (js "flask") = true ∧
  js "Flask"
  ∈ frameworks (detectTechStack Cases.stackProject Cases.parseManifest (js "/w")).
Proof.
  split; [reflexivity|]. split; [reflexivity|].
  apply (python_frameworks_come_from_pyproject Cases.stackProject Cases.parseManifest
           (js "/w") "flask" "Flask").
  - apply list_elem_of_In. simpl. tauto.
  - split; [reflexivity|]. eexists. split; reflexivity.
Defined.

Lemma dev_dependencies_shadow_dependencies_witness :
  merged (Some (JObject [ (js "react", JString (js "^18"));
                          (js "jest", JString (js "^29")) ]))
    (Some (JObject [ (js "jest", JBool false) ])) "jest"
  = Some (JBool false) ∧
  js "React"
  ∈ frameworks (detectTechStack Cases.stackProject Cases.parseManifest (js "/w")) ∧
  js "Jest"
  ∉ testFrameworks (detectTechStack Cases.stackProject Cases.parseManifest (js "/w")).
Proof.
  split; [reflexivity|].
  destruct (dev_dependencies_shadow_dependencies Cases.stackProject Cases.parseManifest
              (js "/w") Cases.manifest Cases.manifestJson
              (Some (JObject [ (js "react", JString (js "^18"));
                               (js "jest", JString (js "^29")) ]))
              (Some (JObject [ (js "jest", JBool false) ])))
    as [Hframeworks Htests]; try reflexivity.
  - apply (bool_decide_unpack _). by vm_compute.
  - apply (bool_decide_unpack _). by vm_compute.
  - split.
    + apply (Hframeworks "react" "React"); [|reflexivity].
      apply list_elem_of_In. simpl. tauto.
    + intros Hjest. apply (Htests "jest" "Jest") in Hjest; [discriminate Hjest|].
      apply list_elem_of_In. simpl. tauto.
Defined.

End StackNames.

(** ** The syntax-tree walks *)

Section TreeWalks.

Import FileUtils ParserUtils.

Lemma flat_map_nil {A B : Type} (f : A → list B) (l : list A) :
  Forall (fun x => f x = []) l → flat_map f l = [].
Proof. induction 1 as [|x l Hx _ IH]; [done|]. simpl. by rewrite Hx, IH. Qed.

Lemma traverse_unsupported (language : Language) (node : SyntaxNode) :
  (∀ name, name ∈ ["JavaScript"; "TypeScript"; "Python"; "Java"; "Go"; "Rust"]%string →
           isLabel language name = false) →
  traverseImports language node = [] ∧ traverseFunctions language node = [].
Proof.
  intros Hother.
  assert (isLabel language "JavaScript" = false) as Hjs by (apply Hother; set_solver).
  assert (isLabel language "TypeScript" = false) as Hts by (apply Hother; set_solver).
  assert (isLabel language "Python" = false) as Hpy by (apply Hother; set_solver).
  assert (isLabel language "Java" = false) as Hjava by (apply Hother; set_solver).
  assert (isLabel language "Go" = false) as Hgo by (apply Hother; set_solver).
  assert (isLabel language "Rust" = false) as Hrust by (apply Hother; set_solver).
  induction node as [type text row children IH] using SyntaxNode_nested_ind.
  cbn [traverseImports traverseFunctions].
  unfold importsAt, functionsAt, declares.
  rewrite Hjs, Hts, Hpy, Hjava, Hgo, Hrust. cbn [orb andb app].
  split; apply flat_map_nil; eapply Forall_impl; try exact IH; by intros child [? ?].
Qed.

Lemma stripQuotes_clean (text : jsstring) (c : N) :
  c ∈ stripQuotes text → c ≠ 34%N ∧ c ≠ 39%N.
Proof.
  unfold stripQuotes. intros [_ Hc]%list_elem_of_In%filter_In.
  apply negb_true_iff, orb_false_iff in Hc as [?%N.eqb_neq ?%N.eqb_neq]. done.
Qed.

Lemma importsAt_clean (language : Language) (node : SyntaxNode) :
  language = Label (js "JavaScript") ∨ language = Label (js "TypeScript")
  ∨ language = Label (js "Go") →
  Forall (fun imp => ∀ c, c ∈ imp → c ≠ 34%N ∧ c ≠ 39%N) (importsAt language node).
Proof.
  intros Hlanguage. unfold importsAt.
  assert (isLabel language "Python" = false ∧ isLabel language "Java" = false ∧
          isLabel language "Rust" = false) as (-> & -> & ->)
    by (by destruct Hlanguage as [-> | [-> | ->]]).
  rewrite !app_nil_r. apply Forall_app. split.
  - destruct (_ || _); [|done]. apply Forall_app. split.
    + destruct (_ || _); [|done]. apply Forall_forall.
      intros imp (text & <- & _)%list_elem_of_In%in_map_iff. apply stripQuotes_clean.
    + destruct (hasType node "call_expression"); [|done].
      destruct (childForFieldName node "function") as [callee|]; [|done].
      destruct (eqb _ _); [|done].
      destruct (childForFieldName node "arguments") as [args|]; [|done].
      destruct (namedChildren args) as [|firstArg rest]; [done|].
      apply Forall_singleton. apply stripQuotes_clean.
  - destruct (isLabel language "Go"); [|done].
    destruct (hasType node "import_declaration"); [|done].
    apply Forall_forall.
    intros imp (spec & _ & Himp)%list_elem_of_In%in_flat_map.
    apply in_map_iff in Himp as (text & <- & _). apply stripQuotes_clean.
Qed.

Lemma traverseImports_clean (language : Language) (node : SyntaxNode) :
  language = Label (js "JavaScript") ∨ language = Label (js "TypeScript")
  ∨ language = Label (js "Go") →
  Forall (fun imp => ∀ c, c ∈ imp → c ≠ 34%N ∧ c ≠ 39%N)
    (traverseImports language node).
Proof.
  intros Hlanguage.
  induction node as [type text row children IH] using SyntaxNode_nested_ind.
  cbn [traverseImports]. apply Forall_app. split; [by apply importsAt_clean|].
  apply Forall_flat_map. eapply Forall_impl; [exact IH|]. done.
Qed.

(** X30.  Whatever the syntax tree holds: for a language other than the
    six that have a grammar, extractImports and extractFunctions return
    nothing; an import extracted from a JavaScript, TypeScript or Go file
    contains no quote character; every function that extractFunctions
    reports has a line number of at least 1. *)
Theorem tree_walks_by_language (E : Env) (root : SyntaxNode) (language : Language) :
  ((∀ name, name ∈ ["JavaScript"; "TypeScript"; "Python"; "Java"; "Go"; "Rust"]%string →
            language ≠ Label (js name)) →
   extractImports E root language = [] ∧ extractFunctions E root language = []) ∧
  (language = Label (js "JavaScript") ∨ language = Label (js "TypeScript")
   ∨ language = Label (js "Go") →
   ∀ imp c, imp ∈ extractImports E root language → c ∈ imp → c ≠ 34%N ∧ c ≠ 39%N) ∧
  ∀ f, f ∈ extractFunctions E root language → 1 ≤ FunctionDecl.line f.
Proof.
  unfold extractImports, extractFunctions.
  destruct (Parser E) as [parse|].
  - split_and!.
    + intros Hother. apply traverse_unsupported.
      intros name Hname. by apply bool_decide_eq_false, Hother.
    + intros Hlanguage imp c Himp.
      by apply (proj1 (Forall_forall _ _) (traverseImports_clean language root Hlanguage)).
    + apply Forall_forall, traverseFunctions_lines.
  - split_and!; [done|by intros _ imp c ?%elem_of_nil|by intros f ?%elem_of_nil].
Qed.

Lemma tree_walks_by_language_witness :
  let E := Sample.ringProject Sample.ringFiles in
  extractImports E (Sample.importTree "b.js") (Label (js "JavaScript")) = [js "b.js"] ∧
  (∀ c, c ∈ js "b.js" → c ≠ 34%N ∧ c ≠ 39%N) ∧
  extractImports E (Sample.importTree "b.js") (Label (js "Markdown")) = [].
Proof.
  intros E.
  destruct (tree_walks_by_language E (Sample.importTree "b.js") (Label (js "JavaScript")))
    as (_ & Hclean & _).
  destruct (tree_walks_by_language E (Sample.importTree "b.js") (Label (js "Markdown")))
    as (Hnone & _ & _).
  split; [reflexivity|]. split.
  - intros c. apply (Hclean (or_introl eq_refl) (js "b.js")).
    apply list_elem_of_In. vm_compute. tauto.
  - apply Hnone. intros name Hname. apply list_elem_of_In in Hname. simpl in Hname.
    repeat (destruct Hname as [<-|Hname]; [by vm_compute|]). done.
Defined.

End TreeWalks.
